(** * ETL example project: field survey cleaning, weather message parsing
      and the per-station comparison report.

    A shallow embedding of [field_data_processor.py],
    [weather_data_processor.py] and [analysis.py].  Tables are pandas
    DataFrames; they are modelled column by column, the way pandas stores
    them.  Python exceptions are an explicit result type, object attributes
    are an explicit state, and [print] is an explicit output list. *)

From Stdlib Require Import List String Ascii ZArith Bool Arith Lia.
From Stdlib Require Import Floats Sorted Permutation.
From Stdlib Require OrderedTypeEx.
From Equations Require Import Equations.
Import ListNotations.

Local Open Scope string_scope.
Local Open Scope list_scope.

(** ** Python values and exceptions *)

(** A cell of a table.  [VNone] is the missing cell: Python's [None], and
    the NaN pandas keeps in its place in a column of numbers; pandas takes
    the two for the same ([isna]), and so do the operations below.  A NaN
    that was computed or filled in is [VFloat nan]. *)
Inductive value : Type :=
| VInt (z : Z)
| VFloat (f : float)
| VStr (s : string)
| VNone.

Inductive exn : Type :=
| KeyError (key : string)
| IndexError
| ValueError
| TypeError
| AttributeError
| StopIteration
| OSError.

Inductive res (A : Type) : Type :=
| Ok (a : A)
| Raise (e : exn).
Arguments Ok {A} a.
Arguments Raise {A} e.

Definition rbind {A B} (r : res A) (k : A -> res B) : res B :=
  match r with
  | Ok a => k a
  | Raise e => Raise e
  end.

Declare Scope res_scope.
Delimit Scope res_scope with res.
Notation "x <- r ;; k" := (rbind r (fun x => k))
  (at level 61, r at next level, right associativity) : res_scope.

Fixpoint mapM {A B} (f : A -> res B) (l : list A) : res (list B) :=
  match l with
  | [] => Ok []
  | a :: l' => (b <- f a ;; bs <- mapM f l' ;; Ok (b :: bs))%res
  end.

(** ** DataFrames *)

(** A DataFrame: the length of its index and its labelled columns, in
    order.  Labels may repeat, as in pandas. *)
Record DataFrame : Type := mkDF {
  nrows : nat;
  series : list (string * list value)
}.

Definition columns (df : DataFrame) : list string := map fst (series df).

(** Every column has one cell per index entry. *)
Definition wf_df (df : DataFrame) : Prop :=
  Forall (fun c => List.length (snd c) = nrows df) (series df).

Definition mem (s : string) (l : list string) : bool :=
  existsb (String.eqb s) l.

(** [df.rename(columns=m)]: every label that is a key of [m] is replaced,
    all at once; labels that are not keys stay. [m] is a dict, looked up
    by key. *)
Fixpoint dict_get {V} (m : list (string * V)) (k : string) : option V :=
  match m with
  | [] => None
  | (k', v) :: m' => if String.eqb k k' then Some v else dict_get m' k
  end.

(** A dict display [{k1: v1, k2: v2}]: a later entry for the same key
    replaces the value and keeps the first position. *)
Fixpoint dict_set {V} (m : list (string * V)) (k : string) (v : V)
  : list (string * V) :=
  match m with
  | [] => [(k, v)]
  | (k', v') :: m' =>
      if String.eqb k k' then (k', v) :: m' else (k', v') :: dict_set m' k v
  end.

Definition dict_of {V} (l : list (string * V)) : list (string * V) :=
  fold_left (fun m kv => dict_set m (fst kv) (snd kv)) l [].

Definition rename_label (m : list (string * string)) (n : string) : string :=
  match dict_get m n with
  | Some n' => n'
  | None => n
  end.

Definition rename (m : list (string * string)) (df : DataFrame) : DataFrame :=
  mkDF (nrows df) (map (fun c => (rename_label m (fst c), snd c)) (series df)).

(** ** The placeholder name of the column swap *)

Definition count_ge (n : nat) (l : list string) : nat :=
  List.length (filter (fun s => n <=? String.length s)%nat l).

Lemma length_append (s t : string) :
  String.length (s ++ t) = (String.length s + String.length t)%nat.
Proof. induction s; simpl; auto. Qed.

Lemma mem_In s l : mem s l = true <-> In s l.
Proof.
  unfold mem. rewrite existsb_exists. split.
  - intros (x & Hx & E). apply String.eqb_eq in E. subst. exact Hx.
  - intro H. exists s. split; [exact H | apply String.eqb_refl].
Qed.

Lemma count_ge_step s l :
  mem s l = true ->
  (count_ge (String.length (s ++ "_")) l < count_ge (String.length s) l)%nat.
Proof.
  intro H. apply mem_In in H. rewrite length_append. simpl.
  unfold count_ge. induction l as [|x l IH]; [destruct H|].
  simpl. destruct H as [-> | H].
  - rewrite Nat.leb_refl.
    replace (String.length s + 1 <=? String.length s)%nat with false
      by (symmetry; apply Nat.leb_gt; lia).
    simpl. apply Nat.lt_succ_r.
    clear. induction l as [|y l IH]; simpl; auto.
    destruct (String.length s + 1 <=? String.length y)%nat eqn:E1.
    + apply Nat.leb_le in E1.
      replace (String.length s <=? String.length y)%nat with true
        by (symmetry; apply Nat.leb_le; lia).
      simpl. lia.
    + destruct (String.length s <=? String.length y)%nat; simpl; lia.
  - specialize (IH H).
    destruct (String.length s + 1 <=? String.length x)%nat eqn:E1.
    + apply Nat.leb_le in E1.
      replace (String.length s <=? String.length x)%nat with true
        by (symmetry; apply Nat.leb_le; lia).
      simpl. lia.
    + destruct (String.length s <=? String.length x)%nat; simpl; lia.
Qed.

Definition inspect {A} (a : A) : {b : A | a = b} := exist _ a eq_refl.

(** [while temp_name in self.df.columns: temp_name += "_"].  The loop ends:
    each round the candidate is a column of its own length, so fewer
    columns are at least as long as the next candidate. *)
Equations? fresh_name (temp_name : string) (cols : list string) : string
  by wf (count_ge (String.length temp_name) cols) lt :=
  fresh_name temp_name cols with inspect (mem temp_name cols) => {
    | exist _ true E => fresh_name (temp_name ++ "_") cols;
    | exist _ false _ => temp_name }.
Proof. apply count_ge_step. exact E. Qed.

(** ** Column access *)

Fixpoint lookup_series (c : string) (l : list (string * list value))
  : option (list value) :=
  match l with
  | [] => None
  | (n, col) :: l' => if String.eqb c n then Some col else lookup_series c l'
  end.

(** [df[c]].  A label that is no column raises [KeyError].  Where a label
    occurs more than once pandas hands back a sub-frame; the model covers
    the frames of this pipeline, whose accessed labels occur once, and
    reads the first such column. *)
Definition getitem (df : DataFrame) (c : string) : res (list value) :=
  match lookup_series c (series df) with
  | Some col => Ok col
  | None => Raise (KeyError c)
  end.

Fixpoint replace_series (c : string) (vals : list value)
  (l : list (string * list value)) : list (string * list value) :=
  match l with
  | [] => []
  | (n, col) :: l' =>
      if String.eqb c n then (n, vals) :: l'
      else (n, col) :: replace_series c vals l'
  end.

(** [df[c] = vals] for a list-like [vals]: its length must be that of the
    index ([ValueError] otherwise); an existing column is overwritten in
    place, a new label is appended as the last column. *)
Definition setitem (df : DataFrame) (c : string) (vals : list value)
  : res DataFrame :=
  if negb (List.length vals =? nrows df)%nat then Raise ValueError
  else if mem c (columns df)
       then Ok (mkDF (nrows df) (replace_series c vals (series df)))
       else Ok (mkDF (nrows df) (series df ++ [(c, vals)])).

Definition not_label (c : string) (col : string * list value) : bool :=
  negb (String.eqb (fst col) c).

(** [df.drop(columns=c)]: every column with the label goes; when there is
    none pandas raises [KeyError] with the message
    ['c'] not found in axis. *)
Definition drop (df : DataFrame) (c : string) : res DataFrame :=
  if mem c (columns df)
  then Ok (mkDF (nrows df) (filter (not_label c) (series df)))
  else Raise (KeyError ("['" ++ c ++ "'] not found in axis")%string).

(** ** Cell arithmetic and comparison *)

(** An int64 cell wraps around. *)
Definition wrap64 (z : Z) : Z :=
  ((z + 2 ^ 63) mod 2 ^ 64 - 2 ^ 63)%Z.

(** The int64 to float64 cast numpy applies when an integer meets a
    float. *)
Definition float_of_int64 (z : Z) : float :=
  if (z =? - 2 ^ 63)%Z then (-0x1p63)%float
  else if (z <? 0)%Z
  then PrimFloat.opp (PrimFloat.of_uint63 (Uint63.of_Z (- z)))
  else PrimFloat.of_uint63 (Uint63.of_Z z).

(** A cell that is a number. *)
Definition is_numeric (v : value) : bool :=
  match v with
  | VInt _ | VFloat _ => true
  | _ => false
  end.

Definition is_text (v : value) : bool :=
  match v with
  | VStr _ => true
  | _ => false
  end.

Definition is_int (v : value) : bool :=
  match v with
  | VInt _ => true
  | _ => false
  end.

Definition is_int64 (v : value) : bool :=
  match v with
  | VInt z => (- 2 ^ 63 <=? z)%Z && (z <? 2 ^ 63)%Z
  | _ => false
  end.

(** The type pandas gives a column, read off its cells: a column with a
    text cell is an object column; a column of integers is [int64]; any
    other column of numbers, with or without missing cells, is [float64].
    A column without any number or text is taken for the object column of
    [None] that [read_sql_query] makes of it; a file column that is empty
    throughout, which [read_csv] makes [float64], is not among the tables
    covered. *)
Inductive dtype : Type := Int64 | Float64 | Object.

Definition dtype_of (col : list value) : dtype :=
  if existsb is_text col then Object
  else if negb (existsb is_numeric col) then Object
  else if forallb is_int64 col then Int64
  else Float64.

(** [abs] of one cell of a column of type [dt].  An [int64] wraps around;
    a missing cell of a float column is NaN and stays; text and the [None]
    of an object column have no [abs]. *)
Definition abs_value (dt : dtype) (v : value) : res value :=
  match v with
  | VInt z => Ok (VInt (match dt with
                        | Int64 => wrap64 (Z.abs z)
                        | _ => Z.abs z
                        end))
  | VFloat f => Ok (VFloat (PrimFloat.abs f))
  | VStr _ => Raise TypeError
  | VNone => match dt with
             | Float64 => Ok VNone
             | _ => Raise TypeError
             end
  end.

(** [Series.abs()]. *)
Definition series_abs (col : list value) : res (list value) :=
  mapM (abs_value (dtype_of col)) col.

(** Elementwise [==]: numbers compare by value (NaN equals nothing),
    strings by content, a missing cell equals nothing. *)
Definition value_eq (a b : value) : bool :=
  match a, b with
  | VInt x, VInt y => (x =? y)%Z
  | VFloat x, VFloat y => PrimFloat.eqb x y
  | VInt x, VFloat y => PrimFloat.eqb (float_of_int64 x) y
  | VFloat x, VInt y => PrimFloat.eqb x (float_of_int64 y)
  | VStr x, VStr y => String.eqb x y
  | _, _ => false
  end.

Definition is_null (v : value) : bool :=
  match v with
  | VNone => true
  | VFloat f => PrimFloat.is_nan f
  | _ => false
  end.

(** Join keys: as [==], and a missing key matches a missing key. *)
Definition key_eq (a b : value) : bool :=
  value_eq a b || (is_null a && is_null b).

(** [df[mask]] on one column: the cells whose mask entry is true. *)
Fixpoint select (mask : list bool) (col : list value) : list value :=
  match mask, col with
  | true :: m, v :: c => v :: select m c
  | false :: m, _ :: c => select m c
  | _, _ => []
  end.

Definition count_true (mask : list bool) : nat :=
  List.length (filter (fun b => b) mask).

Definition bool_index (df : DataFrame) (mask : list bool) : DataFrame :=
  mkDF (count_true mask)
       (map (fun c => (fst c, select mask (snd c))) (series df)).

(** ** Left merge *)

(** Positions of the rows of [keys] whose key matches [k], counted from
    [i]. *)
Fixpoint matches (k : value) (keys : list value) (i : nat) : list nat :=
  match keys with
  | [] => []
  | k' :: rest =>
      if key_eq k k' then i :: matches k rest (S i) else matches k rest (S i)
  end.

(** The join indexer of [how='left']: left rows in their order, each
    paired with every matching right row, or with no right row. *)
Fixpoint left_indexer (lkeys rkeys : list value) (i : nat)
  : list (nat * option nat) :=
  match lkeys with
  | [] => []
  | k :: rest =>
      match matches k rkeys 0 with
      | [] => [(i, None)]
      | js => map (fun j => (i, Some j)) js
      end ++ left_indexer rest rkeys (S i)
  end.

Definition take_left (ix : list (nat * option nat)) (col : list value)
  : list value :=
  map (fun p => nth (fst p) col VNone) ix.

(** Some left row has no right row. *)
Definition has_unmatched (ix : list (nat * option nat)) : bool :=
  existsb (fun p => match snd p with
                    | None => true
                    | Some _ => false
                    end) ix.

(** An [int64] cell in the float column that takes its place when a
    missing cell has to go into the column. *)
Definition as_float (v : value) : value :=
  match v with
  | VInt z => VFloat (float_of_int64 z)
  | _ => v
  end.

Definition widen (col : list value) : list value :=
  match dtype_of col with
  | Int64 => map as_float col
  | _ => col
  end.

(** The right column along the indexer.  A left row without a right row
    gets NaN, and then a column of integers comes out as floats. *)
Definition take_right (ix : list (nat * option nat)) (col : list value)
  : list value :=
  let col := if has_unmatched ix then widen col else col in
  map (fun p => match snd p with
                | Some j => nth j col VNone
                | None => VFloat nan
                end) ix.

(** The check pandas makes on the two key columns before it joins: it
    refuses to join an object column that holds no integer with a column
    of numbers.  A column without rows is not checked against one with
    rows. *)
Definition mergeable (lkeys rkeys : list value) : bool :=
  match lkeys, rkeys with
  | [], _ :: _ | _ :: _, [] => true
  | _, _ =>
      match dtype_of lkeys, dtype_of rkeys with
      | Object, Object => true
      | Object, _ => existsb is_int lkeys
      | _, Object => existsb is_int rkeys
      | _, _ => true
      end
  end.

(** [left.merge(right, on=key, how='left')].  The key must be a column of
    both sides ([KeyError]) and the two key columns must be of types
    pandas joins ([ValueError]).  The result has the left columns, then
    the right columns without the key; a label the two sides share, other
    than the key, gets the suffix [_x] on the left and [_y] on the
    right. *)
Definition merge_left (left right : DataFrame) (key : string)
  : res DataFrame :=
  (rkeys <- getitem right key ;;
   lkeys <- getitem left key ;;
   _ <- (if mergeable lkeys rkeys then Ok tt else Raise ValueError) ;;
   let ix := left_indexer lkeys rkeys 0 in
   let shared n :=
     negb (String.eqb n key) && mem n (columns left) && mem n (columns right) in
   let lcols :=
     map (fun c => (if shared (fst c) then (fst c ++ "_x")%string else fst c,
                    take_left ix (snd c))) (series left) in
   let rcols :=
     map (fun c => (if shared (fst c) then (fst c ++ "_y")%string else fst c,
                    take_right ix (snd c)))
         (filter (not_label key) (series right)) in
   Ok (mkDF (List.length ix) (lcols ++ rcols)))%res.

(** ** Objects and external sources: a state and exception monad *)

(** A call to the data-acquisition layer ([data_ingestion], outside this
    code base's core): what was asked for, in call order. *)
Inductive call : Type :=
| CreateEngine (db_path : string)
| QueryData (sql : string)
| ReadCSV (url : string)
| ToCSV (path : string) (table : DataFrame).

(** A computation with a state of type [S] that may raise.  An exception
    leaves the state as it was when it was raised. *)
Definition M (S A : Type) : Type := S -> res A * S.

Definition ret {S A} (a : A) : M S A := fun s => (Ok a, s).

Definition bind {S A B} (m : M S A) (k : A -> M S B) : M S B :=
  fun s =>
    match m s with
    | (Ok a, s') => k a s'
    | (Raise e, s') => (Raise e, s')
    end.

Definition lift {S A} (r : res A) : M S A := fun s => (r, s).

(** A method runs on its object [self] and on the record of external
    calls made so far. *)
Record run (O : Type) : Type := mkRun {
  self : O;
  calls : list call
}.
Arguments mkRun {O} self calls.
Arguments self {O} r.
Arguments calls {O} r.

Definition get_self {O} : M (run O) O := fun s => (Ok (self s), s).

Definition set_self {O} (o : O) : M (run O) unit :=
  fun s => (Ok tt, mkRun o (calls s)).

(** An external call: recorded, then its outcome. *)
Definition external {O A} (c : call) (r : res A) : M (run O) A :=
  fun s => (r, mkRun (self s) (calls s ++ [c])).

(** [for x in l: body(x)]. *)
Fixpoint for_each {S A} (l : list A) (body : A -> M S unit) : M S unit :=
  match l with
  | [] => ret tt
  | x :: l' => bind (body x) (fun _ => for_each l' body)
  end.

Declare Scope m_scope.
Delimit Scope m_scope with M.
Notation "x <- m ;; k" := (bind m (fun x => k))
  (at level 61, m at next level, right associativity) : m_scope.
Notation "m ;; k" := (bind m (fun _ => k))
  (at level 61, right associativity) : m_scope.

(** The three functions of [data_ingestion] the processors call.  They
    are inputs of the pipeline: any tables, or any failure. *)
Record DataSources (Engine : Type) : Type := mkSources {
  create_db_engine : string -> res Engine;
  query_data : Engine -> string -> res DataFrame;
  read_from_web_CSV : string -> res DataFrame
}.
Arguments create_db_engine {Engine} d _.
Arguments query_data {Engine} d _ _.
Arguments read_from_web_CSV {Engine} d _.

(** [config_params]: a dict; an absent key is [None] here and a
    [KeyError] when it is looked up. *)
Record Config : Type := mkConfig {
  cfg_sql_query : option string;
  cfg_db_path : option string;
  cfg_columns_to_rename : option (list (string * string));
  cfg_values_to_rename : option (list (string * string));
  cfg_weather_mapping_csv : option string;
  cfg_weather_csv_path : option string;
  cfg_regex_patterns : option (list (string * string))
}.

Definition config_get {A} (field : option A) (key : string) : res A :=
  match field with
  | Some a => Ok a
  | None => Raise (KeyError key)
  end.

(** ** FieldDataProcessor *)

Record FieldDataProcessor (Engine : Type) : Type := mkFieldDataProcessor {
  db_path : string;
  sql_query : string;
  columns_to_rename : list (string * string);
  values_to_rename : list (string * string);
  weather_map_data : string;
  df : option DataFrame;
  engine : option Engine
}.
Arguments mkFieldDataProcessor {Engine}.
Arguments db_path {Engine} f.
Arguments sql_query {Engine} f.
Arguments columns_to_rename {Engine} f.
Arguments values_to_rename {Engine} f.
Arguments weather_map_data {Engine} f.
Arguments df {Engine} f.
Arguments engine {Engine} f.

Definition with_df {Engine} (p : FieldDataProcessor Engine)
  (d : option DataFrame) : FieldDataProcessor Engine :=
  mkFieldDataProcessor (db_path p) (sql_query p) (columns_to_rename p)
    (values_to_rename p) (weather_map_data p) d (engine p).

Definition with_engine {Engine} (p : FieldDataProcessor Engine)
  (e : option Engine) : FieldDataProcessor Engine :=
  mkFieldDataProcessor (db_path p) (sql_query p) (columns_to_rename p)
    (values_to_rename p) (weather_map_data p) (df p) e.

(** [self.df] used as a table: [None] has no attributes. *)
Definition the_df (d : option DataFrame) : res DataFrame :=
  match d with
  | Some t => Ok t
  | None => Raise AttributeError
  end.

(** [self.df[...]]: [None] cannot be subscripted. *)
Definition subscript_df (d : option DataFrame) : res DataFrame :=
  match d with
  | Some t => Ok t
  | None => Raise TypeError
  end.

(** [list(d.keys())[0]] and [list(d.values())[0]]. *)
Definition first_key {V} (d : list (string * V)) : res string :=
  match d with
  | [] => Raise IndexError
  | (k, _) :: _ => Ok k
  end.

Definition first_value {V} (d : list (string * V)) : res V :=
  match d with
  | [] => Raise IndexError
  | (_, v) :: _ => Ok v
  end.

Module Field.
Section Methods.
Context {Engine : Type} (src : DataSources Engine).

Let FM := M (run (FieldDataProcessor Engine)).

Definition init (config_params : Config)
  : res (FieldDataProcessor Engine) :=
  (dbp <- config_get (cfg_db_path config_params) "db_path" ;;
   sql <- config_get (cfg_sql_query config_params) "sql_query" ;;
   ctr <- config_get (cfg_columns_to_rename config_params)
            "columns_to_rename" ;;
   vtr <- config_get (cfg_values_to_rename config_params)
            "values_to_rename" ;;
   wmd <- config_get (cfg_weather_mapping_csv config_params)
            "weather_mapping_csv" ;;
   Ok (mkFieldDataProcessor dbp sql ctr vtr wmd None None))%res.

Definition ingest_sql_data : FM (option DataFrame) :=
  (p <- get_self ;;
   e <- external (CreateEngine (db_path p)) (create_db_engine src (db_path p)) ;;
   set_self (with_engine p (Some e)) ;;
   p <- get_self ;;
   t <- external (QueryData (sql_query p)) (query_data src e (sql_query p)) ;;
   set_self (with_df p (Some t)) ;;
   ret (Some t))%M.

Definition rename_columns : FM unit :=
  (p <- get_self ;;
   column1 <- lift (first_key (columns_to_rename p)) ;;
   column2 <- lift (first_value (columns_to_rename p)) ;;
   let temp_name := "__temp_name_for_swap__" in
   t <- lift (the_df (df p)) ;;
   let temp_name := fresh_name temp_name (columns t) in
   let t1 := rename (dict_of [(column1, temp_name); (column2, column1)]) t in
   set_self (with_df p (Some t1)) ;;
   p <- get_self ;;
   let t2 := rename (dict_of [(temp_name, column2)]) t1 in
   set_self (with_df p (Some t2)))%M.

(** [crop -> self.values_to_rename.get(crop, crop)]; the keys of the
    table are strings, so only a string can be one of them. *)
Definition correct_value (values : list (string * string)) (crop : value)
  : value :=
  match crop with
  | VStr s => match dict_get values s with
              | Some s' => VStr s'
              | None => crop
              end
  | _ => crop
  end.

Definition apply_corrections (column_name abs_column : string) : FM unit :=
  (p <- get_self ;;
   t <- lift (subscript_df (df p)) ;;
   col <- lift (getitem t abs_column) ;;
   absd <- lift (series_abs col) ;;
   t1 <- lift (setitem t abs_column absd) ;;
   set_self (with_df p (Some t1)) ;;
   p <- get_self ;;
   col <- lift (getitem t1 column_name) ;;
   let fixed := map (correct_value (values_to_rename p)) col in
   t2 <- lift (setitem t1 column_name fixed) ;;
   set_self (with_df p (Some t2)))%M.

Definition weather_station_mapping : FM DataFrame :=
  (p <- get_self ;;
   external (ReadCSV (weather_map_data p))
            (read_from_web_CSV src (weather_map_data p)))%M.

Definition process : FM unit :=
  (ingest_sql_data ;;
   rename_columns ;;
   apply_corrections "Crop_type" "Elevation" ;;
   weather_map_df <- weather_station_mapping ;;
   p <- get_self ;;
   t <- lift (the_df (df p)) ;;
   merged <- lift (merge_left t weather_map_df "Field_ID") ;;
   set_self (with_df p (Some merged)) ;;
   p <- get_self ;;
   dropped <- lift (drop merged "Unnamed: 0") ;;
   set_self (with_df p (Some dropped)))%M.
End Methods.
End Field.

(** ** WeatherDataProcessor *)

(** The library functions the code rests on besides the table operations.
    [re_search pattern message] is [re.search]: an exception, no match, or
    the captured groups of the leftmost match ([None] for a group that took
    no part).  [py_float] is [float] on a string.  [write_csv path table]
    is the writing of the file under [DataFrame.to_csv]: it is done, or it
    raises (an [OSError] when the path cannot be written). *)
Record Builtins : Type := mkBuiltins {
  re_search : string -> value -> res (option (list (option string)));
  py_float : string -> res float;
  write_csv : string -> DataFrame -> res unit
}.

Record WeatherDataProcessor : Type := mkWeatherDataProcessor {
  weather_station_data : string;
  patterns : list (string * string);
  weather_df : option DataFrame
}.

Definition with_weather_df (p : WeatherDataProcessor) (d : option DataFrame)
  : WeatherDataProcessor :=
  mkWeatherDataProcessor (weather_station_data p) (patterns p) d.

(** [next(x for x in groups if x is not None)]. *)
Fixpoint next_not_none (groups : list (option string)) : res string :=
  match groups with
  | [] => Raise StopIteration
  | Some x :: _ => Ok x
  | None :: rest => next_not_none rest
  end.

(** [zip] over the unpacked [result], assigned to two targets: the first
    and the second components; with no row [zip] yields nothing and the
    assignment has nothing to unpack. *)
Definition unzip2 (result : list (value * value))
  : res (list value * list value) :=
  match result with
  | [] => Raise ValueError
  | _ :: _ => Ok (map fst result, map snd result)
  end.

Module Weather.
Section Methods.
Context {Engine : Type} (src : DataSources Engine) (lib : Builtins).

Let WM := M (run WeatherDataProcessor).

Definition init (config_params : Config)
  : res WeatherDataProcessor :=
  (wsd <- config_get (cfg_weather_csv_path config_params)
            "weather_csv_path" ;;
   pats <- config_get (cfg_regex_patterns config_params)
             "regex_patterns" ;;
   Ok (mkWeatherDataProcessor wsd pats None))%res.

Definition weather_station_mapping : WM unit :=
  (p <- get_self ;;
   t <- external (ReadCSV (weather_station_data p))
                 (read_from_web_CSV src (weather_station_data p)) ;;
   set_self (with_weather_df p (Some t)))%M.

(** The loop over [self.patterns.items()], from the entries [items] on. *)
Fixpoint extract_from (items : list (string * string)) (message : value)
  : res (value * value) :=
  match items with
  | [] => Ok (VNone, VNone)
  | (key, pattern) :: rest =>
      (m <- re_search lib pattern message ;;
       match m with
       | Some groups =>
           x <- next_not_none groups ;;
           f <- py_float lib x ;;
           Ok (VStr key, VFloat f)
       | None => extract_from rest message
       end)%res
  end.

Definition extract_measurement (p : WeatherDataProcessor) (message : value)
  : res (value * value) :=
  extract_from (patterns p) message.

Definition process_messages : WM (option DataFrame) :=
  (p <- get_self ;;
   match weather_df p with
   | Some t =>
       col <- lift (getitem t "Message") ;;
       result <- lift (mapM (extract_measurement p) col) ;;
       cols <- lift (unzip2 result) ;;
       t1 <- lift (setitem t "Measurement" (fst cols)) ;;
       set_self (with_weather_df p (Some t1)) ;;
       p <- get_self ;;
       t2 <- lift (setitem t1 "Value" (snd cols)) ;;
       set_self (with_weather_df p (Some t2)) ;;
       ret (Some t2)
   | None => ret None
   end)%M.

Definition process : WM unit :=
  (weather_station_mapping ;;
   process_messages ;;
   ret tt)%M.
End Methods.
End Weather.

(** ** analysis.py *)

(** A printed line, as the f-string builds it: literal text and formatted
    fields.  [Fmt v] is [{v}], [Fmt5f x] is [{x:.5f}].  [print()] is the
    empty line. *)
Inductive piece : Type :=
| Lit (s : string)
| Fmt (v : value)
| Fmt5f (x : float).

Definition line : Type := list piece.

Definition print (l : line) : M (list line) unit :=
  fun out => (Ok tt, out ++ [l]).

(** [Series.unique()]: the distinct cells in order of first appearance. *)
Fixpoint unique_from (seen : list value) (col : list value) : list value :=
  match col with
  | [] => []
  | v :: rest =>
      if existsb (key_eq v) seen then unique_from seen rest
      else v :: unique_from (v :: seen) rest
  end.

Definition unique (col : list value) : list value := unique_from [] col.

(** [a < b] on two items of the array [unique()] returns: numbers by
    value (an integer beside a float is a float in such an array), text by
    code points.  NaN, the missing cell of an array of numbers, is less
    than nothing and nothing is less than it.  Text against anything else
    raises [TypeError]. *)
Definition py_lt (a b : value) : res bool :=
  match a, b with
  | VInt x, VInt y => Ok (x <? y)%Z
  | VFloat x, VFloat y => Ok (PrimFloat.ltb x y)
  | VInt x, VFloat y => Ok (PrimFloat.ltb (float_of_int64 x) y)
  | VFloat x, VInt y => Ok (PrimFloat.ltb x (float_of_int64 y))
  | VStr x, VStr y => Ok (String.ltb x y)
  | VStr _, _ | _, VStr _ => Raise TypeError
  | VNone, _ | _, VNone => Ok false
  end.

(** [sorted]: Python's sort is stable and compares with [<] only.  Where
    [<] orders the items, which it does for numbers without NaN and for
    text, every such sort returns the same list, and the model computes it
    by insertion: each item goes behind the items before it and moves left
    past every item it is less than.  With a NaN among the items [<] is no
    order, and what Python returns then depends on the comparisons its
    merge sort happens to make; the model gives what the insertion gives.
    Two things hold whatever the comparisons: the result is a
    rearrangement of the items, and a list in which no item is less than
    the item before it comes back as it is.

    [insert_from_right x racc]: [racc] is the part done so far, last item
    first. *)
Fixpoint insert_from_right (x : value) (racc : list value)
  : res (list value) :=
  match racc with
  | [] => Ok [x]
  | y :: rest =>
      (lt <- py_lt x y ;;
       if lt : bool
       then (r <- insert_from_right x rest ;; Ok (y :: r))
       else Ok (x :: racc))%res
  end.

Fixpoint sort_onto (racc l : list value) : res (list value) :=
  match l with
  | [] => Ok (rev racc)
  | x :: rest =>
      (racc' <- insert_from_right x racc ;; sort_onto racc' rest)%res
  end.

Definition sorted (l : list value) : res (list value) := sort_onto [] l.

Module Analysis.

Definition measurements_to_compare : list string :=
  ["Temperature"; "Rainfall"; "Pollution_level"].

Definition filter_field_data (df : DataFrame) (station_id : value)
  (measurement : string) : res (list value) :=
  (ws <- getitem df "Weather_station" ;;
   let mask := map (fun v => value_eq v station_id) ws in
   getitem (bool_index df mask) measurement)%res.

Definition filter_weather_data (df : DataFrame) (station_id : value)
  (measurement : string) : res (list value) :=
  (ws <- getitem df "Weather_station_ID" ;;
   ms <- getitem df "Measurement" ;;
   let mask :=
     map (fun ab => value_eq (fst ab) station_id
                    && value_eq (snd ab) (VStr measurement))
         (combine ws ms) in
   getitem (bool_index df mask) "Value")%res.

Definition print_ttest_results (station_id : value) (measurement : string)
  (p_val alpha : float) : M (list line) unit :=
  if PrimFloat.leb p_val alpha
  then print [Lit "   Significant difference in "; Fmt (VStr measurement);
              Lit " detected at Station  "; Fmt station_id;
              Lit ", (P-Value: "; Fmt5f p_val; Lit " < ";
              Fmt (VFloat alpha); Lit "). Null hypothesis rejected."]
  else print [Lit "   No significant difference in "; Fmt (VStr measurement);
              Lit " detected at Station  "; Fmt station_id;
              Lit ", (P-Value: "; Fmt5f p_val; Lit " > ";
              Fmt (VFloat alpha); Lit "). Null hypothesis not rejected."].

Section Comparator.
(** [scipy.stats.ttest_ind]: the two samples and [equal_var] in, the
    statistic and the p-value out. *)
Variable ttest_ind :
  list value -> list value -> bool -> res (float * float).

Definition run_ttest (Column_A Column_B : list value)
  : res (float * float) :=
  (tp <- ttest_ind Column_A Column_B false ;;
   Ok (fst tp, snd tp))%res.

Definition hypothesis_results (field_df weather_df : DataFrame)
  (list_measurements_to_compare : list string) (alpha : float)
  : M (list line) unit :=
  (ids <- lift (getitem weather_df "Weather_station_ID") ;;
   unique_station_ids <- lift (sorted (unique ids)) ;;
   for_each unique_station_ids (fun station_id =>
     for_each measurements_to_compare (fun measurement =>
       field_values <-
         lift (filter_field_data field_df station_id measurement) ;;
       weather_values <-
         lift (filter_weather_data weather_df station_id measurement) ;;
       tp <- lift (run_ttest field_values weather_values) ;;
       print_ttest_results station_id measurement (snd tp) alpha) ;;
     print []))%M.
End Comparator.

End Analysis.

(** ** initialize_logging *)

(** The part of the [logging] module the two classes use.  A logger has a
    propagation flag, a disabled flag, a level and its handlers; a handler
    is a stream handler with the format string of its formatter.
    [logging.getLogger(name)] hands out one logger per name for the whole
    process, so every processor of a class works on the same logger. *)
Module Logging.

Record Handler : Type := mkHandler { formatter : string }.

Record Logger : Type := mkLogger {
  propagate : bool;
  disabled : bool;
  level : Z;
  handlers : list Handler
}.

(** The logger [getLogger] creates for a name it has not seen. *)
Definition new_logger : Logger := mkLogger true false 0 [].

Definition DEBUG : Z := 10.
Definition INFO : Z := 20.

(** [str.upper] on ASCII text: the letters a to z become A to Z. *)
Definition upper_char (c : ascii) : ascii :=
  let n := nat_of_ascii c in
  if ((97 <=? n) && (n <=? 122))%nat then ascii_of_nat (n - 32) else c.

Fixpoint upper (s : string) : string :=
  match s with
  | EmptyString => EmptyString
  | String c s' => String (upper_char c) (upper s')
  end.

Definition setLevel (lg : Logger) (log_level : Z) : Logger :=
  mkLogger (propagate lg) (disabled lg) log_level (handlers lg).

Definition addHandler (lg : Logger) (h : Handler) : Logger :=
  mkLogger (propagate lg) (disabled lg) (level lg) (handlers lg ++ [h]).

(** [initialize_logging(logging_level)], on the logger of the class. *)
Definition initialize_logging (logging_level : string) (logger : Logger)
  : Logger :=
  let logger := mkLogger false (disabled logger) (level logger)
                  (handlers logger) in
  let configure log_level :=
    let logger := setLevel logger log_level in
    match handlers logger with
    | [] =>
        addHandler logger
          (mkHandler "%(asctime)s - %(name)s - %(levelname)s - %(message)s")
    | _ :: _ => logger
    end in
  if String.eqb (upper logging_level) "DEBUG" then configure DEBUG
  else if String.eqb (upper logging_level) "INFO" then configure INFO
  else if String.eqb (upper logging_level) "NONE"
       then mkLogger (propagate logger) true (level logger) (handlers logger)
       else configure INFO.

(** The logger of a class after the processors built with the levels
    [levels], one after the other. *)
Definition after_inits (levels : list string) (logger : Logger) : Logger :=
  fold_left (fun lg l => initialize_logging l lg) levels logger.

End Logging.

(** ** The scripts *)

Module Script.
Section Script.
Context {Engine : Type} (src : DataSources Engine) (lib : Builtins).

(** A method call on an object from a script: the script carries the
    record of external calls, the object is handed back. *)
Definition call_method {O A} (o : O) (m : M (run O) A)
  : M (list call) (A * O) :=
  fun log =>
    match m (mkRun o log) with
    | (Ok a, r) => (Ok (a, self r), calls r)
    | (Raise e, r) => (Raise e, calls r)
    end.

(** [d.to_csv(path, index=False)]: the write is asked for and recorded;
    it may fail. *)
Definition to_csv (d : option DataFrame) (path : string)
  : M (list call) unit :=
  fun log =>
    match d with
    | Some t => (write_csv lib path t, log ++ [ToCSV path t])
    | None => (Raise AttributeError, log)
    end.

(** [start_test.py] is a notebook cell: its line 45 is an IPython shell
    escape, which plain Python does not accept.  This is the cell up to
    that line, the export of the two tables. *)
Definition start_test (config_params : Config) : M (list call) unit :=
  (field_processor <- lift (Field.init (Engine:=Engine) config_params) ;;
   r <- call_method field_processor (Field.process src) ;;
   let field_df := df (snd r) in
   weather_processor <- lift (Weather.init config_params) ;;
   r <- call_method weather_processor (Weather.process src lib) ;;
   let weather_df := weather_df (snd r) in
   to_csv weather_df "sampled_weather_df.csv" ;;
   to_csv field_df "sampled_field_df.csv")%M.
End Script.
End Script.

(** [validate_data.py]: the fixture [data] that every test receives.  Both
    processors are built before either runs. *)
Module Validate.
Section Fixture.
Context {Engine : Type} (src : DataSources Engine) (lib : Builtins).

Definition data (config_params : Config)
  : M (list call) (option DataFrame * option DataFrame) :=
  (weather_processor <- lift (Weather.init config_params) ;;
   field_processor <- lift (Field.init (Engine:=Engine) config_params) ;;
   rf <- Script.call_method field_processor (Field.process src) ;;
   rw <- Script.call_method weather_processor (Weather.process src lib) ;;
   let field_df := df (snd rf) in
   let weather_df := weather_df (snd rw) in
   ret (weather_df, field_df))%M.
End Fixture.
End Validate.

(** * Vocabulary of the properties *)

Definition swap_label (a b n : string) : string :=
  if String.eqb n a then b else if String.eqb n b then a else n.

Definition swap_columns (a b : string) (t : DataFrame) : DataFrame :=
  mkDF (nrows t) (map (fun c => (swap_label a b (fst c), snd c)) (series t)).

Fixpoint underscores (k : nat) : string :=
  match k with
  | O => ""
  | S k' => "_" ++ underscores k'
  end.

(** A number whose magnitude its type can hold: not NaN, and not the
    least int64 (and within int64 at all). *)
Definition abs_exact (v : value) : bool :=
  match v with
  | VInt z => (- 2 ^ 63 <? z)%Z && (z <? 2 ^ 63)%Z
  | VFloat f => negb (PrimFloat.is_nan f)
  | _ => false
  end.

(** [v >= 0]. *)
Definition nonneg (v : value) : bool :=
  match v with
  | VInt z => (0 <=? z)%Z
  | VFloat f => PrimFloat.leb 0 f
  | _ => false
  end.

(** A column of numbers: no text in it, and a number in it unless it has
    no cells.  Its other cells are missing ones. *)
Definition holds_numbers (col : list value) : Prop :=
  Forall (fun v => is_text v = false) col
  /\ (col = [] \/ Exists (fun v => is_numeric v = true) col).

(** The cell [v'] is the magnitude of the cell [v] of a column of numbers,
    as far as the column can hold it: in a column of int64 cells ([ints])
    the least int64 has no magnitude and stays what it is; a missing cell
    stays missing. *)
Definition abs_of (ints : bool) (v v' : value) : Prop :=
  match v with
  | VInt z =>
      if ints && (z =? - 2 ^ 63)%Z then v' = VInt z else v' = VInt (Z.abs z)
  | VFloat f => v' = VFloat (PrimFloat.abs f)
  | VNone => v' = VNone
  | VStr _ => False
  end.

(** The cells whose [abs] is not [>= 0]: NaN, a missing cell, and the least
    int64 in a column of int64 cells. *)
Definition abs_fails (ints : bool) (v : value) : bool :=
  match v with
  | VInt z => ints && (z =? - 2 ^ 63)%Z
  | VFloat f => PrimFloat.is_nan f
  | VNone => true
  | VStr _ => false
  end.

(** What the lookup does to one cell: the image of a cell in the table's
    domain, the cell itself otherwise. *)
Definition corrected (values : list (string * string)) (v v' : value) : Prop :=
  (forall s s', v = VStr s -> dict_get values s = Some s' -> v' = VStr s')
  /\ ((forall s s', v = VStr s -> dict_get values s <> Some s') -> v' = v).







(** The station and the measurement kind a report line is about. *)
Definition tested_pair (l : line) : option (value * string) :=
  match l with
  | Lit _ :: Fmt (VStr measurement) :: Lit _ :: Fmt station_id :: _ =>
      Some (station_id, measurement)
  | _ => None
  end.

(** [a] comes before [b]: two integers, two floats or two texts, and
    [a < b]. *)
Definition below (a b : value) : Prop :=
  match a, b with
  | VInt x, VInt y => (x < y)%Z
  | VFloat x, VFloat y => PrimFloat.ltb x y = true
  | VStr x, VStr y => String.ltb x y = true
  | _, _ => False
  end.

Definition is_real (v : value) : bool :=
  match v with
  | VFloat f => negb (PrimFloat.is_nan f)
  | _ => false
  end.

(** No item is less than the item before it. *)
Fixpoint no_descent (l : list value) : Prop :=
  match l with
  | a :: (b :: _) as rest => py_lt b a = Ok false /\ no_descent rest
  | _ => True
  end.

(** Identifiers [<] orders: all integers, or all floats and none of them
    NaN, or all text. *)
Definition orderable (ids : list value) : Prop :=
  Forall (fun v => is_int v = true) ids
  \/ Forall (fun v => is_real v = true) ids
  \/ Forall (fun v => is_text v = true) ids.

(** The lines of a full report on the stations [stations], by what they
    are about: the three kinds for each station, then its blank line. *)
Definition report_of (stations : list value)
  : list (option (value * string)) :=
  flat_map (fun s => [Some (s, "Temperature"); Some (s, "Rainfall");
                      Some (s, "Pollution_level"); None]) stations.

(** Two test functions give the same outcome on the two samples of the
    station [s], for every kind. *)
Definition same_tests_at
  (test test' : list value -> list value -> bool -> res (float * float))
  (field_df weather_df : DataFrame) (s : value) : Prop :=
  forall k a b,
    Analysis.filter_field_data field_df s k = Ok a ->
    Analysis.filter_weather_data weather_df s k = Ok b ->
    test' a b false = test a b false.

(** The comparison of two triples of integers, first component first. *)
Definition lex3 (s t : Z * Z * Z) : comparison :=
  match s, t with
  | (a, b, c), (a', b', c') =>
      match (a ?= a')%Z with
      | Eq => match (b ?= b')%Z with
              | Eq => (c ?= c')%Z
              | o => o
              end
      | o => o
      end
  end.

(** The place of a float among the floats: sign and kind, then exponent,
    then mantissa. *)
Definition SFrank (x : SpecFloat.spec_float) : Z * Z * Z :=
  match x with
  | SpecFloat.S754_zero _ => (0, 0, 0)%Z
  | SpecFloat.S754_infinity s => ((if s then -2 else 2), 0, 0)%Z
  | SpecFloat.S754_nan => (0, 0, 0)%Z
  | SpecFloat.S754_finite s m e =>
      if s then (-1, - e, Z.neg m)%Z else (1, e, Z.pos m)%Z
  end.

Definition int_cmp (a b : value) : comparison :=
  match a, b with
  | VInt x, VInt y => (x ?= y)%Z
  | _, _ => Eq
  end.

Definition real_cmp (a b : value) : comparison :=
  match a, b with
  | VFloat x, VFloat y => lex3 (SFrank (Prim2SF x)) (SFrank (Prim2SF y))
  | _, _ => Eq
  end.

Definition text_cmp (a b : value) : comparison :=
  match a, b with
  | VStr x, VStr y => String.compare x y
  | _, _ => Eq
  end.

(** What makes a kind of identifiers one that [sorted] puts in order: a
    comparison that [<] and [==] follow. *)
Record ordered_by (K : value -> bool) (cmp : value -> value -> comparison)
  : Prop := mkOrdered {
  ord_lt : forall a b, K a = true -> K b = true ->
             py_lt a b = Ok (match cmp a b with Lt => true | _ => false end);
  ord_eq : forall a b, K a = true -> K b = true ->
             key_eq a b = match cmp a b with Eq => true | _ => false end;
  ord_opp : forall a b, K a = true -> K b = true ->
              cmp b a = CompOpp (cmp a b);
  ord_trans : forall a b c, K a = true -> K b = true -> K c = true ->
                cmp a b <> Lt -> cmp b c <> Lt -> cmp a c <> Lt;
  ord_below : forall a b, K a = true -> K b = true ->
                cmp a b = Lt -> below a b
}.

Section Loops.
Variable ttest_ind : list value -> list value -> bool -> res (float * float).
Variables field_df weather_df : DataFrame.
Variable alpha : float.

(** The body of the inner loop and the body of the outer loop. *)
Definition pair_step (station_id : value) (measurement : string)
  : M (list line) unit :=
  (field_values <-
     lift (Analysis.filter_field_data field_df station_id measurement) ;;
   weather_values <-
     lift (Analysis.filter_weather_data weather_df station_id measurement) ;;
   tp <- lift (Analysis.run_ttest ttest_ind field_values weather_values) ;;
   Analysis.print_ttest_results station_id measurement (snd tp) alpha)%M.

Definition station_step (station_id : value) : M (list line) unit :=
  (for_each Analysis.measurements_to_compare (pair_step station_id) ;;
   print [])%M.

End Loops.

(** The line of the [else] branch of [print_ttest_results]. *)
Definition not_significant_line (station_id : value) (measurement : string)
  (p_val alpha : float) : line :=
  [Lit "   No significant difference in "; Fmt (VStr measurement);
   Lit " detected at Station  "; Fmt station_id;
   Lit ", (P-Value: "; Fmt5f p_val; Lit " > ";
   Fmt (VFloat alpha); Lit "). Null hypothesis not rejected."].

(** The run stops with an exception before any external call is made. *)
Definition fails_at_startup (outcome : res unit * list call) : Prop :=
  exists e, outcome = (Raise e, []).

Definition significant_line (station_id : value) (measurement : string)
  (p_val alpha : float) : line :=
  [Lit "   Significant difference in "; Fmt (VStr measurement);
   Lit " detected at Station  "; Fmt station_id;
   Lit ", (P-Value: "; Fmt5f p_val; Lit " < ";
   Fmt (VFloat alpha); Lit "). Null hypothesis rejected."].

(** An int64 cell holds a value of its type. *)
Definition in_int64 (v : value) : Prop :=
  match v with
  | VInt z => (- 2 ^ 63 <= z < 2 ^ 63)%Z
  | _ => True
  end.

(** A correction table whose corrected names need no correction: no image
    is a key with another image. *)
Definition settled (values : list (string * string)) : Prop :=
  forall k v, dict_get values k = Some v ->
              dict_get values v = None \/ dict_get values v = Some v.

(** A record of calls in which nothing was exported. *)
Definition no_export (log : list call) : Prop :=
  Forall (fun c => match c with ToCSV _ _ => False | _ => True end) log.

(** * Sample data *)

(** A small survey in the shape of the real one: the SQL result has the
    crop names under [Annual_yield] and the yields under [Crop_type], a
    misspelt crop and a negative elevation. *)
Module Sample.

Definition raw_field : DataFrame :=
  mkDF 5
    [("Field_ID", [VInt 40734; VInt 30629; VInt 39489; VInt 1362; VInt 2011]);
     ("Elevation",
      [VFloat 786.0625; VFloat (-94.5); VFloat 282.25; VFloat 335.5;
       VFloat (-12.75)]);
     ("Rainfall",
      [VFloat 1125.25; VFloat 1450.75; VFloat 2208.5; VFloat 328.125;
       VFloat 785.0]);
     ("Temperature",
      [VFloat 13.5; VFloat 12.25; VFloat 13.75; VFloat 15.5; VFloat 14.0]);
     ("Pollution_level",
      [VFloat 0.25; VFloat 0.5; VFloat 0.125; VFloat 0.375; VFloat 0.0625]);
     ("Annual_yield",
      [VStr "cassava"; VStr "wheatn"; VStr "tea"; VStr "maize"; VStr "teaa"]);
     ("Crop_type",
      [VFloat 0.75; VFloat 0.5; VFloat 0.625; VFloat 0.25; VFloat 0.5])].

(** The mapping file: field 1362 has no station, field 11111 is not in
    the survey, station 3 is in no weather message. *)
Definition weather_map : DataFrame :=
  mkDF 5
    [("Unnamed: 0", [VInt 0; VInt 1; VInt 2; VInt 3; VInt 4]);
     ("Field_ID",
      [VInt 30629; VInt 40734; VInt 39489; VInt 2011; VInt 11111]);
     ("Weather_station", [VInt 2; VInt 4; VInt 2; VInt 3; VInt 0])].

(** The field table after the swap and the corrections. *)
Definition cleaned : DataFrame :=
  mkDF 5
    [("Field_ID", [VInt 40734; VInt 30629; VInt 39489; VInt 1362; VInt 2011]);
     ("Elevation",
      [VFloat 786.0625; VFloat 94.5; VFloat 282.25; VFloat 335.5;
       VFloat 12.75]);
     ("Rainfall",
      [VFloat 1125.25; VFloat 1450.75; VFloat 2208.5; VFloat 328.125;
       VFloat 785.0]);
     ("Temperature",
      [VFloat 13.5; VFloat 12.25; VFloat 13.75; VFloat 15.5; VFloat 14.0]);
     ("Pollution_level",
      [VFloat 0.25; VFloat 0.5; VFloat 0.125; VFloat 0.375; VFloat 0.0625]);
     ("Crop_type",
      [VStr "cassava"; VStr "wheat"; VStr "tea"; VStr "maize"; VStr "tea"]);
     ("Annual_yield",
      [VFloat 0.75; VFloat 0.5; VFloat 0.625; VFloat 0.25; VFloat 0.5])].

(** The fused field table.  Field 1362 has no station, so the station
    column holds floats. *)
Definition field_df : DataFrame :=
  mkDF 5
    (series cleaned
     ++ [("Weather_station",
          [VFloat 4; VFloat 2; VFloat 2; VFloat nan; VFloat 3])]).

Definition config_params : Config :=
  mkConfig
    (Some "SELECT * FROM geographic_features")
    (Some "sqlite:///Maji_Ndogo_farm_survey_small.db")
    (Some [("Annual_yield", "Crop_type"); ("Crop_type", "Annual_yield")])
    (Some [("cassaval", "cassava"); ("cassava ", "cassava");
           ("wheatn", "wheat"); ("wheat ", "wheat");
           ("teaa", "tea"); ("tea ", "tea")])
    (Some "Weather_data_field_mapping.csv")
    (Some "Weather_station_data.csv")
    (Some [("Rainfall", "(\d+(\.\d+)?)\s?mm");
           ("Temperature", "(\d+(\.\d+)?)\s?C");
           ("Pollution_level",
            "=\s*(-?\d+(\.\d+)?)|Pollution at \s*(-?\d+(\.\d+)?)")]).

Definition weather : DataFrame :=
  mkDF 5
    [("Weather_station_ID", [VInt 4; VInt 2; VInt 4; VInt 0; VInt 2]);
     ("Message",
      [VStr "It's cold, 5.25C"; VStr "Pollution at 2.5 ppm";
       VStr "Clear skies"; VStr "Rain gauge: 1.5mm";
       VStr "Air quality index =0.25"])].

(** The parsed weather table. *)
Definition weather_df : DataFrame :=
  mkDF 5
    (series weather
     ++ [("Measurement",
          [VStr "Temperature"; VStr "Pollution_level"; VNone;
           VStr "Rainfall"; VStr "Pollution_level"]);
         ("Value",
          [VFloat 5.25; VFloat 2.5; VNone; VFloat 1.5; VFloat 0.25])]).

(** A weather file with its header and no row. *)
Definition no_rows : DataFrame :=
  mkDF 0 [("Weather_station_ID", []); ("Message", [])].

(** The data-acquisition layer of the sample: one database, two files. *)
Definition sources : DataSources unit :=
  mkSources unit
    (fun db_path =>
       if String.eqb db_path "sqlite:///Maji_Ndogo_farm_survey_small.db"
       then Ok tt else Raise ValueError)
    (fun _ sql => Ok raw_field)
    (fun url =>
       if String.eqb url "Weather_data_field_mapping.csv" then Ok weather_map
       else if String.eqb url "Weather_station_data.csv" then Ok weather
       else Raise ValueError).

(** What [re.search] returns for the three configured patterns on the
    messages of the sample ([None] for every other pair), and what [float]
    returns for the captured texts. *)
Definition search_table : list (string * string * list (option string)) :=
  [("(\d+(\.\d+)?)\s?C", "It's cold, 5.25C", [Some "5.25"; Some ".25"]);
   ("=\s*(-?\d+(\.\d+)?)|Pollution at \s*(-?\d+(\.\d+)?)",
    "Pollution at 2.5 ppm", [None; None; Some "2.5"; Some ".5"]);
   ("(\d+(\.\d+)?)\s?mm", "Rain gauge: 1.5mm", [Some "1.5"; Some ".5"]);
   ("=\s*(-?\d+(\.\d+)?)|Pollution at \s*(-?\d+(\.\d+)?)",
    "Air quality index =0.25", [Some "0.25"; Some ".25"; None; None])].

Fixpoint search_in (tbl : list (string * string * list (option string)))
  (pattern message : string) : option (list (option string)) :=
  match tbl with
  | [] => None
  | (p, m, groups) :: rest =>
      if String.eqb p pattern && String.eqb m message then Some groups
      else search_in rest pattern message
  end.

Definition lib : Builtins :=
  mkBuiltins
    (fun pattern message =>
       match message with
       | VStr m => Ok (search_in search_table pattern m)
       | _ => Raise TypeError
       end)
    (fun x =>
       if String.eqb x "5.25" then Ok 5.25%float
       else if String.eqb x "2.5" then Ok 2.5%float
       else if String.eqb x "1.5" then Ok 1.5%float
       else if String.eqb x "0.25" then Ok 0.25%float
       else Raise ValueError)
    (fun _ _ => Ok tt).

(** A stand-in for [scipy.stats.ttest_ind]: undefined (NaN) when a sample
    has fewer than two observations, a fixed outcome otherwise. *)
Definition ttest : list value -> list value -> bool -> res (float * float) :=
  fun a b _ =>
    if (List.length a <? 2)%nat || (List.length b <? 2)%nat
    then Ok (nan, nan)
    else Ok (2.5%float, 0.03125%float).

(** The threshold 0.05, as the nearest float. *)
Definition alpha : float := 0x1.999999999999ap-5%float.

(** The processor [FieldDataProcessor(config_params)] builds. *)
Definition fresh : FieldDataProcessor unit :=
  mkFieldDataProcessor
    "sqlite:///Maji_Ndogo_farm_survey_small.db"
    "SELECT * FROM geographic_features"
    [("Annual_yield", "Crop_type"); ("Crop_type", "Annual_yield")]
    [("cassaval", "cassava"); ("cassava ", "cassava");
     ("wheatn", "wheat"); ("wheat ", "wheat");
     ("teaa", "tea"); ("tea ", "tea")]
    "Weather_data_field_mapping.csv"
    None None.

(** The same processor after its ingestion step, and after the swap. *)
Definition ingested : FieldDataProcessor unit :=
  with_df (with_engine fresh (Some tt)) (Some raw_field).

Definition renamed : FieldDataProcessor unit :=
  with_df ingested (Some (rename [("Annual_yield", "Crop_type");
                                  ("Crop_type", "Annual_yield")] raw_field)).

Definition weather_processor : WeatherDataProcessor :=
  mkWeatherDataProcessor
    "Weather_station_data.csv"
    [("Rainfall", "(\d+(\.\d+)?)\s?mm");
     ("Temperature", "(\d+(\.\d+)?)\s?C");
     ("Pollution_level",
      "=\s*(-?\d+(\.\d+)?)|Pollution at \s*(-?\d+(\.\d+)?)")]
    None.

(** The configuration with an empty rename mapping. *)
Definition empty_rename : Config :=
  mkConfig
    (cfg_sql_query config_params) (cfg_db_path config_params)
    (Some [])
    (cfg_values_to_rename config_params)
    (cfg_weather_mapping_csv config_params)
    (cfg_weather_csv_path config_params)
    (cfg_regex_patterns config_params).

End Sample.

(** Further inputs: a mapping file that lists field 30629 under two
    stations, and a mapping file written without its index column. *)
Module Sample2.

Definition weather_map_twice : DataFrame :=
  mkDF 4
    [("Unnamed: 0", [VInt 0; VInt 1; VInt 2; VInt 3]);
     ("Field_ID", [VInt 30629; VInt 40734; VInt 30629; VInt 2011]);
     ("Weather_station", [VInt 2; VInt 4; VInt 0; VInt 3])].

Definition weather_map_bare : DataFrame :=
  mkDF 2
    [("Field_ID", [VInt 30629; VInt 40734]);
     ("Weather_station", [VInt 2; VInt 4])].

(** A survey table whose second field has no elevation: the column
    holds floats, and the missing cell. *)
Definition survey_gap : DataFrame :=
  mkDF 2
    [("Field_ID", [VInt 40734; VInt 30629]);
     ("Elevation", [VFloat (-94.5); VNone]);
     ("Crop_type", [VStr "cassava"; VStr "wheatn"])].

(** A survey table with whole elevations, one of them the least int64. *)
Definition survey_least : DataFrame :=
  mkDF 2
    [("Field_ID", [VInt 40734; VInt 30629]);
     ("Elevation", [VInt (-94); VInt (- 2 ^ 63)]);
     ("Crop_type", [VStr "cassava"; VStr "wheatn"])].

(** A parsed weather table whose second row has lost its station
    identifier: the column holds floats, and the missing cell. *)
Definition weather_gap : DataFrame :=
  mkDF 3
    [("Weather_station_ID", [VFloat 2; VNone; VFloat 1]);
     ("Message",
      [VStr "It's cold, 5.25C"; VStr "Rain gauge: 1.5mm";
       VStr "Pollution at 2.5 ppm"]);
     ("Measurement",
      [VStr "Temperature"; VStr "Rainfall"; VStr "Pollution_level"]);
     ("Value", [VFloat 5.25; VFloat 1.5; VFloat 2.5])].

Definition sources_with (mapping : DataFrame) : DataSources unit :=
  mkSources unit
    (fun _ => Ok tt)
    (fun _ _ => Ok Sample.raw_field)
    (fun url =>
       if String.eqb url "Weather_data_field_mapping.csv" then Ok mapping
       else Ok Sample.weather).

Definition no_patterns : Config :=
  mkConfig
    (cfg_sql_query Sample.config_params) (cfg_db_path Sample.config_params)
    (cfg_columns_to_rename Sample.config_params)
    (cfg_values_to_rename Sample.config_params)
    (cfg_weather_mapping_csv Sample.config_params)
    (cfg_weather_csv_path Sample.config_params)
    None.

(** A disk that is full when the second file is to be written. *)
Definition lib_disk_full : Builtins :=
  mkBuiltins
    (re_search Sample.lib)
    (py_float Sample.lib)
    (fun path _ =>
       if String.eqb path "sampled_field_df.csv" then Raise OSError
       else Ok tt).

(** A pattern without a capturing group: [re.search] matches and hands
    back no groups. *)
Definition lib_no_group : Builtins :=
  mkBuiltins
    (fun pattern message =>
       match message with
       | VStr m =>
           Ok (if String.eqb pattern "mm" && String.eqb m "5 mm"
               then Some [] else None)
       | _ => Raise TypeError
       end)
    (py_float Sample.lib)
    (write_csv Sample.lib).

End Sample2.

(** * Properties *)

(** ** The column swap *)

Lemma fresh_name_not_mem temp cols : mem (fresh_name temp cols) cols = false.
Proof.
  funelim (fresh_name temp cols); assumption.
Qed.

Lemma fresh_name_not_In temp cols : ~ In (fresh_name temp cols) cols.
Proof.
  intro H. apply mem_In in H. rewrite fresh_name_not_mem in H. discriminate.
Qed.

Lemma append_empty_r (s : string) : (s ++ "")%string = s.
Proof. induction s; simpl; congruence. Qed.

Lemma append_assoc (s t u : string) :
  ((s ++ t) ++ u)%string = (s ++ (t ++ u))%string.
Proof. induction s; simpl; congruence. Qed.

(** The loop stops at the first candidate that is free: the seed followed
    by the least number of underscores that makes it no column. *)
Lemma fresh_name_first_free temp cols :
  exists k,
    fresh_name temp cols = (temp ++ underscores k)%string /\
    ~ In (fresh_name temp cols) cols /\
    forall j, (j < k)%nat -> In (temp ++ underscores j)%string cols.
Proof.
  funelim (fresh_name temp cols).
  - destruct H as (k & Hk & Hfree & Hbelow).
    exists (S k). split; [|split].
    + rewrite Hk. simpl. apply append_assoc.
    + exact Hfree.
    + intros [|j] Hj.
      * simpl. rewrite append_empty_r. apply mem_In. exact E.
      * specialize (Hbelow j ltac:(lia)).
        simpl. rewrite append_assoc in Hbelow. exact Hbelow.
  - exists 0%nat. simpl. rewrite append_empty_r.
    split; [reflexivity | split].
    + intro Hin. apply mem_In in Hin. congruence.
    + intros j Hj. lia.
Qed.

Lemma eqb_neq_false (a b : string) : a <> b -> String.eqb a b = false.
Proof. intro H. apply String.eqb_neq. exact H. Qed.

(** The two renames of [rename_columns], label by label: through a
    placeholder that is neither the label at hand nor the first name,
    they exchange the two names. *)
Lemma swap_via_temp (a b temp n : string) :
  n <> temp -> a <> temp ->
  rename_label (dict_of [(temp, b)])
    (rename_label (dict_of [(a, temp); (b, a)]) n) = swap_label a b n.
Proof.
  intros Hn Ha. unfold dict_of, swap_label, rename_label. simpl.
  destruct (String.eqb b a) eqn:Eba; simpl.
  - apply String.eqb_eq in Eba. subst b.
    destruct (String.eqb n a) eqn:Ena; simpl.
    + apply String.eqb_eq in Ena. subst n.
      rewrite (eqb_neq_false _ _ Ha). reflexivity.
    + rewrite (eqb_neq_false _ _ Hn). reflexivity.
  - destruct (String.eqb n a) eqn:Ena; simpl.
    + rewrite String.eqb_refl. reflexivity.
    + destruct (String.eqb n b) eqn:Enb; simpl.
      * rewrite (eqb_neq_false _ _ Ha). reflexivity.
      * rewrite (eqb_neq_false _ _ Hn). reflexivity.
Qed.

Lemma swap_label_involutive (a b n : string) :
  swap_label a b (swap_label a b n) = n.
Proof.
  unfold swap_label.
  destruct (String.eqb n a) eqn:Ena.
  - apply String.eqb_eq in Ena. subst n.
    destruct (String.eqb b a) eqn:Eba.
    + apply String.eqb_eq in Eba. exact Eba.
    + rewrite String.eqb_refl. reflexivity.
  - destruct (String.eqb n b) eqn:Enb.
    + apply String.eqb_eq in Enb. subst n.
      rewrite String.eqb_refl. reflexivity.
    + rewrite Ena, Enb. reflexivity.
Qed.

Lemma swap_columns_involutive (a b : string) (t : DataFrame) :
  swap_columns a b (swap_columns a b t) = t.
Proof.
  destruct t as [n cols]. unfold swap_columns. simpl. f_equal.
  rewrite map_map. simpl.
  rewrite <- (map_id cols) at 2. apply map_ext.
  intros [c d]. simpl. rewrite swap_label_involutive. reflexivity.
Qed.

Lemma two_renames_swap (a b : string) (t : DataFrame) :
  In a (columns t) ->
  let temp_name := fresh_name "__temp_name_for_swap__" (columns t) in
  rename (dict_of [(temp_name, b)])
    (rename (dict_of [(a, temp_name); (b, a)]) t) = swap_columns a b t.
Proof.
  intros Ha temp_name.
  assert (Hfree : ~ In temp_name (columns t)) by apply fresh_name_not_In.
  unfold rename, swap_columns. cbn [nrows series]. f_equal.
  rewrite map_map. apply map_ext_in. intros [n d] Hin. cbn [fst snd].
  f_equal. apply swap_via_temp.
  - intro E. apply Hfree. subst temp_name. rewrite <- E.
    unfold columns. apply (in_map fst) in Hin. exact Hin.
  - intro E. apply Hfree. rewrite <- E. exact Ha.
Qed.

Lemma lookup_series_swap (a b n : string) (l : list (string * list value)) :
  lookup_series (swap_label a b n)
    (map (fun c => (swap_label a b (fst c), snd c)) l) = lookup_series n l.
Proof.
  induction l as [|[m d] l IH]; simpl; [reflexivity|].
  destruct (String.eqb n m) eqn:E.
  - apply String.eqb_eq in E. subst m. rewrite String.eqb_refl. reflexivity.
  - replace (String.eqb (swap_label a b n) (swap_label a b m)) with false.
    + exact IH.
    + symmetry. apply String.eqb_neq. intro H.
      apply (f_equal (swap_label a b)) in H.
      rewrite !swap_label_involutive in H.
      apply String.eqb_neq in E. contradiction.
Qed.

Lemma In_swap_columns (a b n : string) (t : DataFrame) :
  In n (columns t) -> In (swap_label a b n) (columns (swap_columns a b t)).
Proof.
  unfold columns, swap_columns. cbn [series]. rewrite map_map. cbn [fst].
  intro H. apply in_map_iff in H. destruct H as ([m d] & E & Hin).
  simpl in E. subst m. apply in_map_iff. exists (n, d). split; auto.
Qed.

Lemma swap_label_second (a b : string) : swap_label a b b = a.
Proof.
  unfold swap_label. destruct (String.eqb b a) eqn:E.
  - apply String.eqb_eq in E. exact E.
  - rewrite String.eqb_refl. reflexivity.
Qed.

(** What one call of [rename_columns] does to the run, for a table that
    has the first name as a column. *)
Lemma rename_columns_run {Engine} (p : FieldDataProcessor Engine)
  (log : list call) (a b : string) (rest : list (string * string))
  (t : DataFrame) :
  columns_to_rename p = (a, b) :: rest ->
  df p = Some t ->
  In a (columns t) ->
  Field.rename_columns (mkRun p log)
  = (Ok tt, mkRun (with_df p (Some (swap_columns a b t))) log).
Proof.
  intros Hmap Hdf Ha.
  unfold Field.rename_columns, bind, get_self, lift, set_self.
  cbn [self calls]. rewrite Hmap, Hdf. cbn [first_key first_value the_df].
  rewrite (two_renames_swap a b t Ha). reflexivity.
Qed.

(** C3.  [rename_columns] takes the first pair [(a, b)] of the mapping,
    whatever follows it, and exchanges the column names [a] and [b] of the
    field table through a placeholder that is no column of the table (the
    seed name with the least number of underscores appended that makes it
    free).  Every column keeps its data and its position under its new
    name, so no column is overwritten, also when both names are columns. *)
Theorem rename_columns_swaps {Engine} (p : FieldDataProcessor Engine)
  (log : list call) (a b : string) (rest : list (string * string))
  (t : DataFrame) :
  columns_to_rename p = (a, b) :: rest ->
  df p = Some t ->
  In a (columns t) ->
  let t' := swap_columns a b t in
  Field.rename_columns (mkRun p log) = (Ok tt, mkRun (with_df p (Some t')) log)
  /\ (exists k,
        fresh_name "__temp_name_for_swap__" (columns t)
        = ("__temp_name_for_swap__" ++ underscores k)%string
        /\ ~ In (fresh_name "__temp_name_for_swap__" (columns t)) (columns t)
        /\ forall j, (j < k)%nat ->
             In ("__temp_name_for_swap__" ++ underscores j)%string (columns t))
  /\ nrows t' = nrows t
  /\ map snd (series t') = map snd (series t)
  /\ columns t' = map (swap_label a b) (columns t)
  /\ forall n, lookup_series (swap_label a b n) (series t')
               = lookup_series n (series t).
Proof.
  intros Hmap Hdf Ha t'. repeat split.
  - apply (rename_columns_run p log a b rest t Hmap Hdf Ha).
  - apply fresh_name_first_free.
  - subst t'. unfold swap_columns. cbn [series]. rewrite map_map.
    reflexivity.
  - subst t'. unfold columns, swap_columns. cbn [series].
    rewrite !map_map. reflexivity.
  - intro n. apply lookup_series_swap.
Qed.

(** C8.  On a table that has both named columns, two calls of
    [rename_columns] with the same mapping give back the table that was
    there: the same labels over the same data, in the same order. *)
Theorem rename_columns_twice {Engine} (p : FieldDataProcessor Engine)
  (log : list call) (a b : string) (rest : list (string * string))
  (t : DataFrame) :
  columns_to_rename p = (a, b) :: rest ->
  df p = Some t ->
  In a (columns t) ->
  In b (columns t) ->
  bind Field.rename_columns (fun _ => Field.rename_columns) (mkRun p log)
  = (Ok tt, mkRun p log).
Proof.
  intros Hmap Hdf Ha Hb. unfold bind.
  rewrite (rename_columns_run p log a b rest t Hmap Hdf Ha).
  rewrite (rename_columns_run (with_df p (Some (swap_columns a b t))) log
             a b rest (swap_columns a b t)).
  - rewrite swap_columns_involutive.
    destruct p. cbn in *. subst. reflexivity.
  - exact Hmap.
  - reflexivity.
  - pose proof (In_swap_columns a b b t Hb) as H.
    rewrite swap_label_second in H. exact H.
Qed.

Lemma rename_columns_swaps_witness :
  Field.rename_columns (mkRun Sample.ingested [])
  = (Ok tt,
     mkRun (with_df Sample.ingested
              (Some (swap_columns "Annual_yield" "Crop_type" Sample.raw_field)))
           []).
Proof.
  refine (proj1 (rename_columns_swaps Sample.ingested [] "Annual_yield"
                   "Crop_type" [("Crop_type", "Annual_yield")]
                   Sample.raw_field eq_refl eq_refl _)).
  simpl. tauto.
Defined.

Lemma rename_columns_twice_witness :
  bind Field.rename_columns (fun _ => Field.rename_columns)
       (mkRun Sample.ingested [])
  = (Ok tt, mkRun Sample.ingested []).
Proof.
  refine (rename_columns_twice Sample.ingested [] "Annual_yield" "Crop_type"
            [("Crop_type", "Annual_yield")] Sample.raw_field
            eq_refl eq_refl _ _); simpl; tauto.
Defined.

(** ** Floats *)

Lemma SFcompare_refl (x : SpecFloat.spec_float) :
  x <> SpecFloat.S754_nan -> SpecFloat.SFcompare x x = Some Eq.
Proof.
  destruct x as [s | s | | s m e]; simpl; intro H.
  - reflexivity.
  - destruct s; reflexivity.
  - contradiction.
  - rewrite Z.compare_refl.
    change (Pos.compare_cont Eq m m) with (Pos.compare m m).
    rewrite Pos.compare_refl. destruct s; reflexivity.
Qed.

Lemma is_nan_Prim2SF (f : float) :
  PrimFloat.is_nan f = true <-> Prim2SF f = SpecFloat.S754_nan.
Proof.
  unfold PrimFloat.is_nan. rewrite eqb_spec. unfold SpecFloat.SFeqb. split.
  - intro H. destruct (Prim2SF f) eqn:E; try reflexivity;
      rewrite SFcompare_refl in H by discriminate; discriminate.
  - intro H. rewrite H. reflexivity.
Qed.

(** A NaN is below nothing. *)
Lemma nan_leb (p a : float) :
  PrimFloat.is_nan p = true -> PrimFloat.leb p a = false.
Proof.
  intro H. apply is_nan_Prim2SF in H. rewrite leb_spec, H. reflexivity.
Qed.

Lemma abs_nonneg (f : float) :
  PrimFloat.is_nan f = false -> PrimFloat.leb 0 (PrimFloat.abs f) = true.
Proof.
  intro H. rewrite leb_spec, abs_spec.
  change (Prim2SF 0) with (SpecFloat.S754_zero false).
  destruct (Prim2SF f) eqn:E; try reflexivity.
  apply is_nan_Prim2SF in E. congruence.
Qed.

(** ** Reading and writing columns *)

Lemma lookup_series_mem c l d :
  lookup_series c l = Some d -> mem c (map fst l) = true.
Proof.
  induction l as [|[n col] l IH]; simpl; [discriminate|].
  destruct (String.eqb c n); simpl; auto.
Qed.

Lemma lookup_replace_same c v l :
  mem c (map fst l) = true -> lookup_series c (replace_series c v l) = Some v.
Proof.
  induction l as [|[n col] l IH]; simpl; [discriminate|].
  destruct (String.eqb c n) eqn:E; simpl.
  - rewrite E. reflexivity.
  - rewrite E. exact IH.
Qed.

Lemma lookup_replace_other c c' v l :
  c <> c' -> lookup_series c' (replace_series c v l) = lookup_series c' l.
Proof.
  intro H. induction l as [|[n col] l IH]; simpl; [reflexivity|].
  destruct (String.eqb c n) eqn:E; simpl.
  - apply String.eqb_eq in E. subst n.
    rewrite (eqb_neq_false c' c) by congruence. reflexivity.
  - rewrite IH. reflexivity.
Qed.

Lemma columns_replace c v l : map fst (replace_series c v l) = map fst l.
Proof.
  induction l as [|[n col] l IH]; simpl; [reflexivity|].
  destruct (String.eqb c n); simpl; congruence.
Qed.

Lemma lookup_series_In c l d : lookup_series c l = Some d -> In (c, d) l.
Proof.
  induction l as [|[n col] l IH]; simpl; [discriminate|].
  destruct (String.eqb c n) eqn:E.
  - apply String.eqb_eq in E. intro H. injection H as ->. subst. auto.
  - auto.
Qed.

Lemma wf_lookup t c d :
  wf_df t -> lookup_series c (series t) = Some d -> List.length d = nrows t.
Proof.
  intros Hwf H. apply lookup_series_In in H.
  unfold wf_df in Hwf. rewrite Forall_forall in Hwf.
  apply (Hwf _ H).
Qed.

Lemma mapM_Forall2 {A B} (f : A -> res B) l l' :
  mapM f l = Ok l' <-> Forall2 (fun a b => f a = Ok b) l l'.
Proof.
  revert l'. induction l as [|a l IH]; intro l'; simpl.
  - split; intro H.
    + injection H as <-. constructor.
    + inversion H. reflexivity.
  - split; intro H.
    + destruct (f a) eqn:Ea; simpl in H; [|discriminate].
      destruct (mapM f l) eqn:El; simpl in H; [|discriminate].
      injection H as <-. constructor; [exact Ea | apply IH; reflexivity].
    + inversion H as [|x y xs ys Hxy Hrest]; subst.
      rewrite Hxy. simpl.
      apply IH in Hrest. rewrite Hrest. reflexivity.
Qed.

Lemma mapM_total {A B} (f : A -> res B) l :
  Forall (fun a => exists b, f a = Ok b) l -> exists l', mapM f l = Ok l'.
Proof.
  induction 1 as [|a l (b & Hb) _ (l' & Hl')]; simpl.
  - exists []. reflexivity.
  - exists (b :: l'). rewrite Hb, Hl'. reflexivity.
Qed.

Lemma mapM_length {A B} (f : A -> res B) l l' :
  mapM f l = Ok l' -> List.length l' = List.length l.
Proof.
  intro H. apply mapM_Forall2 in H.
  symmetry. induction H; simpl; congruence.
Qed.

Lemma getitem_ok t c d : lookup_series c (series t) = Some d -> getitem t c = Ok d.
Proof. unfold getitem. intros ->. reflexivity. Qed.

Lemma setitem_existing t c v :
  List.length v = nrows t ->
  mem c (columns t) = true ->
  setitem t c v = Ok (mkDF (nrows t) (replace_series c v (series t))).
Proof.
  intros Hlen Hmem. unfold setitem.
  rewrite Hlen, Nat.eqb_refl, Hmem. reflexivity.
Qed.

Lemma setitem_new t c v :
  List.length v = nrows t ->
  mem c (columns t) = false ->
  setitem t c v = Ok (mkDF (nrows t) (series t ++ [(c, v)])).
Proof.
  intros Hlen Hmem. unfold setitem.
  rewrite Hlen, Nat.eqb_refl, Hmem. reflexivity.
Qed.

(** ** Value corrections *)

Lemma abs_value_total dt v :
  is_numeric v = true -> exists v', abs_value dt v = Ok v'.
Proof. destruct v; simpl; try discriminate; eauto. Qed.

Lemma wrap64_small (z : Z) :
  (- 2 ^ 63 <= z < 2 ^ 63)%Z -> wrap64 z = z.
Proof.
  intro H. unfold wrap64. rewrite Z.mod_small; lia.
Qed.

Lemma wrap64_least : wrap64 (Z.abs (- 2 ^ 63)) = (- 2 ^ 63)%Z.
Proof. reflexivity. Qed.

Lemma abs_value_nonneg dt v v' :
  abs_value dt v = Ok v' -> abs_exact v = true -> nonneg v' = true.
Proof.
  destruct v as [z | f | s | ]; simpl; try discriminate.
  - intros [= <-] H. apply andb_prop in H. destruct H as [H1 H2].
    apply Z.ltb_lt in H1, H2. simpl. apply Z.leb_le.
    destruct dt; [rewrite wrap64_small| |]; lia.
  - intros [= <-] H. simpl. apply abs_nonneg.
    destruct (PrimFloat.is_nan f); [discriminate | reflexivity].
Qed.

(** A column of numbers is an [int64] column exactly when it has a cell
    and all its cells are int64. *)
Lemma dtype_of_numbers col :
  Forall (fun v => is_numeric v = true) col ->
  dtype_of col
  = match col with
    | [] => Object
    | _ :: _ => if forallb is_int64 col then Int64 else Float64
    end.
Proof.
  intro H. unfold dtype_of.
  assert (Ht : existsb is_text col = false).
  { induction H as [|v col Hv _ IH]; [reflexivity|]. simpl. rewrite IH.
    destruct v; simpl in *; try discriminate; reflexivity. }
  rewrite Ht. destruct H as [|v col Hv _]; [reflexivity|].
  cbn [existsb]. rewrite Hv. reflexivity.
Qed.

(** The dtype of a column of numbers that has a cell. *)
Lemma dtype_of_holds_numbers col :
  holds_numbers col -> col <> [] ->
  dtype_of col = if forallb is_int64 col then Int64 else Float64.
Proof.
  intros [Ht [-> | Hex]] Hne; [destruct Hne; reflexivity|]. unfold dtype_of.
  assert (E1 : existsb is_text col = false).
  { clear Hex Hne. induction Ht as [|v col Hv _ IH]; [reflexivity|].
    simpl. rewrite Hv, IH. reflexivity. }
  assert (E2 : existsb is_numeric col = true).
  { apply existsb_exists. apply Exists_exists in Hex. exact Hex. }
  rewrite E1, E2. reflexivity.
Qed.

(** [abs] cell by cell, stated without the function that computes it. *)
Lemma abs_value_abs_of col v :
  holds_numbers col ->
  In v col ->
  exists v',
    abs_value (dtype_of col) v = Ok v'
    /\ abs_of (forallb is_int64 col) v v'
    /\ nonneg v' = negb (abs_fails (forallb is_int64 col) v).
Proof.
  intros Hnum Hin.
  rewrite (dtype_of_holds_numbers col Hnum)
    by (intros ->; destruct Hin).
  destruct (forallb is_int64 col) eqn:Eints.
  - assert (Hv : is_int64 v = true).
    { rewrite forallb_forall in Eints. apply Eints. exact Hin. }
    destruct v as [z | f | s | ]; try discriminate Hv.
    cbn [abs_value abs_of abs_fails andb]. eexists. split; [reflexivity|].
    cbn [is_int64] in Hv. apply andb_prop in Hv. destruct Hv as [H1 H2].
    apply Z.leb_le in H1. apply Z.ltb_lt in H2.
    destruct (z =? - 2 ^ 63)%Z eqn:Ez.
    + apply Z.eqb_eq in Ez. subst z. rewrite wrap64_least.
      split; reflexivity.
    + apply Z.eqb_neq in Ez. rewrite wrap64_small by lia.
      split; [reflexivity|]. cbn [nonneg negb]. apply Z.leb_le. lia.
  - destruct v as [z | f | s | ]; cbn [abs_value abs_of abs_fails andb].
    + eexists. split; [reflexivity|]. split; [reflexivity|].
      cbn [nonneg negb]. apply Z.leb_le. lia.
    + eexists. split; [reflexivity|]. split; [reflexivity|]. cbn [nonneg].
      destruct (PrimFloat.is_nan f) eqn:En; cbn [negb].
      * rewrite leb_spec, abs_spec.
        apply is_nan_Prim2SF in En. rewrite En. reflexivity.
      * apply abs_nonneg. exact En.
    + destruct Hnum as [Ht _]. rewrite Forall_forall in Ht.
      specialize (Ht _ Hin). discriminate.
    + eexists. split; [reflexivity|]. split; reflexivity.
Qed.

Lemma correct_value_corrected values v :
  corrected values v (Field.correct_value values v).
Proof.
  unfold corrected, Field.correct_value. split.
  - intros s s' -> H. rewrite H. reflexivity.
  - intro H. destruct v as [z | f | s | ]; try reflexivity.
    destruct (dict_get values s) as [s'|] eqn:E; [|reflexivity].
    exfalso. apply (H s s' eq_refl E).
Qed.

Lemma Forall2_map_r {A B} (R : A -> B -> Prop) (f : A -> B) l :
  (forall a, R a (f a)) -> Forall2 R l (map f l).
Proof. intro H. induction l; simpl; constructor; auto. Qed.

Lemma Forall2_In_l {A B} (R : A -> B -> Prop) (P : A -> Prop) l l' :
  Forall2 R l l' -> (forall a, In a l -> P a) ->
  Forall2 (fun a b => R a b /\ P a) l l'.
Proof.
  induction 1 as [|a b l l' Hab _ IH]; intro H; constructor.
  - split; [exact Hab | apply H; left; reflexivity].
  - apply IH. intros a' Ha'. apply H. right. exact Ha'.
Qed.

(** C6, as the code has it.  On a field table with distinct labels that
    has the two designated columns, the numeric one a column of numbers,
    [apply_corrections] succeeds whatever the categorical column holds.
    Afterwards every cell of the numeric column is the magnitude of the
    cell that was there, and it is [>= 0] except in these cases: a NaN
    stays NaN, a missing cell stays missing, and in a column of int64
    cells the least int64 stays what it is.
    Every cell of the categorical column is the lookup table's image of
    the cell that was there when that cell is a key of the table, and the
    cell that was there otherwise.  Rows, labels and the other columns
    are as before. *)
Theorem apply_corrections_cells {Engine} (p : FieldDataProcessor Engine)
  (log : list call) (t : DataFrame) (column_name abs_column : string)
  (ecol ccol : list value) :
  df p = Some t ->
  wf_df t ->
  NoDup (columns t) ->
  lookup_series abs_column (series t) = Some ecol ->
  lookup_series column_name (series t) = Some ccol ->
  abs_column <> column_name ->
  holds_numbers ecol ->
  exists t' ecol' ccol',
    Field.apply_corrections column_name abs_column (mkRun p log)
    = (Ok tt, mkRun (with_df p (Some t')) log)
    /\ nrows t' = nrows t
    /\ columns t' = columns t
    /\ lookup_series abs_column (series t') = Some ecol'
    /\ Forall2 (fun v v' =>
                  abs_of (forallb is_int64 ecol) v v'
                  /\ nonneg v' = negb (abs_fails (forallb is_int64 ecol) v))
               ecol ecol'
    /\ lookup_series column_name (series t') = Some ccol'
    /\ Forall2 (corrected (values_to_rename p)) ccol ccol'
    /\ forall c, c <> abs_column -> c <> column_name ->
         lookup_series c (series t') = lookup_series c (series t).
Proof.
  intros Hdf Hwf _ He Hc Hne Hnum.
  destruct (mapM_total (abs_value (dtype_of ecol)) ecol) as (ecol' & Habs).
  { apply Forall_forall. intros v Hin.
    destruct (abs_value_abs_of ecol v Hnum Hin) as (v' & Hv & _).
    exists v'. exact Hv. }
  set (fixed := map (Field.correct_value (values_to_rename p)) ccol).
  set (t1 := mkDF (nrows t) (replace_series abs_column ecol' (series t))).
  set (t2 := mkDF (nrows t) (replace_series column_name fixed (series t1))).
  assert (Hlen_e : List.length ecol' = nrows t).
  { rewrite (mapM_length _ _ _ Habs). apply (wf_lookup t abs_column). auto. auto. }
  assert (Hlen_c : List.length fixed = nrows t).
  { unfold fixed. rewrite length_map. apply (wf_lookup t column_name); auto. }
  assert (Hc1 : lookup_series column_name (series t1) = Some ccol).
  { unfold t1. cbn [series]. rewrite lookup_replace_other by exact Hne. exact Hc. }
  exists t2, ecol', fixed. repeat split.
  - unfold Field.apply_corrections, bind, get_self, lift, set_self, series_abs.
    cbn [self calls]. rewrite Hdf. cbn [subscript_df].
    rewrite (getitem_ok t abs_column ecol He), Habs.
    rewrite (setitem_existing t abs_column ecol' Hlen_e)
      by (apply (lookup_series_mem _ _ _ He)).
    fold t1. rewrite (getitem_ok t1 column_name ccol Hc1).
    cbn [values_to_rename with_df]. fold fixed.
    rewrite (setitem_existing t1 column_name fixed)
      by (try exact Hlen_c; apply (lookup_series_mem _ _ _ Hc1)).
    reflexivity.
  - unfold columns, t2, t1. cbn [series]. rewrite !columns_replace. reflexivity.
  - unfold t2, t1. cbn [series].
    rewrite lookup_replace_other by congruence.
    apply lookup_replace_same. apply (lookup_series_mem _ _ _ He).
  - apply mapM_Forall2 in Habs.
    apply (Forall2_In_l _ (fun v => In v ecol)) in Habs; [|auto].
    eapply Forall2_impl; [|exact Habs]. intros v v' [Hv Hin].
    destruct (abs_value_abs_of ecol v Hnum Hin) as (w & Hw & H).
    rewrite Hv in Hw. injection Hw as <-. exact H.
  - unfold t2. cbn [series]. apply lookup_replace_same.
    apply (lookup_series_mem _ _ _ Hc1).
  - apply Forall2_map_r. apply correct_value_corrected.
  - intros c H1 H2. unfold t2, t1. cbn [series].
    rewrite !lookup_replace_other by congruence. reflexivity.
Qed.

(** ** The left merge *)


















Lemma filter_label_notin key (l : list (string * list value)) :
  ~ In key (map fst (filter (not_label key) l)).
Proof.
  unfold not_label.
  induction l as [|[n col] l IH]; simpl; [tauto|].
  destruct (String.eqb n key) eqn:E; simpl; [exact IH|].
  intros [H | H]; [|exact (IH H)].
  subst n. rewrite String.eqb_refl in E. discriminate.
Qed.


Lemma lookup_series_app n l l' :
  In n (map fst l) -> lookup_series n (l ++ l') = lookup_series n l.
Proof.
  induction l as [|[m col] l IH]; simpl; [tauto|].
  intro H. destruct (String.eqb n m) eqn:E; [reflexivity|].
  apply IH. destruct H as [H | H]; [|exact H].
  subst m. rewrite String.eqb_refl in E. discriminate.
Qed.


Lemma lookup_series_map_data c (g : list value -> list value) l :
  lookup_series c (map (fun col => (fst col, g (snd col))) l)
  = option_map g (lookup_series c l).
Proof.
  induction l as [|[n col] l IH]; simpl; [reflexivity|].
  destruct (String.eqb c n); [reflexivity | exact IH].
Qed.

Lemma lookup_series_filter_other c u l :
  c <> u -> lookup_series c (filter (not_label u) l) = lookup_series c l.
Proof.
  intro H. induction l as [|[n col] l IH]; simpl; [reflexivity|].
  unfold not_label at 1. cbn [fst].
  destruct (String.eqb n u) eqn:E; cbn [negb].
  - apply String.eqb_eq in E. subst n.
    rewrite (eqb_neq_false c u H). exact IH.
  - simpl. destruct (String.eqb c n); [reflexivity | exact IH].
Qed.


(** ** Station identifiers in report order *)

Lemma lex3_opp s t : lex3 t s = CompOpp (lex3 s t).
Proof.
  destruct s as [[a b] c], t as [[a' b'] c']. unfold lex3.
  rewrite (Z.compare_antisym a a'), (Z.compare_antisym b b'),
    (Z.compare_antisym c c').
  destruct (a ?= a')%Z, (b ?= b')%Z, (c ?= c')%Z; reflexivity.
Qed.

Lemma lex3_ge_trans s t u :
  lex3 s t <> Lt -> lex3 t u <> Lt -> lex3 s u <> Lt.
Proof.
  destruct s as [[a b] c], t as [[a' b'] c'], u as [[a'' b''] c''].
  unfold lex3.
  destruct (Z.compare_spec a a'), (Z.compare_spec a' a''),
    (Z.compare_spec a a''); try congruence; try lia; subst;
    destruct (Z.compare_spec b b'), (Z.compare_spec b' b''),
      (Z.compare_spec b b''); try congruence; try lia; subst;
      destruct (Z.compare_spec c c'), (Z.compare_spec c' c''),
        (Z.compare_spec c c''); try congruence; lia.
Qed.

Lemma SFcompare_rank (x y : SpecFloat.spec_float) :
  x <> SpecFloat.S754_nan -> y <> SpecFloat.S754_nan ->
  SpecFloat.SFcompare x y = Some (lex3 (SFrank x) (SFrank y)).
Proof.
  intros Hx Hy.
  destruct x as [s | s | | s m e], y as [s' | s' | | s' m' e'];
    try contradiction; cbn [SpecFloat.SFcompare SFrank];
    try (destruct s; reflexivity); try (destruct s'; reflexivity);
    try (destruct s, s'; reflexivity).
  destruct s, s'; unfold lex3; cbn [Z.compare]; try reflexivity.
  cbn [Pos.compare Pos.compare_cont CompOpp].
  rewrite Z.compare_opp, (Z.compare_antisym e e').
  destruct (e ?= e')%Z; reflexivity.
Qed.

Lemma real_not_nan f :
  is_real (VFloat f) = true -> Prim2SF f <> SpecFloat.S754_nan.
Proof.
  simpl. intros H E. apply is_nan_Prim2SF in E. rewrite E in H. discriminate.
Qed.

Lemma Z_eqb_compare (x y : Z) :
  (x =? y)%Z = match (x ?= y)%Z with Eq => true | _ => false end.
Proof.
  destruct (Z.compare_spec x y), (Z.eqb_spec x y); try reflexivity; lia.
Qed.

Lemma string_compare_refl (s : string) : String.compare s s = Eq.
Proof. apply OrderedTypeEx.String_as_OT.cmp_eq. reflexivity. Qed.

Lemma string_eqb_compare (x y : string) :
  String.eqb x y = match String.compare x y with Eq => true | _ => false end.
Proof.
  destruct (String.eqb_spec x y) as [-> | Hne].
  - rewrite string_compare_refl. reflexivity.
  - destruct (String.compare x y) eqn:E; try reflexivity.
    apply String.compare_eq_iff in E. contradiction.
Qed.

Lemma string_ge_trans (x y z : string) :
  String.compare x y <> Lt -> String.compare y z <> Lt ->
  String.compare x z <> Lt.
Proof.
  intros H1 H2 H3.
  assert (G : forall a b, String.compare a b <> Lt ->
                          a = b \/ OrderedTypeEx.String_as_OT.lt b a).
  { intros a b H. destruct (String.compare a b) eqn:E.
    - left. apply String.compare_eq_iff. exact E.
    - contradiction.
    - right. apply OrderedTypeEx.String_as_OT.cmp_lt.
      unfold OrderedTypeEx.String_as_OT.cmp.
      rewrite String.compare_antisym, E. reflexivity. }
  apply OrderedTypeEx.String_as_OT.cmp_lt in H3.
  destruct (G x y H1) as [-> | Hyx], (G y z H2) as [-> | Hzy].
  - exact (OrderedTypeEx.String_as_OT.lt_not_eq _ _ H3 eq_refl).
  - exact (OrderedTypeEx.String_as_OT.lt_not_eq _ _
             (OrderedTypeEx.String_as_OT.lt_trans _ _ _ H3 Hzy) eq_refl).
  - exact (OrderedTypeEx.String_as_OT.lt_not_eq _ _
             (OrderedTypeEx.String_as_OT.lt_trans _ _ _ H3 Hyx) eq_refl).
  - exact (OrderedTypeEx.String_as_OT.lt_not_eq _ _
             (OrderedTypeEx.String_as_OT.lt_trans _ _ _
                (OrderedTypeEx.String_as_OT.lt_trans _ _ _ H3 Hzy) Hyx)
             eq_refl).
Qed.

Lemma ints_ordered : ordered_by is_int int_cmp.
Proof.
  split.
  - intros [x|f1|t1|] [y|f2|t2|]; try discriminate. intros _ _. reflexivity.
  - intros [x|f1|t1|] [y|f2|t2|]; try discriminate. intros _ _.
    unfold key_eq. cbn [value_eq is_null andb]. rewrite orb_false_r.
    apply Z_eqb_compare.
  - intros [x|f1|t1|] [y|f2|t2|]; try discriminate. intros _ _.
    apply Z.compare_antisym.
  - intros [x|f1|t1|] [y|f2|t2|] [z|f3|t3|]; try discriminate. intros _ _ _.
    cbn [int_cmp].
    destruct (Z.compare_spec x y), (Z.compare_spec y z),
      (Z.compare_spec x z); try congruence; lia.
  - intros [x|f1|t1|] [y|f2|t2|]; try discriminate. intros _ _ H.
    apply Z.compare_lt_iff. exact H.
Qed.

Lemma reals_ordered : ordered_by is_real real_cmp.
Proof.
  split.
  - intros [i1|x|t1|] [i2|y|t2|]; try discriminate. intros Hx Hy.
    cbn [py_lt real_cmp]. rewrite ltb_spec. unfold SpecFloat.SFltb.
    rewrite (SFcompare_rank _ _ (real_not_nan x Hx) (real_not_nan y Hy)).
    reflexivity.
  - intros [i1|x|t1|] [i2|y|t2|]; try discriminate. intros Hx Hy.
    unfold key_eq. cbn [value_eq is_null real_cmp].
    pose proof (real_not_nan x Hx) as Nx.
    pose proof (real_not_nan y Hy) as Ny.
    cbn [is_real] in Hx.
    destruct (PrimFloat.is_nan x); [discriminate|].
    cbn [andb]. rewrite orb_false_r, eqb_spec. unfold SpecFloat.SFeqb.
    rewrite (SFcompare_rank _ _ Nx Ny).
    reflexivity.
  - intros [i1|x|t1|] [i2|y|t2|]; try discriminate. intros _ _. apply lex3_opp.
  - intros [i1|x|t1|] [i2|y|t2|] [i3|z|t3|]; try discriminate. intros _ _ _.
    apply lex3_ge_trans.
  - intros [i1|x|t1|] [i2|y|t2|]; try discriminate. intros Hx Hy H.
    cbn [below]. rewrite ltb_spec. unfold SpecFloat.SFltb.
    rewrite (SFcompare_rank _ _ (real_not_nan x Hx) (real_not_nan y Hy)).
    cbn [real_cmp] in H. rewrite H. reflexivity.
Qed.

Lemma texts_ordered : ordered_by is_text text_cmp.
Proof.
  split.
  - intros [i1|f1|x|] [i2|f2|y|]; try discriminate. intros _ _. reflexivity.
  - intros [i1|f1|x|] [i2|f2|y|]; try discriminate. intros _ _.
    unfold key_eq. cbn [value_eq is_null andb]. rewrite orb_false_r.
    apply string_eqb_compare.
  - intros [i1|f1|x|] [i2|f2|y|]; try discriminate. intros _ _.
    apply String.compare_antisym.
  - intros [i1|f1|x|] [i2|f2|y|] [i3|f3|z|]; try discriminate. intros _ _ _.
    apply string_ge_trans.
  - intros [i1|f1|x|] [i2|f2|y|]; try discriminate. intros _ _ H.
    cbn [below text_cmp] in *. unfold String.ltb. rewrite H. reflexivity.
Qed.

Lemma key_eq_refl v : key_eq v v = true.
Proof.
  unfold key_eq. destruct v as [z | f | s | ]; cbn [value_eq is_null].
  - rewrite Z.eqb_refl. reflexivity.
  - destruct (PrimFloat.is_nan f) eqn:E.
    + apply orb_true_r.
    + rewrite eqb_spec. unfold SpecFloat.SFeqb.
      rewrite SFcompare_refl; [reflexivity|].
      intro H. apply is_nan_Prim2SF in H. congruence.
  - rewrite String.eqb_refl. reflexivity.
  - reflexivity.
Qed.

(** [unique]: cells of the column, no two of them equal, and every cell
    of the column equal to one of them. *)
Lemma unique_from_In seen col v : In v (unique_from seen col) -> In v col.
Proof.
  revert seen. induction col as [|w col IH]; intro seen; simpl; [tauto|].
  destruct (existsb (key_eq w) seen).
  - intro H. right. apply (IH _ H).
  - intros [H | H]; [left; exact H | right; apply (IH _ H)].
Qed.

Lemma unique_from_fresh seen col v :
  In v (unique_from seen col) -> existsb (key_eq v) seen = false.
Proof.
  revert seen. induction col as [|w col IH]; intro seen; simpl; [tauto|].
  destruct (existsb (key_eq w) seen) eqn:E; [apply IH|].
  intros [<- | H]; [exact E|].
  specialize (IH _ H). cbn [existsb] in IH.
  apply orb_false_elim in IH. apply IH.
Qed.

Lemma unique_from_apart seen col :
  ForallOrdPairs (fun a b => key_eq b a = false) (unique_from seen col).
Proof.
  revert seen. induction col as [|w col IH]; intro seen; simpl;
    [constructor|].
  destruct (existsb (key_eq w) seen) eqn:E; [apply IH|].
  constructor; [|apply IH].
  rewrite Forall_forall. intros b Hb.
  apply unique_from_fresh in Hb. cbn [existsb] in Hb.
  apply orb_false_elim in Hb. apply Hb.
Qed.

Lemma unique_from_covers seen col v :
  In v col ->
  existsb (key_eq v) seen = true
  \/ exists s, In s (unique_from seen col) /\ key_eq v s = true.
Proof.
  revert seen. induction col as [|w col IH]; intros seen Hin;
    [destruct Hin|]. simpl.
  destruct (existsb (key_eq w) seen) eqn:E.
  - destruct Hin as [<- | Hin]; [left; exact E | apply IH; exact Hin].
  - destruct Hin as [<- | Hin].
    + right. exists w. split; [left; reflexivity | apply key_eq_refl].
    + destruct (IH (w :: seen) Hin) as [H | (s & Hs & Hv)].
      * cbn [existsb] in H. apply orb_prop in H. destruct H as [H | H].
        -- right. exists w. split; [left; reflexivity | exact H].
        -- left. exact H.
      * right. exists s. split; [right; exact Hs | exact Hv].
Qed.

Lemma unique_NoDup col : NoDup (unique col).
Proof.
  unfold unique. generalize (unique_from_apart [] col).
  induction 1 as [|a l Ha _ IH]; constructor; [|exact IH].
  intro Hin. rewrite Forall_forall in Ha. specialize (Ha a Hin).
  rewrite key_eq_refl in Ha. discriminate.
Qed.

(** [sorted] rearranges. *)
Lemma insert_from_right_perm x racc r :
  insert_from_right x racc = Ok r -> Permutation r (x :: racc).
Proof.
  revert r. induction racc as [|y rest IH]; intro r; simpl.
  - intros [= <-]. reflexivity.
  - destruct (py_lt x y) as [[|]|]; simpl; try discriminate.
    + destruct (insert_from_right x rest) as [r'|]; simpl; [|discriminate].
      intros [= <-]. rewrite (IH r' eq_refl). apply perm_swap.
    + intros [= <-]. reflexivity.
Qed.

Lemma sort_onto_perm l racc r :
  sort_onto racc l = Ok r -> Permutation r (racc ++ l).
Proof.
  revert racc r. induction l as [|x l IH]; intros racc r; simpl.
  - intros [= <-]. rewrite app_nil_r. symmetry. apply Permutation_rev.
  - destruct (insert_from_right x racc) as [racc'|] eqn:E; simpl;
      [|discriminate].
    intro H. rewrite (IH _ _ H).
    rewrite (insert_from_right_perm _ _ _ E).
    apply Permutation_middle.
Qed.

Lemma sorted_perm l r : sorted l = Ok r -> Permutation r l.
Proof. intro H. apply (sort_onto_perm l [] r H). Qed.

Lemma sort_onto_no_descent l racc :
  no_descent (match racc with
              | y :: _ => y :: l
              | [] => l
              end) ->
  sort_onto racc l = Ok (rev racc ++ l).
Proof.
  revert racc. induction l as [|x rest IH]; intros racc H.
  - simpl. rewrite app_nil_r. reflexivity.
  - cbn [sort_onto]. destruct racc as [|y r].
    + cbn [insert_from_right rbind]. rewrite (IH [x] H). reflexivity.
    + destruct H as [Hxy H]. cbn [insert_from_right]. rewrite Hxy.
      cbn [rbind]. rewrite (IH (x :: y :: r) H).
      cbn [rev]. rewrite <- !app_assoc. reflexivity.
Qed.

(** A list in which no item is less than the item before it comes back as
    it is. *)
Lemma sorted_no_descent l : no_descent l -> sorted l = Ok l.
Proof. intro H. apply (sort_onto_no_descent l [] H). Qed.

(** [sorted] raises only where text meets something that is not text. *)
Lemma py_lt_total a b :
  is_text a = is_text b -> exists c, py_lt a b = Ok c.
Proof. destruct a, b; simpl; try discriminate; eauto. Qed.

Lemma insert_from_right_total (t : bool) x racc :
  is_text x = t -> Forall (fun v => is_text v = t) racc ->
  exists r, insert_from_right x racc = Ok r.
Proof.
  intros Hx H. induction H as [|y rest Hy _ IH]; simpl; [eauto|].
  destruct (py_lt_total x y) as (c & ->); [congruence|]. simpl.
  destruct c; [|eauto]. destruct IH as (r & ->). simpl. eauto.
Qed.

Lemma sort_onto_total (t : bool) l racc :
  Forall (fun v => is_text v = t) l -> Forall (fun v => is_text v = t) racc ->
  exists r, sort_onto racc l = Ok r.
Proof.
  intro H. revert racc. induction H as [|x l Hx _ IH]; intros racc Hr; simpl;
    [eauto|].
  destruct (insert_from_right_total t x racc Hx Hr) as (racc' & E).
  rewrite E. simpl. apply IH.
  apply (Permutation_Forall (Permutation_sym (insert_from_right_perm _ _ _ E))).
  constructor; assumption.
Qed.

Lemma sorted_total (t : bool) l :
  Forall (fun v => is_text v = t) l -> exists r, sorted l = Ok r.
Proof. intro H. apply (sort_onto_total t l [] H). constructor. Qed.

Lemma sorted_unique_first (t : bool) ids :
  ids <> [] -> Forall (fun v => is_text v = t) ids ->
  exists station rest, sorted (unique ids) = Ok (station :: rest).
Proof.
  intros Hne H.
  assert (Hu : Forall (fun v => is_text v = t) (unique ids)).
  { apply Forall_forall. intros v Hv.
    apply (proj1 (Forall_forall _ _) H). apply (unique_from_In [] ids v Hv). }
  destruct (sorted_total t (unique ids) Hu) as (r & Hr).
  destruct r as [|station rest]; [|eauto].
  exfalso. apply sorted_perm in Hr. apply Permutation_nil in Hr.
  destruct ids as [|v ids]; [apply Hne; reflexivity|].
  unfold unique in Hr. simpl in Hr. discriminate.
Qed.

Lemma StronglySorted_app {A} (R : A -> A -> Prop) l l' :
  StronglySorted R l -> StronglySorted R l' ->
  (forall a b, In a l -> In b l' -> R a b) ->
  StronglySorted R (l ++ l').
Proof.
  induction 1 as [|a l Hs IH Ha]; intros Hl' H; simpl; [exact Hl'|].
  constructor.
  - apply IH; [exact Hl'|]. intros x y Hx Hy. apply H; [right|]; assumption.
  - apply Forall_app. split; [exact Ha|].
    rewrite Forall_forall. intros y Hy. apply H; [left; reflexivity | exact Hy].
Qed.

Lemma StronglySorted_rev {A} (R : A -> A -> Prop) l :
  StronglySorted R l -> StronglySorted (fun a b => R b a) (rev l).
Proof.
  induction 1 as [|a l Hs IH Ha]; simpl; [constructor|].
  apply StronglySorted_app; [exact IH | repeat constructor|].
  intros x y Hx [<- | []]. apply in_rev in Hx.
  rewrite Forall_forall in Ha. apply Ha. exact Hx.
Qed.

Section Insertion.
Variable K : value -> bool.
Variable cmp : value -> value -> comparison.
Hypothesis HK : ordered_by K cmp.

(** The part done so far, last item first, stays in order when an item is
    put in. *)
Lemma insert_from_right_ordered x racc :
  K x = true -> Forall (fun v => K v = true) racc ->
  StronglySorted (fun a b => cmp a b <> Lt) racc ->
  exists r, insert_from_right x racc = Ok r
            /\ StronglySorted (fun a b => cmp a b <> Lt) r.
Proof.
  intros Hx Hall Hs. induction Hs as [|y rest Hs IH Hy]; simpl.
  - eexists. split; [reflexivity | repeat constructor].
  - inversion Hall as [|? ? Hky Hrest]; subst.
    rewrite (ord_lt K cmp HK x y Hx Hky). simpl.
    destruct (cmp x y) eqn:E.
    + eexists. split; [reflexivity|]. constructor; [constructor; assumption|].
      constructor; [congruence|].
      rewrite Forall_forall in *. intros z Hz.
      apply (ord_trans K cmp HK x y z); auto. congruence.
    + destruct (IH Hrest) as (r & Er & Hr). rewrite Er. simpl.
      eexists. split; [reflexivity|]. constructor; [exact Hr|].
      rewrite Forall_forall in *. intros z Hz.
      apply (Permutation_in _ (insert_from_right_perm _ _ _ Er)) in Hz.
      destruct Hz as [<- | Hz]; [|apply Hy; exact Hz].
      rewrite (ord_opp K cmp HK x y Hx Hky), E. discriminate.
    + eexists. split; [reflexivity|]. constructor; [constructor; assumption|].
      constructor; [congruence|].
      rewrite Forall_forall in *. intros z Hz.
      apply (ord_trans K cmp HK x y z); auto. congruence.
Qed.

Lemma sort_onto_ordered l racc :
  Forall (fun v => K v = true) l -> Forall (fun v => K v = true) racc ->
  StronglySorted (fun a b => cmp a b <> Lt) racc ->
  exists r, sort_onto racc l = Ok r
            /\ StronglySorted (fun a b => cmp b a <> Lt) r.
Proof.
  intro Hl. revert racc. induction Hl as [|x l Hx _ IH]; intros racc Hr Hs;
    simpl.
  - eexists. split; [reflexivity|]. apply StronglySorted_rev. exact Hs.
  - destruct (insert_from_right_ordered x racc Hx Hr Hs) as (racc' & E & Hs').
    rewrite E. simpl. apply IH; [|exact Hs'].
    apply (Permutation_Forall
             (Permutation_sym (insert_from_right_perm _ _ _ E))).
    constructor; assumption.
Qed.

(** Distinct identifiers of the kind come out in strictly ascending
    order. *)
Lemma sorted_unique_ascending col :
  Forall (fun v => K v = true) col ->
  exists stations,
    sorted (unique col) = Ok stations
    /\ Permutation stations (unique col)
    /\ StronglySorted below stations.
Proof.
  intro Hcol.
  assert (Hu : Forall (fun v => K v = true) (unique col)).
  { rewrite Forall_forall in *. intros v Hv. apply Hcol.
    apply (unique_from_In [] col). exact Hv. }
  destruct (sort_onto_ordered (unique col) [] Hu (Forall_nil _)
              (SSorted_nil _)) as (stations & Es & Hs).
  exists stations. split; [exact Es|].
  pose proof (sorted_perm _ _ Es) as Hperm. split; [exact Hperm|].
  assert (Hnd : NoDup stations).
  { apply (Permutation_NoDup (Permutation_sym Hperm)). apply unique_NoDup. }
  assert (Hk : Forall (fun v => K v = true) stations).
  { apply (Permutation_Forall (Permutation_sym Hperm)). exact Hu. }
  assert (Hapart : forall a b, In a stations -> In b stations -> a <> b ->
                     key_eq a b = false \/ key_eq b a = false).
  { intros a b Ha Hb Hne.
    apply (Permutation_in _ Hperm) in Ha, Hb.
    destruct (ForallOrdPairs_In (unique_from_apart [] col) a b Ha Hb)
      as [H | [H | H]]; [contradiction | right; exact H | left; exact H]. }
  clear - HK Hs Hnd Hk Hapart.
  induction Hs as [|a l Hs IH Ha]; [constructor|].
  inversion Hnd as [|? ? Hnotin Hnd']; subst.
  inversion Hk as [|? ? Hka Hkl]; subst.
  constructor.
  - apply IH; [exact Hnd' | exact Hkl|].
    intros x y Hx Hy. apply Hapart; right; assumption.
  - rewrite Forall_forall in *. intros b Hb.
    specialize (Ha b Hb). specialize (Hkl b Hb).
    apply (ord_below K cmp HK a b Hka Hkl).
    assert (Hne : a <> b) by (intros ->; contradiction).
    rewrite (ord_opp K cmp HK a b Hka Hkl) in Ha.
    destruct (Hapart a b (or_introl eq_refl) (or_intror Hb) Hne) as [H | H].
    + rewrite (ord_eq K cmp HK a b Hka Hkl) in H.
      destruct (cmp a b); simpl in *; congruence.
    + rewrite (ord_eq K cmp HK b a Hkl Hka),
        (ord_opp K cmp HK a b Hka Hkl) in H.
      destruct (cmp a b); simpl in *; congruence.
Qed.
End Insertion.

(** [sorted(col.unique())] on identifiers [<] orders: the distinct
    identifiers of the column, strictly ascending. *)
Lemma sorted_unique_spec col :
  orderable col ->
  exists stations,
    sorted (unique col) = Ok stations
    /\ StronglySorted below stations
    /\ (forall s, In s stations -> In s col)
    /\ (forall v, In v col -> exists s, In s stations /\ key_eq v s = true).
Proof.
  intro H.
  assert (G : exists stations,
             sorted (unique col) = Ok stations
             /\ Permutation stations (unique col)
             /\ StronglySorted below stations).
  { destruct H as [H | [H | H]].
    - apply (sorted_unique_ascending is_int int_cmp ints_ordered col H).
    - apply (sorted_unique_ascending is_real real_cmp reals_ordered col H).
    - apply (sorted_unique_ascending is_text text_cmp texts_ordered col H). }
  destruct G as (stations & Es & Hperm & Hs).
  exists stations. split; [exact Es | split; [exact Hs | split]].
  - intros s Hin. apply (unique_from_In [] col).
    apply (Permutation_in _ Hperm). exact Hin.
  - intros v Hv. destruct (unique_from_covers [] col v Hv)
      as [Hex | (s & Hin & Heq)]; [discriminate|].
    exists s. split; [|exact Heq].
    apply (Permutation_in _ (Permutation_sym Hperm)). exact Hin.
Qed.

(** ** The comparison report *)

Lemma for_each_agree {S A} (l : list A) (body body' : A -> M S unit) :
  (forall x st, In x l -> body x st = body' x st) ->
  forall st, for_each l body st = for_each l body' st.
Proof.
  induction l as [|x l IH]; intros H st; simpl; [reflexivity|].
  unfold bind. rewrite (H x st) by (left; reflexivity).
  destruct (body' x st) as [[[]|e] st']; [|reflexivity].
  apply IH. intros y st0 Hy. apply H. right. exact Hy.
Qed.

Lemma report_of_In stations s k :
  In (Some (s, k)) (report_of stations) -> In s stations.
Proof.
  unfold report_of. rewrite in_flat_map. intros (s' & Hs' & Hin).
  simpl in Hin.
  destruct Hin as [H | [H | [H | [H | []]]]]; try discriminate;
    injection H as -> _; exact Hs'.
Qed.

Section Report.
Variable ttest_ind : list value -> list value -> bool -> res (float * float).
Variables field_df weather_df : DataFrame.
Variable alpha : float.

Local Abbreviation pstep := (pair_step ttest_ind field_df weather_df alpha).
Local Abbreviation sstep := (station_step ttest_ind field_df weather_df alpha).

Lemma hypothesis_results_loops (l : list string) :
  Analysis.hypothesis_results ttest_ind field_df weather_df l alpha
  = (ids <- lift (getitem weather_df "Weather_station_ID") ;;
     unique_station_ids <- lift (sorted (unique ids)) ;;
     for_each unique_station_ids sstep)%M.
Proof. reflexivity. Qed.

Lemma print_ttest_results_line station_id measurement p_val out :
  exists ln,
    Analysis.print_ttest_results station_id measurement p_val alpha out
    = (Ok tt, out ++ [ln])
    /\ tested_pair ln = Some (station_id, measurement).
Proof.
  unfold Analysis.print_ttest_results, print.
  destruct (PrimFloat.leb p_val alpha); eexists; split; reflexivity.
Qed.

(** One pair: a line about that pair, or an exception and no line. *)
Lemma pair_step_out station_id measurement out r out' :
  pstep station_id measurement out = (r, out') ->
  (r = Ok tt /\ exists ln, out' = out ++ [ln]
                           /\ tested_pair ln = Some (station_id, measurement))
  \/ ((exists e, r = Raise e) /\ out' = out).
Proof.
  unfold pstep, bind, lift.
  destruct (Analysis.filter_field_data field_df station_id measurement);
    [|intros [= <- <-]; right; eauto].
  destruct (Analysis.filter_weather_data weather_df station_id measurement);
    [|intros [= <- <-]; right; eauto].
  destruct (Analysis.run_ttest ttest_ind a a0) as [tp|];
    [|intros [= <- <-]; right; eauto].
  destruct (print_ttest_results_line station_id measurement (snd tp) out)
    as (ln & -> & Hln).
  intros [= <- <-]. left. eauto.
Qed.

(** The inner loop: lines about the station, one per kind, in the order of
    the kinds, up to the first exception. *)
Lemma kinds_loop_seq station_id kinds out r out' :
  for_each kinds (pstep station_id) out = (r, out') ->
  exists lns rest,
    out' = out ++ lns
    /\ map tested_pair lns ++ rest
       = map (fun k => Some (station_id, k)) kinds
    /\ (r = Ok tt -> rest = []).
Proof.
  revert out. induction kinds as [|k kinds IH]; intro out; simpl.
  - unfold ret. intros [= <- <-]. exists [], []. rewrite app_nil_r. auto.
  - unfold bind.
    destruct (pstep station_id k out) as [r1 out1] eqn:E1.
    destruct (pair_step_out _ _ _ _ _ E1)
      as [(-> & ln & -> & Hln) | ((e & ->) & ->)].
    + intro H. destruct (IH _ H) as (lns & rest & -> & Hseq & Hok).
      exists (ln :: lns), rest. rewrite <- app_assoc.
      split; [reflexivity | split; [|exact Hok]].
      simpl. rewrite Hln, Hseq. reflexivity.
    + intros [= <- <-].
      exists [], (Some (station_id, k)
                  :: map (fun k => Some (station_id, k)) kinds).
      rewrite app_nil_r.
      split; [reflexivity | split; [reflexivity | discriminate]].
Qed.

(** One station: its kind lines, then the blank line. *)
Lemma station_step_seq station_id out r out' :
  sstep station_id out = (r, out') ->
  exists lns rest,
    out' = out ++ lns
    /\ map tested_pair lns ++ rest = report_of [station_id]
    /\ (r = Ok tt -> rest = []).
Proof.
  unfold sstep, bind.
  destruct (for_each Analysis.measurements_to_compare (pstep station_id) out)
    as [r1 out1] eqn:E1.
  destruct (kinds_loop_seq _ _ _ _ _ E1) as (lns & rest & -> & Hseq & Hok).
  destruct r1 as [[]|e].
  - unfold print. intros [= <- <-]. exists (lns ++ [[]]), [].
    rewrite app_assoc, app_nil_r.
    split; [reflexivity | split; [|reflexivity]].
    rewrite map_app. rewrite (Hok eq_refl), app_nil_r in Hseq.
    rewrite Hseq. reflexivity.
  - intros [= <- <-]. exists lns, (rest ++ [None]).
    split; [reflexivity | split; [|discriminate]].
    rewrite app_assoc, Hseq. reflexivity.
Qed.

(** The outer loop: the report of the stations in their order, up to the
    first exception. *)
Lemma stations_loop_seq stations out r out' :
  for_each stations sstep out = (r, out') ->
  exists lns rest,
    out' = out ++ lns
    /\ map tested_pair lns ++ rest = report_of stations
    /\ (r = Ok tt -> rest = []).
Proof.
  revert out. induction stations as [|s stations IH]; intro out; simpl.
  - unfold ret. intros [= <- <-]. exists [], []. rewrite app_nil_r. auto.
  - unfold bind. destruct (sstep s out) as [r1 out1] eqn:E1.
    destruct (station_step_seq _ _ _ _ E1) as (lns1 & rest1 & -> & Hseq1 & Hok1).
    change (report_of (s :: stations))
      with (report_of [s] ++ report_of stations).
    destruct r1 as [[]|e].
    + intro H. destruct (IH _ H) as (lns & rest & -> & Hseq & Hok).
      exists (lns1 ++ lns), rest. rewrite app_assoc.
      split; [reflexivity | split; [|exact Hok]].
      rewrite (Hok1 eq_refl), app_nil_r in Hseq1.
      rewrite map_app, <- app_assoc, Hseq, Hseq1. reflexivity.
    + intros [= <- <-]. exists lns1, (rest1 ++ report_of stations).
      split; [reflexivity | split; [|discriminate]].
      rewrite app_assoc, Hseq1. reflexivity.
Qed.

(** C2, as the code has it.  The report does not depend on the list of
    kinds passed in.  When the identifiers of the weather table's
    [Weather_station_ID] column are all integers, or all floats and none
    NaN, or all text, the stations of the report are the distinct
    identifiers in strictly ascending order, and the lines printed are,
    for each station in that order, a line for Temperature, a line for
    Rainfall, a line for Pollution_level, then a blank line; a run that
    raises stops somewhere in this sequence. *)
Theorem hypothesis_results_order (list_measurements_to_compare : list string)
  (ids : list value) (r : res unit) (out : list line) :
  lookup_series "Weather_station_ID" (series weather_df) = Some ids ->
  orderable ids ->
  Analysis.hypothesis_results ttest_ind field_df weather_df
    list_measurements_to_compare alpha [] = (r, out) ->
  (forall other,
      Analysis.hypothesis_results ttest_ind field_df weather_df other alpha
      = Analysis.hypothesis_results ttest_ind field_df weather_df
          list_measurements_to_compare alpha)
  /\ exists stations rest,
       StronglySorted below stations
       /\ (forall s, In s stations -> In s ids)
       /\ (forall v, In v ids ->
             exists s, In s stations /\ key_eq v s = true)
       /\ map tested_pair out ++ rest = report_of stations
       /\ (r = Ok tt -> rest = []).
Proof.
  intros Hids Hord H. split; [reflexivity|].
  rewrite hypothesis_results_loops in H. unfold bind, lift, getitem in H.
  rewrite Hids in H.
  destruct (sorted_unique_spec ids Hord) as (stations & Es & Hs & Hin & Hcov).
  rewrite Es in H.
  destruct (stations_loop_seq _ _ _ _ H) as (lns & rest & -> & Hseq & Hok).
  exists stations, rest. cbn [app].
  split; [exact Hs | split; [exact Hin | split; [exact Hcov|]]].
  split; [exact Hseq | exact Hok].
Qed.

(** C10.  The stations of the loop are identifiers of the weather table's
    [Weather_station_ID] column, and so is the station of every line of
    the report, however the run ends.  A station of the field table that
    no weather row has gets no line, and no test: the run is the same
    whatever the test would return on samples other than those of the
    weather table's stations. *)
Theorem report_stations_from_weather (list_measurements_to_compare : list string)
  (r : res unit) (out : list line) :
  Analysis.hypothesis_results ttest_ind field_df weather_df
    list_measurements_to_compare alpha [] = (r, out) ->
  (forall ln s k,
      In ln out -> tested_pair ln = Some (s, k) ->
      exists ids,
        lookup_series "Weather_station_ID" (series weather_df) = Some ids
        /\ In s ids)
  /\ (forall s fs ids,
        lookup_series "Weather_station" (series field_df) = Some fs ->
        In s fs ->
        lookup_series "Weather_station_ID" (series weather_df) = Some ids ->
        Forall (fun id => value_eq id s = false) ids ->
        forall ln s' k,
          In ln out -> tested_pair ln = Some (s', k) ->
          value_eq s' s = false)
  /\ (forall test',
        (forall ids s,
            lookup_series "Weather_station_ID" (series weather_df) = Some ids ->
            In s ids ->
            same_tests_at ttest_ind test' field_df weather_df s) ->
        Analysis.hypothesis_results test' field_df weather_df
          list_measurements_to_compare alpha []
        = (r, out)).
Proof.
  intro H.
  assert (Hlines : forall ln s k,
             In ln out -> tested_pair ln = Some (s, k) ->
             exists ids,
               lookup_series "Weather_station_ID" (series weather_df) = Some ids
               /\ In s ids).
  { intros ln s k Hln Hpair.
    rewrite hypothesis_results_loops in H. unfold bind, lift, getitem in H.
    destruct (lookup_series "Weather_station_ID" (series weather_df))
      as [ids|] eqn:Eids; [|injection H as <- <-; destruct Hln].
    destruct (sorted (unique ids)) as [stations|] eqn:Es;
      [|injection H as <- <-; destruct Hln].
    destruct (stations_loop_seq _ _ _ _ H) as (lns & rest & -> & Hseq & _).
    cbn [app] in Hln.
    exists ids. split; [reflexivity|].
    apply (unique_from_In [] ids).
    apply (Permutation_in _ (sorted_perm _ _ Es)).
    apply (report_of_In stations s k). rewrite <- Hseq.
    apply in_or_app. left. rewrite <- Hpair. apply in_map. exact Hln. }
  split; [exact Hlines | split].
  - intros s fs ids _ _ Hids Hnone ln s' k Hln Hpair.
    destruct (Hlines ln s' k Hln Hpair) as (ids' & Hids' & Hin).
    rewrite Hids in Hids'. injection Hids' as <-.
    rewrite Forall_forall in Hnone. apply Hnone. exact Hin.
  - intros test' Hsame. rewrite <- H.
    unfold Analysis.hypothesis_results, bind, lift, getitem.
    destruct (lookup_series "Weather_station_ID" (series weather_df))
      as [ids|] eqn:Eids; [|reflexivity].
    destruct (sorted (unique ids)) as [stations|] eqn:Es; [|reflexivity].
    apply for_each_agree. intros s st Hs.
    assert (Hin : In s ids).
    { apply (unique_from_In [] ids).
      apply (Permutation_in _ (sorted_perm _ _ Es)). exact Hs. }
    unfold bind. f_equal.
    rewrite (for_each_agree Analysis.measurements_to_compare
               (fun measurement =>
                  (field_values <-
                     lift (Analysis.filter_field_data field_df s measurement) ;;
                   weather_values <-
                     lift (Analysis.filter_weather_data weather_df s
                             measurement) ;;
                   tp <- lift (Analysis.run_ttest test' field_values
                                 weather_values) ;;
                   Analysis.print_ttest_results s measurement (snd tp)
                     alpha)%M)
               (fun measurement =>
                  (field_values <-
                     lift (Analysis.filter_field_data field_df s measurement) ;;
                   weather_values <-
                     lift (Analysis.filter_weather_data weather_df s
                             measurement) ;;
                   tp <- lift (Analysis.run_ttest ttest_ind field_values
                                 weather_values) ;;
                   Analysis.print_ttest_results s measurement (snd tp)
                     alpha)%M)); [reflexivity|].
    intros k st0 _. unfold bind, lift.
    destruct (Analysis.filter_field_data field_df s k) as [a|] eqn:Ea;
      [|reflexivity].
    destruct (Analysis.filter_weather_data weather_df s k) as [b|] eqn:Eb;
      [|reflexivity].
    unfold Analysis.run_ttest.
    rewrite (Hsame ids s eq_refl Hin k a b Ea Eb). reflexivity.
Qed.
End Report.

(** ** Message parsing *)

Lemma next_not_none_first (n : nat) (x : string) (post : list (option string)) :
  next_not_none (repeat None n ++ Some x :: post) = Ok x.
Proof. induction n as [|n IH]; simpl; [reflexivity | exact IH]. Qed.

Section Parsing.
Variable lib : Builtins.

(** Patterns that do not match are passed over. *)
Lemma extract_from_skip (before rest : list (string * string)) (message : value) :
  Forall (fun kp => re_search lib (snd kp) message = Ok None) before ->
  Weather.extract_from lib (before ++ rest) message
  = Weather.extract_from lib rest message.
Proof.
  induction 1 as [|[k pat] before Hk _ IH]; simpl; [reflexivity|].
  simpl in Hk. rewrite Hk. simpl. exact IH.
Qed.

(** C4.  [extract_measurement] walks the patterns in the order of the
    mapping.  When none matches the message it returns [(None, None)].
    Otherwise the first pattern that matches decides, whatever the
    patterns after it would match and wherever: the result is that
    pattern's kind and [float] of its first captured group that is not
    [None]. *)
Theorem extract_measurement_first_match (p : WeatherDataProcessor)
  (message : value) :
  (Forall (fun kp => re_search lib (snd kp) message = Ok None) (patterns p) ->
   Weather.extract_measurement lib p message = Ok (VNone, VNone))
  /\ (forall before key pattern after n x post f,
        patterns p = before ++ (key, pattern) :: after ->
        Forall (fun kp => re_search lib (snd kp) message = Ok None) before ->
        re_search lib pattern message
        = Ok (Some (repeat None n ++ Some x :: post)) ->
        py_float lib x = Ok f ->
        Weather.extract_measurement lib p message = Ok (VStr key, VFloat f)).
Proof.
  unfold Weather.extract_measurement. split.
  - intro H. rewrite <- (app_nil_r (patterns p)).
    rewrite (extract_from_skip _ [] message H). reflexivity.
  - intros before key pattern after n x post f Hp Hbefore Hmatch Hf.
    rewrite Hp, (extract_from_skip _ _ message Hbefore). simpl.
    rewrite Hmatch. simpl. rewrite next_not_none_first. simpl.
    rewrite Hf. reflexivity.
Qed.

Lemma lookup_series_snoc_same c v l :
  mem c (map fst l) = false -> lookup_series c (l ++ [(c, v)]) = Some v.
Proof.
  induction l as [|[n col] l IH]; simpl.
  - intros _. rewrite String.eqb_refl. reflexivity.
  - destruct (String.eqb c n); simpl; [discriminate | exact IH].
Qed.

Lemma lookup_series_snoc_other c c' v l :
  c' <> c -> lookup_series c' (l ++ [(c, v)]) = lookup_series c' l.
Proof.
  intro H. induction l as [|[n col] l IH]; simpl.
  - rewrite (eqb_neq_false c' c H). reflexivity.
  - destruct (String.eqb c' n); [reflexivity | exact IH].
Qed.

(** [df[c] = vals], when it succeeds: the index is kept, the column [c]
    holds [vals], every other column is as before. *)
Lemma setitem_spec t c vals t' :
  setitem t c vals = Ok t' ->
  nrows t' = nrows t
  /\ lookup_series c (series t') = Some vals
  /\ forall c', c' <> c ->
       lookup_series c' (series t') = lookup_series c' (series t).
Proof.
  unfold setitem.
  destruct (negb (List.length vals =? nrows t)%nat); [discriminate|].
  destruct (mem c (columns t)) eqn:E; intros [= <-]; cbn [nrows series].
  - split; [reflexivity | split].
    + apply lookup_replace_same. exact E.
    + intros c' H. apply lookup_replace_other. congruence.
  - split; [reflexivity | split].
    + apply lookup_series_snoc_same. exact E.
    + intros c' H. apply lookup_series_snoc_other. exact H.
Qed.

(** X13.  What [process_messages] does to a table that has rows and whose
    messages all parse or fail to match: it returns the table with the
    same index, the column [Measurement] holding the kinds and the column
    [Value] holding the values, one cell per message in message order, and
    every other column as it was. *)
Lemma process_messages_rows (p : WeatherDataProcessor) (log : list call)
  (t : DataFrame) (msgs : list value) (result : list (value * value)) :
  weather_df p = Some t ->
  wf_df t ->
  lookup_series "Message" (series t) = Some msgs ->
  msgs <> [] ->
  mapM (Weather.extract_measurement lib p) msgs = Ok result ->
  exists t2,
    Weather.process_messages lib (mkRun p log)
    = (Ok (Some t2), mkRun (with_weather_df p (Some t2)) log)
    /\ nrows t2 = nrows t
    /\ lookup_series "Measurement" (series t2) = Some (map fst result)
    /\ lookup_series "Value" (series t2) = Some (map snd result)
    /\ forall c, c <> "Measurement" -> c <> "Value" ->
         lookup_series c (series t2) = lookup_series c (series t).
Proof.
  intros Hdf Hwf Hmsg Hne Hres.
  assert (Hlen : List.length result = nrows t).
  { rewrite (mapM_length _ _ _ Hres). apply (wf_lookup t "Message"); auto. }
  assert (H1 : exists t1, setitem t "Measurement" (map fst result) = Ok t1).
  { unfold setitem. rewrite length_map, Hlen, Nat.eqb_refl. cbn [negb].
    destruct (mem "Measurement" (columns t)); eexists; reflexivity. }
  destruct H1 as (t1 & Ht1).
  destruct (setitem_spec _ _ _ _ Ht1) as (Hn1 & Hm1 & Ho1).
  assert (H2 : exists t2, setitem t1 "Value" (map snd result) = Ok t2).
  { unfold setitem. rewrite length_map, Hlen, Hn1, Nat.eqb_refl. cbn [negb].
    destruct (mem "Value" (columns t1)); eexists; reflexivity. }
  destruct H2 as (t2 & Ht2).
  destruct (setitem_spec _ _ _ _ Ht2) as (Hn2 & Hm2 & Ho2).
  exists t2. split; [|split; [|split; [|split]]].
  - unfold Weather.process_messages, bind, get_self, lift, set_self, ret.
    cbn [self calls]. rewrite Hdf.
    rewrite (getitem_ok t "Message" msgs Hmsg), Hres.
    destruct result as [|pr result].
    + destruct msgs; [contradiction | simpl in Hres].
      destruct (Weather.extract_measurement lib p v); simpl in Hres;
        [|discriminate].
      destruct (mapM (Weather.extract_measurement lib p) msgs); discriminate.
    + cbn [unzip2 fst snd]. rewrite Ht1. cbn [with_weather_df weather_df].
      rewrite Ht2. reflexivity.
  - congruence.
  - rewrite Ho2 by discriminate. exact Hm1.
  - exact Hm2.
  - intros c Hc1 Hc2. rewrite Ho2 by exact Hc2. apply Ho1. exact Hc1.
Qed.

(** C7.  On a weather table that has the [Message] column and no row,
    [process_messages] raises [ValueError] where it unpacks the two
    derived columns; the table gets neither column. *)
Theorem process_messages_no_rows (p : WeatherDataProcessor) (log : list call)
  (t : DataFrame) :
  weather_df p = Some t ->
  lookup_series "Message" (series t) = Some [] ->
  Weather.process_messages lib (mkRun p log) = (Raise ValueError, mkRun p log).
Proof.
  intros Hdf Hmsg.
  unfold Weather.process_messages, bind, get_self, lift.
  cbn [self calls]. rewrite Hdf.
  rewrite (getitem_ok t "Message" [] Hmsg). reflexivity.
Qed.
End Parsing.

(** ** An undefined p-value *)

(** C1, as the code has it.  A NaN p-value fails the test
    [p_val <= alpha], so [print_ttest_results] prints the line of its
    [else] branch: "No significant difference ... Null hypothesis not
    rejected", with the NaN in the P-Value field only.  The loop of
    [hypothesis_results] hands the p-value over as the test returned it,
    so a pair whose test is undefined gets that line. *)
Theorem nan_p_value_not_significant (station_id : value) (measurement : string)
  (p_val alpha : float) (out : list line) :
  PrimFloat.is_nan p_val = true ->
  Analysis.print_ttest_results station_id measurement p_val alpha out
  = (Ok tt, out ++ [not_significant_line station_id measurement p_val alpha])
  /\ forall ttest_ind field_df weather_df field_values weather_values t_statistic,
       Analysis.filter_field_data field_df station_id measurement
       = Ok field_values ->
       Analysis.filter_weather_data weather_df station_id measurement
       = Ok weather_values ->
       ttest_ind field_values weather_values false = Ok (t_statistic, p_val) ->
       pair_step ttest_ind field_df weather_df alpha station_id measurement out
       = (Ok tt,
          out ++ [not_significant_line station_id measurement p_val alpha]).
Proof.
  intro Hnan.
  assert (H : Analysis.print_ttest_results station_id measurement p_val alpha out
              = (Ok tt, out ++ [not_significant_line station_id measurement
                                  p_val alpha])).
  { unfold Analysis.print_ttest_results. rewrite (nan_leb p_val alpha Hnan).
    reflexivity. }
  split; [exact H|].
  intros ttest_ind field_df weather_df fv wv t Hf Hw Ht.
  unfold pair_step, bind, lift, Analysis.run_ttest.
  rewrite Hf, Hw, Ht. cbn [rbind fst snd]. exact H.
Qed.

(** ** An empty rename mapping *)

Lemma rename_columns_empty {Engine} (s : run (FieldDataProcessor Engine)) :
  columns_to_rename (self s) = [] ->
  Field.rename_columns s = (Raise IndexError, s).
Proof.
  intro H. unfold Field.rename_columns, bind, get_self, lift.
  rewrite H. reflexivity.
Qed.

(** C9, as the code has it.  With an empty [columns_to_rename] the
    processor is built without complaint.  [process] first ingests the SQL
    data; then [rename_columns] raises [IndexError] on the empty mapping.
    The processor is left holding the engine and the raw table, and the
    two ingestion calls have been made; no correction, mapping read or
    merge took place. *)
Theorem empty_mapping_fails_after_ingestion {Engine}
  (src : DataSources Engine) (lib : Builtins) (config_params : Config)
  (dbp sql wmd : string) (vals : list (string * string))
  (e : Engine) (raw : DataFrame) (log : list call) :
  cfg_db_path config_params = Some dbp ->
  cfg_sql_query config_params = Some sql ->
  cfg_columns_to_rename config_params = Some [] ->
  cfg_values_to_rename config_params = Some vals ->
  cfg_weather_mapping_csv config_params = Some wmd ->
  create_db_engine src dbp = Ok e ->
  query_data src e sql = Ok raw ->
  let built := mkFieldDataProcessor dbp sql [] vals wmd None None in
  let stopped := mkFieldDataProcessor dbp sql [] vals wmd (Some raw) (Some e) in
  Field.init config_params = Ok built
  /\ Field.process src (mkRun built log)
     = (Raise IndexError,
        mkRun stopped (log ++ [CreateEngine dbp] ++ [QueryData sql]))
  /\ Script.start_test src lib config_params []
     = (Raise IndexError, [CreateEngine dbp; QueryData sql]).
Proof.
  intros Hdbp Hsql Hctr Hvals Hwmd Hengine Hquery built stopped.
  assert (Hinit : Field.init (Engine:=Engine) config_params = Ok built).
  { unfold Field.init. rewrite Hdbp, Hsql, Hctr, Hvals, Hwmd. reflexivity. }
  assert (Hproc : forall log0,
             Field.process src (mkRun built log0)
             = (Raise IndexError,
                mkRun stopped (log0 ++ [CreateEngine dbp] ++ [QueryData sql]))).
  { intro log0.
    unfold Field.process, Field.ingest_sql_data, bind, get_self, external,
      set_self, ret.
    cbn [self calls db_path sql_query built with_engine with_df].
    rewrite Hengine. cbn [self calls sql_query]. rewrite Hquery.
    rewrite rename_columns_empty by reflexivity.
    rewrite <- app_assoc. reflexivity. }
  split; [exact Hinit | split; [apply Hproc|]].
  unfold Script.start_test, bind, lift, Script.call_method.
  rewrite Hinit, (Hproc []). reflexivity.
Qed.

(** * The sample, run *)

Example sample_field_pipeline :
  Field.process Sample.sources (mkRun Sample.fresh [])
  = (Ok tt,
     mkRun (with_df (with_engine Sample.fresh (Some tt)) (Some Sample.field_df))
           [CreateEngine "sqlite:///Maji_Ndogo_farm_survey_small.db";
            QueryData "SELECT * FROM geographic_features";
            ReadCSV "Weather_data_field_mapping.csv"]).
Proof. vm_compute. reflexivity. Qed.

Example sample_weather_pipeline :
  Weather.process Sample.sources Sample.lib (mkRun Sample.weather_processor [])
  = (Ok tt,
     mkRun (with_weather_df Sample.weather_processor (Some Sample.weather_df))
           [ReadCSV "Weather_station_data.csv"]).
Proof. vm_compute. reflexivity. Qed.

(** Two names side by side change places; the data stays where it is. *)
Example swap_side_by_side :
  Field.rename_columns
    (mkRun (mkFieldDataProcessor (Engine:=unit) "db" "sql"
              [("Annual_yield", "Crop_type")] [] "map"
              (Some (mkDF 1 [("Annual_yield", [VStr "tea"]);
                             ("Crop_type", [VFloat 0.5])]))
              None) [])
  = (Ok tt,
     mkRun (mkFieldDataProcessor (Engine:=unit) "db" "sql"
              [("Annual_yield", "Crop_type")] [] "map"
              (Some (mkDF 1 [("Crop_type", [VStr "tea"]);
                             ("Annual_yield", [VFloat 0.5])]))
              None) []).
Proof. vm_compute. reflexivity. Qed.

(** A table that already has a column named like the placeholder: the
    loop lengthens the name once. *)
Example placeholder_lengthened :
  fresh_name "__temp_name_for_swap__"
    ["Field_ID"; "__temp_name_for_swap__"; "Crop_type"]
  = "__temp_name_for_swap___".
Proof. reflexivity. Qed.

Example correction_table :
  map (Field.correct_value [("wheatn", "wheat")]) [VStr "wheatn"; VStr "maize"]
  = [VStr "wheat"; VStr "maize"].
Proof. reflexivity. Qed.

Example no_match_keeps_row :
  Weather.extract_measurement Sample.lib Sample.weather_processor
    (VStr "Clear skies")
  = Ok (VNone, VNone).
Proof. reflexivity. Qed.

Lemma nan_p_value_not_significant_witness :
  Analysis.print_ttest_results (VInt 4) "Temperature" nan Sample.alpha []
  = (Ok tt, [not_significant_line (VInt 4) "Temperature" nan Sample.alpha]).
Proof.
  exact (proj1 (nan_p_value_not_significant (VInt 4) "Temperature" nan
                  Sample.alpha [] eq_refl)).
Defined.

(** Against C1 as stated: an undefined p-value at station 4 is reported
    with the default verdict. *)
Lemma nan_gets_default_verdict :
  Analysis.print_ttest_results (VInt 4) "Temperature" nan Sample.alpha []
  = (Ok tt,
     [[Lit "   No significant difference in "; Fmt (VStr "Temperature");
       Lit " detected at Station  "; Fmt (VInt 4);
       Lit ", (P-Value: "; Fmt5f nan; Lit " > ";
       Fmt (VFloat Sample.alpha); Lit "). Null hypothesis not rejected."]]).
Proof. reflexivity. Qed.

Lemma empty_mapping_fails_after_ingestion_witness :
  Script.start_test Sample.sources Sample.lib Sample.empty_rename []
  = (Raise IndexError,
     [CreateEngine "sqlite:///Maji_Ndogo_farm_survey_small.db";
      QueryData "SELECT * FROM geographic_features"]).
Proof.
  exact (proj2 (proj2
    (empty_mapping_fails_after_ingestion Sample.sources Sample.lib
       Sample.empty_rename
       "sqlite:///Maji_Ndogo_farm_survey_small.db"
       "SELECT * FROM geographic_features"
       "Weather_data_field_mapping.csv"
       (values_to_rename Sample.fresh) tt Sample.raw_field []
       eq_refl eq_refl eq_refl eq_refl eq_refl eq_refl eq_refl))).
Defined.

(** Against C9 as stated: with an empty mapping the sample run fails only
    after the database was opened and queried. *)
Lemma empty_mapping_ingests_first :
  Script.start_test Sample.sources Sample.lib Sample.empty_rename []
  = (Raise IndexError,
     [CreateEngine "sqlite:///Maji_Ndogo_farm_survey_small.db";
      QueryData "SELECT * FROM geographic_features"])
  /\ ~ fails_at_startup
         (Script.start_test Sample.sources Sample.lib Sample.empty_rename []).
Proof.
  split; [vm_compute; reflexivity|].
  intros (e & H). vm_compute in H. discriminate H.
Qed.

Lemma extract_measurement_first_match_witness :
  Weather.extract_measurement Sample.lib Sample.weather_processor
    (VStr "Pollution at 2.5 ppm")
  = Ok (VStr "Pollution_level", VFloat 2.5).
Proof.
  refine (proj2 (extract_measurement_first_match Sample.lib
                   Sample.weather_processor (VStr "Pollution at 2.5 ppm"))
            [("Rainfall", "(\d+(\.\d+)?)\s?mm");
             ("Temperature", "(\d+(\.\d+)?)\s?C")]
            "Pollution_level"
            "=\s*(-?\d+(\.\d+)?)|Pollution at \s*(-?\d+(\.\d+)?)"
            [] 2%nat "2.5" [Some ".5"] 2.5%float eq_refl _ eq_refl eq_refl).
  repeat constructor.
Defined.

Lemma process_messages_no_rows_witness :
  Weather.process_messages Sample.lib
    (mkRun (with_weather_df Sample.weather_processor (Some Sample.no_rows)) [])
  = (Raise ValueError,
     mkRun (with_weather_df Sample.weather_processor (Some Sample.no_rows)) []).
Proof.
  exact (process_messages_no_rows Sample.lib
           (with_weather_df Sample.weather_processor (Some Sample.no_rows))
           [] Sample.no_rows eq_refl eq_refl).
Defined.

Lemma apply_corrections_cells_witness :
  exists t',
    Field.apply_corrections "Crop_type" "Elevation" (mkRun Sample.renamed [])
    = (Ok tt, mkRun (with_df Sample.renamed (Some t')) [])
    /\ lookup_series "Elevation" (series t')
       = Some [VFloat 786.0625; VFloat 94.5; VFloat 282.25; VFloat 335.5;
               VFloat 12.75]
    /\ lookup_series "Crop_type" (series t')
       = Some [VStr "cassava"; VStr "wheat"; VStr "tea"; VStr "maize";
               VStr "tea"].
Proof.
  destruct (apply_corrections_cells Sample.renamed []
              (rename [("Annual_yield", "Crop_type");
                       ("Crop_type", "Annual_yield")] Sample.raw_field)
              "Crop_type" "Elevation"
              [VFloat 786.0625; VFloat (-94.5); VFloat 282.25; VFloat 335.5;
               VFloat (-12.75)]
              [VStr "cassava"; VStr "wheatn"; VStr "tea"; VStr "maize";
               VStr "teaa"])
    as (t' & ecol' & ccol' & Hrun & _ & _ & He & _ & Hc & _ & _).
  - reflexivity.
  - repeat constructor.
  - repeat constructor; simpl; intuition discriminate.
  - reflexivity.
  - reflexivity.
  - discriminate.
  - split; [repeat constructor | right; left; reflexivity].
  - exists t'. split; [exact Hrun|].
    pose proof Hrun as Hv. vm_compute in Hv.
    injection Hv as Hv. subst t'. split; reflexivity.
Defined.

(** Against C6 as stated: the elevation that is missing is still missing
    after [apply_corrections], and in a column of int64 cells the least
    int64 is still itself; neither is [>= 0]. *)
Lemma elevation_not_nonneg :
  Field.apply_corrections "Crop_type" "Elevation"
    (mkRun (with_df Sample.ingested (Some Sample2.survey_gap)) [])
  = (Ok tt,
     mkRun (with_df Sample.ingested
              (Some (mkDF 2
                       [("Field_ID", [VInt 40734; VInt 30629]);
                        ("Elevation", [VFloat 94.5; VNone]);
                        ("Crop_type", [VStr "cassava"; VStr "wheat"])])))
           [])
  /\ nonneg VNone = false
  /\ Field.apply_corrections "Crop_type" "Elevation"
       (mkRun (with_df Sample.ingested (Some Sample2.survey_least)) [])
     = (Ok tt,
        mkRun (with_df Sample.ingested
                 (Some (mkDF 2
                          [("Field_ID", [VInt 40734; VInt 30629]);
                           ("Elevation", [VInt 94; VInt (- 2 ^ 63)]);
                           ("Crop_type", [VStr "cassava"; VStr "wheat"])])))
              [])
  /\ nonneg (VInt (- 2 ^ 63)) = false.
Proof. repeat split; vm_compute; reflexivity. Qed.


(** The report on the sample.  Station 3, which only the field table
    knows, has no block; the pairs with too few observations have the
    default verdict. *)
Example sample_report :
  Analysis.hypothesis_results Sample.ttest Sample.field_df Sample.weather_df
    ["Pollution_level"; "Temperature"] Sample.alpha []
  = (Ok tt,
     [not_significant_line (VInt 0) "Temperature" nan Sample.alpha;
      not_significant_line (VInt 0) "Rainfall" nan Sample.alpha;
      not_significant_line (VInt 0) "Pollution_level" nan Sample.alpha;
      [];
      not_significant_line (VInt 2) "Temperature" nan Sample.alpha;
      not_significant_line (VInt 2) "Rainfall" nan Sample.alpha;
      significant_line (VInt 2) "Pollution_level" 0.03125 Sample.alpha;
      [];
      not_significant_line (VInt 4) "Temperature" nan Sample.alpha;
      not_significant_line (VInt 4) "Rainfall" nan Sample.alpha;
      not_significant_line (VInt 4) "Pollution_level" nan Sample.alpha;
      []]).
Proof. vm_compute. reflexivity. Qed.

Lemma hypothesis_results_order_witness :
  exists stations rest,
    StronglySorted below stations
    /\ (forall s, In s stations ->
          In s [VInt 4; VInt 2; VInt 4; VInt 0; VInt 2])
    /\ (forall v, In v [VInt 4; VInt 2; VInt 4; VInt 0; VInt 2] ->
          exists s, In s stations /\ key_eq v s = true)
    /\ map tested_pair
         (snd (Analysis.hypothesis_results Sample.ttest Sample.field_df
                 Sample.weather_df ["Pollution_level"; "Temperature"]
                 Sample.alpha []))
       ++ rest
       = report_of stations
    /\ (Ok tt = Ok tt -> rest = []).
Proof.
  refine (proj2 (hypothesis_results_order Sample.ttest Sample.field_df
                   Sample.weather_df Sample.alpha
                   ["Pollution_level"; "Temperature"]
                   [VInt 4; VInt 2; VInt 4; VInt 0; VInt 2] (Ok tt) _
                   eq_refl _ _)).
  - left. repeat constructor.
  - vm_compute. reflexivity.
Defined.

(** Against C2 as stated: a weather row that has lost its station
    identifier puts a NaN among the identifiers, the missing cell of a
    column of floats, and [sorted] leaves it where it is, between station 2
    and station 1: station 2 is reported first, station 1 last. *)
Lemma nan_station_out_of_order :
  fst (Analysis.hypothesis_results Sample.ttest Sample.field_df
         Sample2.weather_gap [] Sample.alpha []) = Ok tt
  /\ map tested_pair
       (snd (Analysis.hypothesis_results Sample.ttest Sample.field_df
               Sample2.weather_gap [] Sample.alpha []))
     = [Some (VFloat 2, "Temperature"); Some (VFloat 2, "Rainfall");
        Some (VFloat 2, "Pollution_level"); None;
        Some (VNone, "Temperature"); Some (VNone, "Rainfall");
        Some (VNone, "Pollution_level"); None;
        Some (VFloat 1, "Temperature"); Some (VFloat 1, "Rainfall");
        Some (VFloat 1, "Pollution_level"); None]
  /\ PrimFloat.ltb 1 2 = true.
Proof. repeat split; vm_compute; reflexivity. Qed.

Lemma report_stations_from_weather_witness :
  In (VFloat 3) [VFloat 4; VFloat 2; VFloat 2; VFloat nan; VFloat 3]
  /\ forall ln s' k,
       In ln (snd (Analysis.hypothesis_results Sample.ttest Sample.field_df
                     Sample.weather_df ["Temperature"] Sample.alpha [])) ->
       tested_pair ln = Some (s', k) ->
       value_eq s' (VFloat 3) = false.
Proof.
  split; [do 4 right; left; reflexivity|].
  refine (proj1 (proj2
    (report_stations_from_weather Sample.ttest Sample.field_df
       Sample.weather_df Sample.alpha ["Temperature"] (Ok tt) _ _))
    (VFloat 3) [VFloat 4; VFloat 2; VFloat 2; VFloat nan; VFloat 3]
    [VInt 4; VInt 2; VInt 4; VInt 0; VInt 2] eq_refl _ eq_refl _).
  - vm_compute. reflexivity.
  - do 4 right. left. reflexivity.
  - repeat constructor.
Defined.

(** * Further properties of the code *)

(** ** FieldDataProcessor: ingestion and the swap *)

(** X1.  [ingest_sql_data]: the engine is made first, then the query is run.
    When the engine cannot be made nothing is queried and the processor is
    as before; when the query fails the processor keeps the new engine and
    its old table; on success the processor holds the engine and the
    queried table, which is also the value returned. *)
Theorem ingest_sql_data_outcomes {Engine} (src : DataSources Engine)
  (p : FieldDataProcessor Engine) (log : list call) :
  (forall e, create_db_engine src (db_path p) = Raise e ->
     Field.ingest_sql_data src (mkRun p log)
     = (Raise e, mkRun p (log ++ [CreateEngine (db_path p)])))
  /\ (forall g e,
        create_db_engine src (db_path p) = Ok g ->
        query_data src g (sql_query p) = Raise e ->
        Field.ingest_sql_data src (mkRun p log)
        = (Raise e,
           mkRun (with_engine p (Some g))
                 ((log ++ [CreateEngine (db_path p)])
                  ++ [QueryData (sql_query p)])))
  /\ (forall g t,
        create_db_engine src (db_path p) = Ok g ->
        query_data src g (sql_query p) = Ok t ->
        Field.ingest_sql_data src (mkRun p log)
        = (Ok (Some t),
           mkRun (with_df (with_engine p (Some g)) (Some t))
                 ((log ++ [CreateEngine (db_path p)])
                  ++ [QueryData (sql_query p)]))).
Proof.
  unfold Field.ingest_sql_data, bind, get_self, external, set_self, ret.
  cbn [self calls]. repeat split.
  - intros e He. rewrite He. reflexivity.
  - intros g e Hg He. rewrite Hg. cbn [self calls with_engine sql_query].
    rewrite He. reflexivity.
  - intros g t Hg Ht. rewrite Hg. cbn [self calls with_engine sql_query].
    rewrite Ht. reflexivity.
Qed.

Lemma ingest_sql_data_outcomes_witness :
  Field.ingest_sql_data Sample.sources (mkRun Sample.fresh [])
  = (Ok (Some Sample.raw_field),
     mkRun Sample.ingested
           (([] ++ [CreateEngine "sqlite:///Maji_Ndogo_farm_survey_small.db"])
            ++ [QueryData "SELECT * FROM geographic_features"])).
Proof.
  exact (proj2 (proj2 (ingest_sql_data_outcomes Sample.sources Sample.fresh []))
           tt Sample.raw_field eq_refl eq_refl).
Defined.

Lemma rename_identity (f : string -> string) (t : DataFrame) :
  (forall n, In n (columns t) -> f n = n) ->
  mkDF (nrows t) (map (fun c => (f (fst c), snd c)) (series t)) = t.
Proof.
  intro H. destruct t as [n cols]. cbn [nrows series]. f_equal.
  rewrite <- (map_id cols) at 2. apply map_ext_in.
  intros [c d] Hin. cbn [fst snd]. f_equal. apply H.
  unfold columns. cbn [series]. apply (in_map fst) in Hin. exact Hin.
Qed.

(** The two renames when the first name is the placeholder itself, label
    by label: every label of the table comes back. *)
Lemma collide_via_temp (b temp n : string) :
  n <> temp ->
  rename_label (dict_of [(temp, b)])
    (rename_label (dict_of [(temp, temp); (b, temp)]) n) = n.
Proof.
  intro Hn. unfold dict_of, rename_label. simpl.
  destruct (String.eqb b temp) eqn:Eb; simpl.
  - rewrite (eqb_neq_false _ _ Hn). simpl. rewrite (eqb_neq_false _ _ Hn).
    reflexivity.
  - rewrite (eqb_neq_false _ _ Hn). simpl.
    destruct (String.eqb n b) eqn:Enb; simpl.
    + rewrite String.eqb_refl. apply String.eqb_eq in Enb. congruence.
    + rewrite (eqb_neq_false _ _ Hn). reflexivity.
Qed.

(** X2.  What [rename_columns] does on every table: the swap of the first pair,
    except when the first name is the very placeholder the loop arrives
    at (so it is no column); there the second rename undoes the first and
    the table comes back unchanged. *)
Theorem rename_columns_always {Engine} (p : FieldDataProcessor Engine)
  (log : list call) (a b : string) (rest : list (string * string))
  (t : DataFrame) :
  columns_to_rename p = (a, b) :: rest ->
  df p = Some t ->
  Field.rename_columns (mkRun p log)
  = (Ok tt,
     mkRun (with_df p
              (Some (if String.eqb a
                          (fresh_name "__temp_name_for_swap__" (columns t))
                     then t else swap_columns a b t)))
           log).
Proof.
  intros Hmap Hdf.
  set (temp := fresh_name "__temp_name_for_swap__" (columns t)).
  assert (Hfree : ~ In temp (columns t)) by apply fresh_name_not_In.
  assert (Hres : rename (dict_of [(temp, b)])
                   (rename (dict_of [(a, temp); (b, a)]) t)
                 = if String.eqb a temp then t else swap_columns a b t).
  { destruct (String.eqb a temp) eqn:E.
    - apply String.eqb_eq in E. rewrite E.
      unfold rename. cbn [nrows series]. rewrite map_map. cbn [fst snd].
      apply (rename_identity
               (fun n => rename_label (dict_of [(temp, b)])
                           (rename_label (dict_of [(temp, temp); (b, temp)]) n))).
      intros n Hn. apply collide_via_temp. intros ->. contradiction.
    - apply String.eqb_neq in E.
      unfold rename, swap_columns. cbn [nrows series]. f_equal.
      rewrite map_map. apply map_ext_in. intros [n d] Hin. cbn [fst snd].
      f_equal. apply swap_via_temp; [|exact E].
      intros ->. apply Hfree. unfold columns.
      apply (in_map fst) in Hin. exact Hin. }
  unfold Field.rename_columns, bind, get_self, lift, set_self.
  cbn [self calls]. rewrite Hmap, Hdf. cbn [first_key first_value the_df].
  fold temp. rewrite Hres. reflexivity.
Qed.

Lemma rename_columns_always_witness :
  Field.rename_columns
    (mkRun (mkFieldDataProcessor (Engine:=unit) "db" "sql"
              [("__temp_name_for_swap__", "Crop_type")] [] "map"
              (Some (mkDF 1 [("Crop_type", [VStr "tea"])])) None) [])
  = (Ok tt,
     mkRun (mkFieldDataProcessor (Engine:=unit) "db" "sql"
              [("__temp_name_for_swap__", "Crop_type")] [] "map"
              (Some (mkDF 1 [("Crop_type", [VStr "tea"])])) None) []).
Proof.
  exact (rename_columns_always
           (mkFieldDataProcessor (Engine:=unit) "db" "sql"
              [("__temp_name_for_swap__", "Crop_type")] [] "map"
              (Some (mkDF 1 [("Crop_type", [VStr "tea"])])) None)
           [] "__temp_name_for_swap__" "Crop_type" []
           (mkDF 1 [("Crop_type", [VStr "tea"])]) eq_refl eq_refl).
Defined.

(** X3.  [rename_columns] without a usable input: an empty mapping raises
    [IndexError], also when no table is loaded; a mapping with no table
    loaded raises [AttributeError].  The run is left as it was. *)
Theorem rename_columns_errors {Engine} (s : run (FieldDataProcessor Engine)) :
  (columns_to_rename (self s) = [] ->
   Field.rename_columns s = (Raise IndexError, s))
  /\ (columns_to_rename (self s) <> [] -> df (self s) = None ->
      Field.rename_columns s = (Raise AttributeError, s)).
Proof.
  unfold Field.rename_columns, bind, get_self, lift. split.
  - intros ->. reflexivity.
  - intros Hne Hdf. destruct (columns_to_rename (self s)) as [|[a b] rest];
      [contradiction|]. cbn [first_key first_value]. rewrite Hdf. reflexivity.
Qed.

Lemma rename_columns_errors_witness :
  Field.rename_columns (mkRun Sample.fresh [])
  = (Raise AttributeError, mkRun Sample.fresh []).
Proof.
  refine (proj2 (rename_columns_errors (mkRun Sample.fresh [])) _ eq_refl).
  discriminate.
Defined.

Lemma swap_label_injective (a b x y : string) :
  swap_label a b x = swap_label a b y -> x = y.
Proof.
  intro H. apply (f_equal (swap_label a b)) in H.
  rewrite !swap_label_involutive in H. exact H.
Qed.

Lemma NoDup_map_injective {A B} (f : A -> B) (l : list A) :
  (forall x y, f x = f y -> x = y) -> NoDup l -> NoDup (map f l).
Proof.
  intros Hinj. induction 1 as [|x l Hx _ IH]; simpl; constructor; [|exact IH].
  intro Hin. apply in_map_iff in Hin. destruct Hin as (y & E & Hy).
  apply Hinj in E. subst y. contradiction.
Qed.

(** X4.  [rename_columns] keeps the shape of every table it is given: the
    index, the data of every column in its position, one cell per index
    entry, and labels that were distinct stay distinct. *)
Theorem rename_columns_keeps_shape {Engine} (p : FieldDataProcessor Engine)
  (log : list call) (t : DataFrame) :
  columns_to_rename p <> [] ->
  df p = Some t ->
  exists t',
    Field.rename_columns (mkRun p log)
    = (Ok tt, mkRun (with_df p (Some t')) log)
    /\ nrows t' = nrows t
    /\ map snd (series t') = map snd (series t)
    /\ (wf_df t -> wf_df t')
    /\ (NoDup (columns t) -> NoDup (columns t')).
Proof.
  intros Hne Hdf.
  destruct (columns_to_rename p) as [|[a b] rest] eqn:Hmap; [contradiction|].
  set (temp := fresh_name "__temp_name_for_swap__" (columns t)).
  set (f := fun n => rename_label (dict_of [(temp, b)])
                       (rename_label (dict_of [(a, temp); (b, a)]) n)).
  set (t' := mkDF (nrows t) (map (fun c => (f (fst c), snd c)) (series t))).
  assert (Hfree : ~ In temp (columns t)) by apply fresh_name_not_In.
  assert (Hlabels : forall n, In n (columns t) ->
             f n = if String.eqb a temp then n else swap_label a b n).
  { intros n Hn. unfold f. destruct (String.eqb a temp) eqn:E.
    - apply String.eqb_eq in E. rewrite E. apply collide_via_temp.
      intros ->. contradiction.
    - apply String.eqb_neq in E. apply swap_via_temp; [|exact E].
      intros ->. contradiction. }
  exists t'. split; [|split; [|split; [|split]]].
  - unfold Field.rename_columns, bind, get_self, lift, set_self.
    cbn [self calls]. rewrite Hmap, Hdf. cbn [first_key first_value the_df].
    fold temp. unfold rename. cbn [nrows series]. rewrite map_map.
    reflexivity.
  - reflexivity.
  - unfold t'. cbn [series]. rewrite map_map. reflexivity.
  - unfold wf_df, t'. cbn [nrows series]. intro Hwf.
    rewrite Forall_map. exact Hwf.
  - intro Hnd. unfold columns, t'. cbn [series]. rewrite map_map. cbn [fst].
    rewrite (map_ext_in (fun c => f (fst c))
               (fun c => (if String.eqb a temp then fst c
                          else swap_label a b (fst c)))).
    + destruct (String.eqb a temp).
      * exact Hnd.
      * rewrite <- (map_map fst (swap_label a b)).
        apply NoDup_map_injective;
          [apply swap_label_injective | exact Hnd].
    + intros c Hc. apply Hlabels. unfold columns. apply in_map. exact Hc.
Qed.

Lemma rename_columns_keeps_shape_witness :
  exists t',
    Field.rename_columns (mkRun Sample.ingested [])
    = (Ok tt, mkRun (with_df Sample.ingested (Some t')) [])
    /\ nrows t' = 5%nat
    /\ wf_df t'
    /\ NoDup (columns t').
Proof.
  destruct (rename_columns_keeps_shape Sample.ingested [] Sample.raw_field)
    as (t' & Hrun & Hn & _ & Hwf & Hnd).
  - discriminate.
  - reflexivity.
  - exists t'. split; [exact Hrun | split; [exact Hn | split]].
    + apply Hwf. repeat constructor.
    + apply Hnd. repeat constructor; simpl; intuition discriminate.
Defined.

(** ** FieldDataProcessor: the corrections *)

Lemma lookup_series_none_mem c l :
  lookup_series c l = None -> mem c (map fst l) = false.
Proof.
  induction l as [|[n col] l IH]; simpl; [reflexivity|].
  destruct (String.eqb c n); [discriminate | exact IH].
Qed.

Lemma mapM_abs_text dt col s :
  In (VStr s) col -> mapM (abs_value dt) col = Raise TypeError.
Proof.
  induction col as [|w col IH]; intro Hin; [destruct Hin|]. simpl.
  destruct (abs_value dt w) as [w'|e] eqn:Ew.
  - destruct Hin as [-> | Hin]; [discriminate Ew|].
    simpl. rewrite (IH Hin). reflexivity.
  - destruct w; simpl in Ew; try discriminate.
    + injection Ew as <-. reflexivity.
    + destruct dt; try discriminate; injection Ew as <-; reflexivity.
Qed.

Lemma series_abs_type_error col s :
  In (VStr s) col -> series_abs col = Raise TypeError.
Proof. intro H. apply (mapM_abs_text _ col s H). Qed.

(** X5.  How [apply_corrections] fails.  Without the numeric column it raises
    [KeyError] and changes nothing; with a text cell there it raises
    [TypeError] and changes nothing; but without the categorical column it
    raises [KeyError] only after the numeric column has been overwritten
    with its absolute values. *)
Theorem apply_corrections_errors {Engine} (p : FieldDataProcessor Engine)
  (log : list call) (t : DataFrame) (column_name abs_column : string) :
  df p = Some t ->
  (lookup_series abs_column (series t) = None ->
   Field.apply_corrections column_name abs_column (mkRun p log)
   = (Raise (KeyError abs_column), mkRun p log))
  /\ (forall ecol s,
        lookup_series abs_column (series t) = Some ecol ->
        In (VStr s) ecol ->
        Field.apply_corrections column_name abs_column (mkRun p log)
        = (Raise TypeError, mkRun p log))
  /\ (forall ecol ecol',
        wf_df t ->
        lookup_series abs_column (series t) = Some ecol ->
        series_abs ecol = Ok ecol' ->
        lookup_series column_name (series t) = None ->
        Field.apply_corrections column_name abs_column (mkRun p log)
        = (Raise (KeyError column_name),
           mkRun (with_df p
                    (Some (mkDF (nrows t)
                             (replace_series abs_column ecol' (series t)))))
                 log)).
Proof.
  intro Hdf.
  unfold Field.apply_corrections, bind, get_self, lift, set_self.
  cbn [self calls]. rewrite Hdf. cbn [subscript_df]. repeat split.
  - intro H. unfold getitem. rewrite H. reflexivity.
  - intros ecol s He Hin. rewrite (getitem_ok t abs_column ecol He).
    rewrite (series_abs_type_error ecol s Hin). reflexivity.
  - intros ecol ecol' Hwf He Habs Hc.
    rewrite (getitem_ok t abs_column ecol He), Habs.
    rewrite (setitem_existing t abs_column ecol').
    + unfold getitem. cbn [series].
      rewrite lookup_replace_other.
      * rewrite Hc. reflexivity.
      * intros ->. congruence.
    + rewrite (mapM_length _ _ _ Habs). apply (wf_lookup t abs_column); auto.
    + apply (lookup_series_mem _ _ _ He).
Qed.

Lemma apply_corrections_errors_witness :
  Field.apply_corrections "Crop_type" "Elevation"
    (mkRun (mkFieldDataProcessor (Engine:=unit) "db" "sql" [] [] "map"
              (Some (mkDF 2 [("Elevation", [VFloat (-1.5); VFloat 2])]))
              None) [])
  = (Raise (KeyError "Crop_type"),
     mkRun (mkFieldDataProcessor (Engine:=unit) "db" "sql" [] [] "map"
              (Some (mkDF 2 [("Elevation", [VFloat 1.5; VFloat 2])]))
              None) []).
Proof.
  refine (proj2 (proj2
    (apply_corrections_errors
       (mkFieldDataProcessor (Engine:=unit) "db" "sql" [] [] "map"
          (Some (mkDF 2 [("Elevation", [VFloat (-1.5); VFloat 2])])) None)
       [] (mkDF 2 [("Elevation", [VFloat (-1.5); VFloat 2])])
       "Crop_type" "Elevation" eq_refl))
    [VFloat (-1.5); VFloat 2] [VFloat 1.5; VFloat 2] _ eq_refl eq_refl eq_refl).
  repeat constructor.
Defined.

Lemma replace_series_same c v l :
  lookup_series c l = Some v -> replace_series c v l = l.
Proof.
  induction l as [|[n col] l IH]; simpl; [reflexivity|].
  destruct (String.eqb c n).
  - intros [= ->]. reflexivity.
  - intro H. rewrite (IH H). reflexivity.
Qed.

Lemma float_abs_abs (f : float) :
  PrimFloat.abs (PrimFloat.abs f) = PrimFloat.abs f.
Proof.
  apply Prim2SF_inj. rewrite !abs_spec.
  destruct (Prim2SF f); reflexivity.
Qed.

Lemma wrap64_abs_again (z : Z) :
  (- 2 ^ 63 <= z < 2 ^ 63)%Z ->
  wrap64 (Z.abs (wrap64 (Z.abs z))) = wrap64 (Z.abs z).
Proof.
  intro H.
  assert (Hcases : (z = - 2 ^ 63 \/ - 2 ^ 63 < z)%Z) by lia.
  destruct Hcases as [-> | Hz]; [reflexivity|].
  rewrite (wrap64_small (Z.abs z)) by lia.
  rewrite Z.abs_idemp. apply wrap64_small. lia.
Qed.

Lemma abs_value_again dt v v' :
  in_int64 v -> abs_value dt v = Ok v' -> abs_value dt v' = Ok v'.
Proof.
  destruct v as [z | f | s | ]; try discriminate.
  - intros Hz [= <-]. cbn [abs_value in_int64] in *.
    destruct dt; [rewrite (wrap64_abs_again z Hz) | |];
      try rewrite Z.abs_idemp; reflexivity.
  - intros _ [= <-]. cbn [abs_value]. rewrite float_abs_abs. reflexivity.
  - intros _. destruct dt; try discriminate. intros [= <-]. reflexivity.
Qed.

Lemma abs_value_numeric dt v v' :
  abs_value dt v = Ok v' -> is_numeric v = true -> is_numeric v' = true.
Proof. destruct v; simpl; try discriminate; intros [= <-]; reflexivity. Qed.

Lemma has_float col :
  Forall (fun v => is_numeric v = true) col -> Forall in_int64 col ->
  forallb is_int64 col = false -> exists f, In (VFloat f) col.
Proof.
  induction 1 as [|v col Hv _ IH]; intros Hr E; [discriminate|].
  inversion Hr as [|? ? Hz Hr']; subst. cbn [forallb] in E.
  destruct v as [z | f | s | ]; try discriminate Hv.
  - cbn [is_int64 in_int64] in *.
    replace ((- 2 ^ 63 <=? z)%Z && (z <? 2 ^ 63)%Z) with true in E.
    + destruct (IH Hr' E) as (f & Hf). exists f. right. exact Hf.
    + symmetry. apply andb_true_intro.
      split; [apply Z.leb_le | apply Z.ltb_lt]; lia.
  - exists f. left. reflexivity.
Qed.

Lemma abs_column_numeric dt l l' :
  Forall2 (fun a b => abs_value dt a = Ok b) l l' ->
  Forall (fun v => is_numeric v = true) l ->
  Forall (fun v => is_numeric v = true) l'.
Proof.
  induction 1 as [|v v' l l' Hv _ IH]; intro Hnum; [constructor|].
  inversion Hnum; subst. constructor; [|apply IH; assumption].
  apply (abs_value_numeric dt v v'); assumption.
Qed.

Lemma abs_column_int64 l l' :
  Forall2 (fun a b => abs_value Int64 a = Ok b) l l' ->
  forallb is_int64 l = true -> forallb is_int64 l' = true.
Proof.
  induction 1 as [|a b l l' Hab _ IH]; intro E; [reflexivity|].
  cbn [forallb] in *. apply andb_prop in E. destruct E as [Ea E].
  rewrite (IH E), andb_true_r.
  destruct a as [z | f | s | ]; try discriminate Ea.
  cbn [abs_value] in Hab. injection Hab as <-.
  cbn [is_int64] in *. apply andb_prop in Ea. destruct Ea as [E1 E2].
  apply Z.leb_le in E1. apply Z.ltb_lt in E2.
  assert (Hc : (z = - 2 ^ 63 \/ - 2 ^ 63 < z)%Z) by lia.
  destruct Hc as [-> | Hc]; [reflexivity|].
  rewrite wrap64_small by lia.
  apply andb_true_intro. split; [apply Z.leb_le | apply Z.ltb_lt]; lia.
Qed.

Lemma abs_column_float dt l l' f :
  Forall2 (fun a b => abs_value dt a = Ok b) l l' ->
  In (VFloat f) l -> In (VFloat (PrimFloat.abs f)) l'.
Proof.
  induction 1 as [|a b l l' Hab _ IH]; intro Hf; [destruct Hf|].
  destruct Hf as [-> | Hf]; [|right; apply IH; exact Hf].
  cbn [abs_value] in Hab. injection Hab as <-. left. reflexivity.
Qed.

(** The type of a column of numbers is that of its [abs]. *)
Lemma series_abs_dtype col col' :
  Forall (fun v => is_numeric v = true) col -> Forall in_int64 col ->
  series_abs col = Ok col' -> dtype_of col' = dtype_of col.
Proof.
  intros Hnum Hr H. unfold series_abs in H. apply mapM_Forall2 in H.
  pose proof (abs_column_numeric _ _ _ H Hnum) as Hnum'.
  rewrite (dtype_of_numbers col' Hnum').
  rewrite (dtype_of_numbers col Hnum) in H |- *.
  destruct col as [|v l], col' as [|v' l']; try (inversion H; fail);
    [reflexivity|].
  destruct (forallb is_int64 (v :: l)) eqn:E.
  - rewrite (abs_column_int64 _ _ H E). reflexivity.
  - destruct (has_float (v :: l) Hnum Hr E) as (f & Hf).
    pose proof (abs_column_float _ _ _ f H Hf) as Hf'.
    destruct (forallb is_int64 (v' :: l')) eqn:E'; [|reflexivity].
    rewrite forallb_forall in E'. specialize (E' _ Hf'). discriminate E'.
Qed.

Lemma series_abs_again col col' :
  Forall (fun v => is_numeric v = true) col -> Forall in_int64 col ->
  series_abs col = Ok col' -> series_abs col' = Ok col'.
Proof.
  intros Hnum Hin H. unfold series_abs.
  rewrite (series_abs_dtype col col' Hnum Hin H).
  unfold series_abs in H. revert H. generalize (dtype_of col). intros dt H.
  apply mapM_Forall2 in H. apply mapM_Forall2.
  clear Hnum.
  induction H as [|v v' col col' Hv _ IH]; [constructor|].
  inversion Hin; subst.
  constructor; [|apply IH; assumption].
  apply (abs_value_again _ v v'); assumption.
Qed.

Lemma correct_value_again values v :
  settled values ->
  Field.correct_value values (Field.correct_value values v)
  = Field.correct_value values v.
Proof.
  intro Hs. destruct v as [z | f | s | ]; try reflexivity. simpl.
  destruct (dict_get values s) as [s'|] eqn:E; simpl.
  - destruct (Hs s s' E) as [H | H]; rewrite H; reflexivity.
  - rewrite E. reflexivity.
Qed.

(** X6.  [apply_corrections] on a table it accepts, with a correction table
    whose corrected names need no correction: a second call changes
    nothing. *)
Theorem apply_corrections_idempotent {Engine} (p : FieldDataProcessor Engine)
  (log : list call) (t : DataFrame) (column_name abs_column : string)
  (ecol ccol : list value) :
  df p = Some t ->
  wf_df t ->
  lookup_series abs_column (series t) = Some ecol ->
  lookup_series column_name (series t) = Some ccol ->
  abs_column <> column_name ->
  Forall (fun v => is_numeric v = true) ecol ->
  Forall in_int64 ecol ->
  settled (values_to_rename p) ->
  exists s1,
    Field.apply_corrections column_name abs_column (mkRun p log) = (Ok tt, s1)
    /\ Field.apply_corrections column_name abs_column s1 = (Ok tt, s1).
Proof.
  intros Hdf Hwf He Hc Hne Hnum Hrange Hsettled.
  destruct (mapM_total (abs_value (dtype_of ecol)) ecol) as (ecol' & Habs).
  { eapply Forall_impl; [|exact Hnum]. intros v Hv.
    apply abs_value_total. exact Hv. }
  set (fixed := map (Field.correct_value (values_to_rename p)) ccol).
  set (t1 := mkDF (nrows t) (replace_series abs_column ecol' (series t))).
  set (t2 := mkDF (nrows t) (replace_series column_name fixed (series t1))).
  assert (Hlen_e : List.length ecol' = nrows t).
  { rewrite (mapM_length _ _ _ Habs). apply (wf_lookup t abs_column); auto. }
  assert (Hlen_c : List.length fixed = nrows t).
  { unfold fixed. rewrite length_map. apply (wf_lookup t column_name); auto. }
  assert (Hc1 : lookup_series column_name (series t1) = Some ccol).
  { unfold t1. cbn [series]. rewrite lookup_replace_other by exact Hne.
    exact Hc. }
  assert (He2 : lookup_series abs_column (series t2) = Some ecol').
  { unfold t2, t1. cbn [series]. rewrite lookup_replace_other by congruence.
    apply lookup_replace_same. apply (lookup_series_mem _ _ _ He). }
  assert (Hc2 : lookup_series column_name (series t2) = Some fixed).
  { unfold t2. cbn [series]. apply lookup_replace_same.
    apply (lookup_series_mem _ _ _ Hc1). }
  exists (mkRun (with_df p (Some t2)) log). split.
  - unfold Field.apply_corrections, bind, get_self, lift, set_self, series_abs.
    cbn [self calls]. rewrite Hdf. cbn [subscript_df].
    rewrite (getitem_ok t abs_column ecol He), Habs.
    rewrite (setitem_existing t abs_column ecol' Hlen_e)
      by (apply (lookup_series_mem _ _ _ He)).
    fold t1. rewrite (getitem_ok t1 column_name ccol Hc1).
    cbn [values_to_rename with_df]. fold fixed.
    rewrite (setitem_existing t1 column_name fixed)
      by (try exact Hlen_c; apply (lookup_series_mem _ _ _ Hc1)).
    reflexivity.
  - unfold Field.apply_corrections, bind, get_self, lift, set_self.
    cbn [self calls df with_df subscript_df].
    rewrite (getitem_ok t2 abs_column ecol' He2).
    rewrite (series_abs_again ecol ecol' Hnum Hrange Habs).
    rewrite (setitem_existing t2 abs_column ecol' Hlen_e)
      by (apply (lookup_series_mem _ _ _ He2)).
    rewrite (replace_series_same abs_column ecol' (series t2) He2).
    change (mkDF (nrows t2) (series t2)) with t2.
    rewrite (getitem_ok t2 column_name fixed Hc2).
    cbn [values_to_rename with_df].
    replace (map (Field.correct_value (values_to_rename p)) fixed) with fixed.
    + rewrite (setitem_existing t2 column_name fixed Hlen_c)
        by (apply (lookup_series_mem _ _ _ Hc2)).
      rewrite (replace_series_same column_name fixed (series t2) Hc2).
      reflexivity.
    + unfold fixed. rewrite map_map. apply map_ext.
      intro v. symmetry. apply correct_value_again. exact Hsettled.
Qed.

Lemma sample_values_settled : settled (values_to_rename Sample.fresh).
Proof.
  intros k v H. simpl in H.
  repeat match type of H with
         | (if ?c then _ else _) = _ => destruct c
         end;
    try discriminate; injection H as <-; left; reflexivity.
Qed.

Lemma apply_corrections_idempotent_witness :
  exists s1,
    Field.apply_corrections "Crop_type" "Elevation" (mkRun Sample.renamed [])
    = (Ok tt, s1)
    /\ Field.apply_corrections "Crop_type" "Elevation" s1 = (Ok tt, s1).
Proof.
  refine (apply_corrections_idempotent Sample.renamed []
            (rename [("Annual_yield", "Crop_type");
                     ("Crop_type", "Annual_yield")] Sample.raw_field)
            "Crop_type" "Elevation"
            [VFloat 786.0625; VFloat (-94.5); VFloat 282.25; VFloat 335.5;
             VFloat (-12.75)]
            [VStr "cassava"; VStr "wheatn"; VStr "tea"; VStr "maize";
             VStr "teaa"]
            eq_refl _ eq_refl eq_refl _ _ _ sample_values_settled).
  - repeat constructor.
  - discriminate.
  - repeat constructor.
  - repeat constructor.
Defined.

(** ** FieldDataProcessor: the fusion *)





Lemma merge_left_columns (l r merged : DataFrame) (key : string) :
  merge_left l r key = Ok merged ->
  (forall n, In n (columns l) -> In n (columns r) -> n = key) ->
  columns merged
  = columns l ++ map fst (filter (not_label key) (series r)).
Proof.
  unfold merge_left. intros H Hshared.
  destruct (getitem r key) as [rk|]; [|discriminate].
  destruct (getitem l key) as [lk|]; [|discriminate].
  cbn [rbind] in H. destruct (mergeable lk rk); [|discriminate].
  cbn [rbind] in H. injection H as <-.
  unfold columns at 1. cbn [series]. rewrite map_app, !map_map. cbn [fst].
  f_equal.
  - apply map_ext_in. intros [n col] Hin. cbn [fst].
    destruct (String.eqb n key) eqn:E; cbn [negb andb]; [reflexivity|].
    destruct (mem n (columns l) && mem n (columns r)) eqn:E2; [|reflexivity].
    apply andb_prop in E2. destruct E2 as [E2 E3].
    apply mem_In in E2, E3. apply String.eqb_neq in E.
    exfalso. apply E. apply Hshared; assumption.
  - apply map_ext_in. intros [n col] Hin.
    apply filter_In in Hin. destruct Hin as [Hin Hkey].
    unfold not_label in Hkey. cbn [fst] in *. rewrite Hkey. cbn [andb].
    destruct (mem n (columns l) && mem n (columns r)) eqn:E2; [|reflexivity].
    apply andb_prop in E2. destruct E2 as [E2 E3].
    apply mem_In in E2, E3.
    rewrite (Hshared n E2 E3), String.eqb_refl in Hkey. discriminate.
Qed.

(** X8.  [process] needs the index column of the mapping file.  When neither
    table has a column [Unnamed: 0] and the merge goes through, the merged
    table is stored, and then the drop raises [KeyError] with the message
    that the label is not found in the axis: the processor is left holding
    the merged table. *)
Theorem process_needs_artifact {Engine} (src : DataSources Engine)
  (s0 s1 s2 s3 : run (FieldDataProcessor Engine)) (o : option DataFrame)
  (c m merged : DataFrame) :
  Field.ingest_sql_data src s0 = (Ok o, s1) ->
  Field.rename_columns s1 = (Ok tt, s2) ->
  Field.apply_corrections "Crop_type" "Elevation" s2 = (Ok tt, s3) ->
  df (self s3) = Some c ->
  read_from_web_CSV src (weather_map_data (self s3)) = Ok m ->
  merge_left c m "Field_ID" = Ok merged ->
  (forall n, In n (columns c) -> In n (columns m) -> n = "Field_ID") ->
  ~ In "Unnamed: 0" (columns c) ->
  ~ In "Unnamed: 0" (columns m) ->
  Field.process src s0
  = (Raise (KeyError "['Unnamed: 0'] not found in axis"),
     mkRun (with_df (self s3) (Some merged))
           (calls s3 ++ [ReadCSV (weather_map_data (self s3))])).
Proof.
  intros Hing Hren Happ Hdf Hread Hmerge Hshared Hc Hm.
  assert (Hmem : mem "Unnamed: 0" (columns merged) = false).
  { destruct (mem "Unnamed: 0" (columns merged)) eqn:E; [|reflexivity].
    apply mem_In in E.
    rewrite (merge_left_columns c m merged "Field_ID" Hmerge Hshared) in E.
    apply in_app_iff in E. destruct E as [E | E]; [contradiction|].
    exfalso. apply Hm. unfold columns.
    apply in_map_iff in E. destruct E as (col & <- & Hin).
    apply filter_In in Hin. apply in_map. apply Hin. }
  unfold Field.process, bind. rewrite Hing, Hren, Happ.
  unfold Field.weather_station_mapping, bind, get_self, external, lift,
    set_self. cbn [self calls].
  rewrite Hread, Hdf. cbn [the_df]. rewrite Hmerge.
  unfold drop. rewrite Hmem. reflexivity.
Qed.

Lemma process_needs_artifact_witness :
  fst (Field.process (Sample2.sources_with Sample2.weather_map_bare)
         (mkRun Sample.fresh []))
  = Raise (KeyError "['Unnamed: 0'] not found in axis").
Proof.
  refine (f_equal fst
    (process_needs_artifact (Sample2.sources_with Sample2.weather_map_bare)
       (mkRun Sample.fresh [])
       (mkRun Sample.ingested
          [CreateEngine "sqlite:///Maji_Ndogo_farm_survey_small.db";
           QueryData "SELECT * FROM geographic_features"])
       (mkRun Sample.renamed
          [CreateEngine "sqlite:///Maji_Ndogo_farm_survey_small.db";
           QueryData "SELECT * FROM geographic_features"])
       (mkRun (with_df Sample.renamed (Some Sample.cleaned))
          [CreateEngine "sqlite:///Maji_Ndogo_farm_survey_small.db";
           QueryData "SELECT * FROM geographic_features"])
       (Some Sample.raw_field) Sample.cleaned Sample2.weather_map_bare
       (match merge_left Sample.cleaned Sample2.weather_map_bare "Field_ID" with
        | Ok t => t
        | Raise _ => Sample.cleaned
        end)
       _ _ _ eq_refl eq_refl _ _ _ _)).
  - vm_compute. reflexivity.
  - vm_compute. reflexivity.
  - vm_compute. reflexivity.
  - vm_compute. reflexivity.
  - simpl. intros n H1 H2.
    repeat (destruct H1 as [<- | H1]; [simpl in H2; intuition discriminate|]).
    destruct H1.
  - simpl. intuition discriminate.
  - simpl. intuition discriminate.
Defined.

(** ** WeatherDataProcessor *)

Lemma next_not_none_In groups x :
  next_not_none groups = Ok x -> In (Some x) groups.
Proof.
  induction groups as [|[g|] groups IH]; simpl; try discriminate.
  - intros [= ->]. left. reflexivity.
  - intro H. right. apply IH. exact H.
Qed.

Lemma next_not_none_all_none groups :
  Forall (fun g => g = None) groups -> next_not_none groups = Raise StopIteration.
Proof.
  induction 1 as [|g groups Hg _ IH]; simpl; [reflexivity|].
  rewrite Hg. exact IH.
Qed.

Section MoreParsing.
Variable lib : Builtins.

(** X11.  Whatever [extract_measurement] returns is one of two things: no kind
    and no value, every pattern having found nothing; or a kind that is a
    key of the pattern mapping together with the float of a group its
    pattern captured.  Kind and value are never present one without the
    other. *)
Theorem extract_measurement_result (p : WeatherDataProcessor)
  (message : value) (kind val : value) :
  Weather.extract_measurement lib p message = Ok (kind, val) ->
  (kind = VNone /\ val = VNone
   /\ Forall (fun kp => re_search lib (snd kp) message = Ok None) (patterns p))
  \/ (exists key pattern groups x f,
         In (key, pattern) (patterns p)
         /\ re_search lib pattern message = Ok (Some groups)
         /\ In (Some x) groups
         /\ py_float lib x = Ok f
         /\ kind = VStr key /\ val = VFloat f).
Proof.
  unfold Weather.extract_measurement.
  induction (patterns p) as [|[key pattern] items IH]; simpl.
  - intros [= <- <-]. left. repeat split. constructor.
  - destruct (re_search lib pattern message) as [[groups|]|e] eqn:Em;
      simpl; [| |discriminate].
    + destruct (next_not_none groups) as [x|] eqn:Ex; simpl; [|discriminate].
      destruct (py_float lib x) as [f|] eqn:Ef; simpl; [|discriminate].
      intros [= <- <-]. right. exists key, pattern, groups, x, f.
      repeat split; auto. apply next_not_none_In. exact Ex.
    + intro H. destruct (IH H) as [(-> & -> & Hall) | Hm].
      * left. repeat split. constructor; [exact Em | exact Hall].
      * right. destruct Hm as (k & pt & g & x & f & Hin & Hrest).
        exists k, pt, g, x, f. split; [right; exact Hin | exact Hrest].
Qed.

(** X12.  How [extract_measurement] fails: the first pattern that matches
    decides here too.  If it captured nothing the call raises
    [StopIteration]; if [float] rejects its first captured text the call
    raises what [float] raised; the patterns after it are not tried. *)
Theorem extract_measurement_failures (p : WeatherDataProcessor)
  (message : value) (before after : list (string * string))
  (key pattern : string) (groups : list (option string)) :
  patterns p = before ++ (key, pattern) :: after ->
  Forall (fun kp => re_search lib (snd kp) message = Ok None) before ->
  re_search lib pattern message = Ok (Some groups) ->
  (Forall (fun g => g = None) groups ->
   Weather.extract_measurement lib p message = Raise StopIteration)
  /\ (forall x e,
        next_not_none groups = Ok x -> py_float lib x = Raise e ->
        Weather.extract_measurement lib p message = Raise e).
Proof.
  intros Hp Hbefore Hmatch. unfold Weather.extract_measurement.
  rewrite Hp, (extract_from_skip lib _ _ message Hbefore). simpl.
  rewrite Hmatch. simpl. split.
  - intro Hnone. rewrite (next_not_none_all_none groups Hnone). reflexivity.
  - intros x e Hx He. rewrite Hx. simpl. rewrite He. reflexivity.
Qed.

Lemma setitem_length t c vals t' :
  setitem t c vals = Ok t' -> List.length vals = nrows t.
Proof.
  unfold setitem.
  destruct (List.length vals =? nrows t)%nat eqn:E; [|discriminate].
  intros _. apply Nat.eqb_eq. exact E.
Qed.

(** X14.  [process_messages] never leaves a table half done: whenever it raises,
    the processor is exactly as it was, without either derived column set;
    and with no table loaded it returns [None] and does nothing. *)
Theorem process_messages_all_or_nothing (s : run WeatherDataProcessor) :
  (forall e s', Weather.process_messages lib s = (Raise e, s') -> s' = s)
  /\ (weather_df (self s) = None ->
      Weather.process_messages lib s = (Ok None, s)).
Proof.
  unfold Weather.process_messages, bind, get_self, lift, set_self, ret.
  split.
  - intros e s'. destruct (weather_df (self s)) as [t|]; [|discriminate].
    destruct (getitem t "Message") as [msgs|]; [|intros [= _ <-]; reflexivity].
    destruct (mapM (Weather.extract_measurement lib (self s)) msgs)
      as [result|]; [|intros [= _ <-]; reflexivity].
    destruct (unzip2 result) as [cols|] eqn:Ez;
      [|intros [= _ <-]; reflexivity].
    destruct (setitem t "Measurement" (fst cols)) as [t1|] eqn:E1;
      [|intros [= _ <-]; reflexivity].
    cbn [self calls].
    destruct (setitem t1 "Value" (snd cols)) as [t2|] eqn:E2;
      [discriminate|].
    exfalso.
    pose proof (setitem_length _ _ _ _ E1) as Hlen.
    destruct (setitem_spec _ _ _ _ E1) as (Hn1 & _).
    assert (Hsame : List.length (snd cols) = List.length (fst cols)).
    { destruct result; simpl in Ez; [discriminate|]. injection Ez as <-.
      simpl. rewrite !length_map. reflexivity. }
    unfold setitem in E2. rewrite Hsame, Hlen, Hn1, Nat.eqb_refl in E2.
    cbn [negb] in E2. destruct (mem "Value" (columns t1)); discriminate.
  - intros ->. reflexivity.
Qed.

Lemma setitem_same t c vals t' :
  setitem t c vals = Ok t' ->
  lookup_series c (series t) = Some vals ->
  t' = t.
Proof.
  unfold setitem. intros H Hl.
  destruct (negb (List.length vals =? nrows t)%nat); [discriminate|].
  unfold columns in H. rewrite (lookup_series_mem _ _ _ Hl) in H.
  injection H as <-. rewrite (replace_series_same c vals _ Hl).
  destruct t; reflexivity.
Qed.

(** X15.  Running [process_messages] again changes nothing: the second run reads
    the same messages, computes the same cells and overwrites the two
    derived columns with what they hold. *)
Theorem process_messages_idempotent (s s1 : run WeatherDataProcessor)
  (r : option DataFrame) :
  Weather.process_messages lib s = (Ok r, s1) ->
  Weather.process_messages lib s1 = (Ok r, s1).
Proof.
  unfold Weather.process_messages, bind, get_self, lift, set_self, ret.
  destruct s as [p log]. cbn [self calls].
  destruct (weather_df p) as [t|] eqn:Hdf.
  - destruct (getitem t "Message") as [msgs|] eqn:Hmsg; [|discriminate].
    destruct (mapM (Weather.extract_measurement lib p) msgs)
      as [result|] eqn:Hres; [|discriminate].
    destruct (unzip2 result) as [cols|] eqn:Ez; [|discriminate].
    destruct (setitem t "Measurement" (fst cols)) as [t1|] eqn:E1;
      [|discriminate].
    cbn [self calls].
    destruct (setitem t1 "Value" (snd cols)) as [t2|] eqn:E2;
      [|discriminate].
    intros [= <- <-]. cbn [self calls weather_df with_weather_df].
    destruct (setitem_spec _ _ _ _ E1) as (Hn1 & Hm1 & Ho1).
    destruct (setitem_spec _ _ _ _ E2) as (Hn2 & Hm2 & Ho2).
    assert (Hmsg2 : getitem t2 "Message" = Ok msgs).
    { unfold getitem in *. rewrite Ho2 by discriminate.
      rewrite Ho1 by discriminate. exact Hmsg. }
    rewrite Hmsg2.
    match goal with
    | |- context [mapM (Weather.extract_measurement lib ?q) msgs] =>
        change (Weather.extract_measurement lib q)
          with (Weather.extract_measurement lib p)
    end.
    rewrite Hres, Ez.
    assert (Hkeep : setitem t2 "Measurement" (fst cols) = Ok t2).
    { assert (Hl : lookup_series "Measurement" (series t2) = Some (fst cols)).
      { rewrite Ho2 by discriminate. exact Hm1. }
      destruct (setitem t2 "Measurement" (fst cols)) as [t3|] eqn:E3.
      - rewrite (setitem_same _ _ _ _ E3 Hl). reflexivity.
      - unfold setitem in E3.
        rewrite (setitem_length _ _ _ _ E1), Hn2, Hn1, Nat.eqb_refl in E3.
        cbn [negb] in E3.
        destruct (mem "Measurement" (columns t2)); discriminate. }
    rewrite Hkeep. cbn [self calls weather_station_data patterns].
    assert (Hkeep2 : setitem t2 "Value" (snd cols) = Ok t2).
    { destruct (setitem t2 "Value" (snd cols)) as [t3|] eqn:E3.
      - rewrite (setitem_same _ _ _ _ E3 Hm2). reflexivity.
      - unfold setitem in E3.
        rewrite (setitem_length _ _ _ _ E2), Hn2, Nat.eqb_refl in E3.
        cbn [negb] in E3.
        destruct (mem "Value" (columns t2)); discriminate. }
    rewrite Hkeep2. reflexivity.
  - intros [= <- <-]. cbn [self calls]. rewrite Hdf. reflexivity.
Qed.
End MoreParsing.

Lemma extract_measurement_result_witness :
  exists key pattern groups x f,
    In (key, pattern) (patterns Sample.weather_processor)
    /\ re_search Sample.lib pattern (VStr "Rain gauge: 1.5mm") = Ok (Some groups)
    /\ In (Some x) groups
    /\ py_float Sample.lib x = Ok f
    /\ VStr "Rainfall" = VStr key /\ VFloat 1.5 = VFloat f.
Proof.
  destruct (extract_measurement_result Sample.lib Sample.weather_processor
              (VStr "Rain gauge: 1.5mm") (VStr "Rainfall") (VFloat 1.5)
              eq_refl)
    as [(H & _) | H].
  - discriminate H.
  - exact H.
Defined.

Lemma extract_measurement_failures_witness :
  Weather.extract_measurement Sample2.lib_no_group
    (mkWeatherDataProcessor "Weather_station_data.csv"
       [("Temperature", "C"); ("Rainfall", "mm")] None)
    (VStr "5 mm")
  = Raise StopIteration.
Proof.
  refine (proj1 (extract_measurement_failures Sample2.lib_no_group
                   (mkWeatherDataProcessor "Weather_station_data.csv"
                      [("Temperature", "C"); ("Rainfall", "mm")] None)
                   (VStr "5 mm") [("Temperature", "C")] []
                   "Rainfall" "mm" [] eq_refl _ eq_refl) _).
  - repeat constructor.
  - constructor.
Defined.

Lemma process_messages_all_or_nothing_witness :
  snd (Weather.process_messages Sample.lib
         (mkRun (with_weather_df Sample.weather_processor
                   (Some Sample.no_rows)) []))
  = mkRun (with_weather_df Sample.weather_processor (Some Sample.no_rows)) [].
Proof.
  refine (proj1 (process_messages_all_or_nothing Sample.lib
                   (mkRun (with_weather_df Sample.weather_processor
                             (Some Sample.no_rows)) []))
            ValueError _ _).
  vm_compute. reflexivity.
Defined.

Lemma process_messages_idempotent_witness :
  Weather.process_messages Sample.lib
    (mkRun (with_weather_df Sample.weather_processor (Some Sample.weather_df))
           [ReadCSV "Weather_station_data.csv"])
  = (Ok (Some Sample.weather_df),
     mkRun (with_weather_df Sample.weather_processor (Some Sample.weather_df))
           [ReadCSV "Weather_station_data.csv"]).
Proof.
  refine (process_messages_idempotent Sample.lib
            (mkRun (with_weather_df Sample.weather_processor
                      (Some Sample.weather))
                   [ReadCSV "Weather_station_data.csv"])
            _ _ _).
  vm_compute. reflexivity.
Defined.

Lemma process_messages_rows_witness :
  exists t2,
    Weather.process_messages Sample.lib
      (mkRun (with_weather_df Sample.weather_processor (Some Sample.weather)) [])
    = (Ok (Some t2),
       mkRun (with_weather_df
                (with_weather_df Sample.weather_processor (Some Sample.weather))
                (Some t2)) [])
    /\ nrows t2 = 5%nat
    /\ lookup_series "Value" (series t2)
       = Some [VFloat 5.25; VFloat 2.5; VNone; VFloat 1.5; VFloat 0.25].
Proof.
  destruct (process_messages_rows Sample.lib
              (with_weather_df Sample.weather_processor (Some Sample.weather))
              [] Sample.weather
              [VStr "It's cold, 5.25C"; VStr "Pollution at 2.5 ppm";
               VStr "Clear skies"; VStr "Rain gauge: 1.5mm";
               VStr "Air quality index =0.25"]
              [(VStr "Temperature", VFloat 5.25);
               (VStr "Pollution_level", VFloat 2.5);
               (VNone, VNone);
               (VStr "Rainfall", VFloat 1.5);
               (VStr "Pollution_level", VFloat 0.25)])
    as (t2 & Hrun & Hn & _ & Hv & _).
  - reflexivity.
  - repeat constructor.
  - reflexivity.
  - discriminate.
  - reflexivity.
  - exists t2. split; [exact Hrun | split; [exact Hn | exact Hv]].
Defined.

(** ** analysis.py: the samples *)

Lemma select_as_filter {A} (f : A -> bool) (l : list A) (col : list value) :
  select (map f l) col
  = map snd (filter (fun p => f (fst p)) (combine l col)).
Proof.
  revert col. induction l as [|a l IH]; intros [|v col]; simpl;
    try reflexivity.
  - destruct (f a); reflexivity.
  - destruct (f a); simpl; rewrite IH; reflexivity.
Qed.

Lemma lookup_series_bool_index c mask l :
  lookup_series c (map (fun col => (fst col, select mask (snd col))) l)
  = option_map (select mask) (lookup_series c l).
Proof.
  induction l as [|[n col] l IH]; simpl; [reflexivity|].
  destruct (String.eqb c n); [reflexivity | exact IH].
Qed.

(** X17.  The field sample of a station: the cells of the measurement column on
    the rows whose [Weather_station] cell equals the station, in row
    order; a row without a station is in no sample, and a station no row
    has gets the empty sample.  The station column is looked up first:
    without it the call raises [KeyError] for it, whatever else is
    missing. *)
Theorem filter_field_data_rows (df : DataFrame) (station_id : value)
  (measurement : string) :
  (lookup_series "Weather_station" (series df) = None ->
   Analysis.filter_field_data df station_id measurement
   = Raise (KeyError "Weather_station"))
  /\ (forall ws,
        lookup_series "Weather_station" (series df) = Some ws ->
        lookup_series measurement (series df) = None ->
        Analysis.filter_field_data df station_id measurement
        = Raise (KeyError measurement))
  /\ (forall ws col,
        lookup_series "Weather_station" (series df) = Some ws ->
        lookup_series measurement (series df) = Some col ->
        Analysis.filter_field_data df station_id measurement
        = Ok (map snd (filter (fun p => value_eq (fst p) station_id)
                         (combine ws col)))
        /\ (forall v,
              In v (map snd (filter (fun p => value_eq (fst p) station_id)
                               (combine ws col))) ->
              exists w, In (w, v) (combine ws col)
                        /\ value_eq w station_id = true /\ w <> VNone)
        /\ (Forall (fun w => value_eq w station_id = false) ws ->
            Analysis.filter_field_data df station_id measurement = Ok [])).
Proof.
  unfold Analysis.filter_field_data, getitem, bool_index. cbn [series].
  split; [|split].
  - intros ->. reflexivity.
  - intros ws Hws Hm. rewrite Hws. cbn [rbind].
    rewrite lookup_series_bool_index, Hm. reflexivity.
  - intros ws col Hws Hm. rewrite Hws. cbn [rbind].
    rewrite lookup_series_bool_index, Hm. cbn [option_map].
    rewrite (select_as_filter (fun v => value_eq v station_id)).
    split; [reflexivity | split].
    + intros v Hv. apply in_map_iff in Hv. destruct Hv as ([w v'] & <- & Hin).
      apply filter_In in Hin. destruct Hin as [Hin Heq]. cbn [fst snd] in *.
      exists w. split; [exact Hin | split; [exact Heq|]].
      intros ->. discriminate Heq.
    + intro Hnone. f_equal.
      assert (G : forall l, filter (fun p : value * value =>
                                      value_eq (fst p) station_id) l = [] <->
                            Forall (fun p => value_eq (fst p) station_id = false) l).
      { induction l as [|p l IH]; simpl.
        - split; constructor.
        - destruct (value_eq (fst p) station_id) eqn:E.
          + split; [discriminate | intro H; inversion H; congruence].
          + rewrite IH. split; [constructor; assumption|].
            intro H. inversion H. assumption. }
      replace (filter (fun p : value * value => value_eq (fst p) station_id)
                 (combine ws col)) with (@nil (value * value));
        [reflexivity|].
      symmetry. apply G. rewrite Forall_forall in *.
      intros [w v] Hin. apply in_combine_l in Hin. cbn [fst].
      apply Hnone. exact Hin.
Qed.

Lemma filter_field_data_rows_witness :
  Analysis.filter_field_data Sample.field_df (VInt 2) "Temperature"
  = Ok [VFloat 12.25; VFloat 13.75].
Proof.
  exact (proj1 (proj2 (proj2
    (filter_field_data_rows Sample.field_df (VInt 2) "Temperature"))
    [VFloat 4; VFloat 2; VFloat 2; VFloat nan; VFloat 3]
    [VFloat 13.5; VFloat 12.25; VFloat 13.75; VFloat 15.5; VFloat 14.0]
    eq_refl eq_refl)).
Defined.

Lemma value_eq_str v s : value_eq v (VStr s) = true -> v = VStr s.
Proof.
  destruct v; simpl; try discriminate.
  intro H. apply String.eqb_eq in H. congruence.
Qed.

(** X18.  The weather sample of a station and a kind: the [Value] cells of the
    rows of that station whose [Measurement] cell is that kind, in row
    order.  A message that matched no pattern, or one of another kind, is
    in no such sample. *)
Theorem filter_weather_data_rows (df : DataFrame) (station_id : value)
  (measurement : string) (ws ms vs : list value) :
  lookup_series "Weather_station_ID" (series df) = Some ws ->
  lookup_series "Measurement" (series df) = Some ms ->
  lookup_series "Value" (series df) = Some vs ->
  let chosen :=
    filter (fun p => value_eq (fst (fst p)) station_id
                     && value_eq (snd (fst p)) (VStr measurement))
           (combine (combine ws ms) vs) in
  Analysis.filter_weather_data df station_id measurement
  = Ok (map snd chosen)
  /\ forall w m v, In (w, m, v) chosen ->
       In (w, m, v) (combine (combine ws ms) vs)
       /\ value_eq w station_id = true
       /\ m = VStr measurement.
Proof.
  intros Hws Hms Hvs chosen.
  unfold Analysis.filter_weather_data, getitem, bool_index. cbn [series].
  rewrite Hws, Hms. cbn [rbind].
  rewrite lookup_series_bool_index, Hvs. cbn [option_map].
  rewrite (select_as_filter
             (fun ab => value_eq (fst ab) station_id
                        && value_eq (snd ab) (VStr measurement))).
  split; [reflexivity|].
  intros w m v Hin. unfold chosen in Hin.
  apply filter_In in Hin. destruct Hin as [Hin Heq]. cbn [fst snd] in Heq.
  apply andb_prop in Heq. destruct Heq as [H1 H2].
  split; [exact Hin | split; [exact H1 | apply value_eq_str; exact H2]].
Qed.

Lemma filter_weather_data_rows_witness :
  Analysis.filter_weather_data Sample.weather_df (VInt 2) "Pollution_level"
  = Ok [VFloat 2.5; VFloat 0.25].
Proof.
  exact (proj1
    (filter_weather_data_rows Sample.weather_df (VInt 2) "Pollution_level"
       [VInt 4; VInt 2; VInt 4; VInt 0; VInt 2]
       [VStr "Temperature"; VStr "Pollution_level"; VNone;
        VStr "Rainfall"; VStr "Pollution_level"]
       [VFloat 5.25; VFloat 2.5; VNone; VFloat 1.5; VFloat 0.25]
       eq_refl eq_refl eq_refl)).
Defined.

(** ** analysis.py: the report at its edges *)

Section ReportEdges.
Variable ttest_ind : list value -> list value -> bool -> res (float * float).
Variables field_df weather_df : DataFrame.
Variable alpha : float.

(** X19.  Where [hypothesis_results] prints nothing.  A weather table without
    the station column raises [KeyError] at once; a weather table without
    rows gives an empty report; and when the field table has no
    [Weather_station] column the first comparison raises [KeyError] before
    any line is printed, whatever stations the weather table has, all of
    them text or none of them. *)
Theorem hypothesis_results_prints_nothing (l : list string) (out : list line) :
  (lookup_series "Weather_station_ID" (series weather_df) = None ->
   Analysis.hypothesis_results ttest_ind field_df weather_df l alpha out
   = (Raise (KeyError "Weather_station_ID"), out))
  /\ (lookup_series "Weather_station_ID" (series weather_df) = Some [] ->
      Analysis.hypothesis_results ttest_ind field_df weather_df l alpha out
      = (Ok tt, out))
  /\ (forall ids (text : bool),
        lookup_series "Weather_station_ID" (series weather_df) = Some ids ->
        ids <> [] ->
        Forall (fun v => is_text v = text) ids ->
        lookup_series "Weather_station" (series field_df) = None ->
        Analysis.hypothesis_results ttest_ind field_df weather_df l alpha out
        = (Raise (KeyError "Weather_station"), out)).
Proof.
  rewrite hypothesis_results_loops. unfold bind, lift, getitem.
  split; [|split].
  - intros ->. reflexivity.
  - intros ->. reflexivity.
  - intros ids text Hids Hne Hkind Hf. rewrite Hids.
    destruct (sorted_unique_first text ids Hne Hkind) as (station & rest & Hs).
    rewrite Hs.
    cbn [for_each]. unfold bind, station_step.
    cbn [for_each Analysis.measurements_to_compare]. unfold bind, pair_step.
    unfold bind, lift, Analysis.filter_field_data, getitem.
    rewrite Hf. reflexivity.
Qed.
End ReportEdges.

Lemma hypothesis_results_prints_nothing_witness :
  Analysis.hypothesis_results Sample.ttest Sample.cleaned Sample.weather_df
    [] Sample.alpha []
  = (Raise (KeyError "Weather_station"), []).
Proof.
  exact (proj2 (proj2
    (hypothesis_results_prints_nothing Sample.ttest Sample.cleaned
       Sample.weather_df Sample.alpha [] []))
    [VInt 4; VInt 2; VInt 4; VInt 0; VInt 2] false
    eq_refl ltac:(discriminate) ltac:(repeat constructor) eq_refl).
Defined.

Lemma leb_refl (a : float) :
  PrimFloat.is_nan a = false -> PrimFloat.leb a a = true.
Proof.
  intro H. rewrite leb_spec. unfold SpecFloat.SFleb.
  rewrite SFcompare_refl; [reflexivity|].
  intro E. apply is_nan_Prim2SF in E. congruence.
Qed.

(** X20.  The boundary of the verdict: a p-value equal to the threshold counts
    as significant, and its line still reads "P-Value: p < alpha". *)
Theorem p_value_at_threshold (station_id : value) (measurement : string)
  (alpha : float) (out : list line) :
  PrimFloat.is_nan alpha = false ->
  Analysis.print_ttest_results station_id measurement alpha alpha out
  = (Ok tt, out ++ [significant_line station_id measurement alpha alpha]).
Proof.
  intro H. unfold Analysis.print_ttest_results.
  rewrite (leb_refl alpha H). reflexivity.
Qed.

Lemma p_value_at_threshold_witness :
  Analysis.print_ttest_results (VInt 2) "Rainfall" Sample.alpha Sample.alpha []
  = (Ok tt, [] ++ [significant_line (VInt 2) "Rainfall" Sample.alpha
                     Sample.alpha]).
Proof.
  exact (p_value_at_threshold (VInt 2) "Rainfall" Sample.alpha [] eq_refl).
Defined.

(** ** The script *)

Lemma no_export_app l l' : no_export l -> no_export l' -> no_export (l ++ l').
Proof. unfold no_export. intros. apply Forall_app. auto. Qed.

Lemma rename_columns_calls {Engine} (s s' : run (FieldDataProcessor Engine)) r :
  Field.rename_columns s = (r, s') -> calls s' = calls s.
Proof.
  unfold Field.rename_columns, bind, get_self, lift, set_self.
  destruct (first_key (columns_to_rename (self s))); [|intros [= _ <-]; auto].
  destruct (first_value (columns_to_rename (self s)));
    [|intros [= _ <-]; auto].
  destruct (the_df (df (self s))); [|intros [= _ <-]; auto].
  intros [= _ <-]. reflexivity.
Qed.

Lemma apply_corrections_calls {Engine} (s s' : run (FieldDataProcessor Engine))
  cn ac r :
  Field.apply_corrections cn ac s = (r, s') -> calls s' = calls s.
Proof.
  unfold Field.apply_corrections, bind, get_self, lift, set_self.
  destruct (subscript_df (df (self s))) as [t|]; [|intros [= _ <-]; auto].
  destruct (getitem t ac) as [col|]; [|intros [= _ <-]; auto].
  destruct (series_abs col) as [absd|]; [|intros [= _ <-]; auto].
  destruct (setitem t ac absd) as [t1|]; [|intros [= _ <-]; auto].
  cbn [self calls].
  destruct (getitem t1 cn) as [col2|]; [|intros [= _ <-]; auto].
  destruct (setitem t1 cn _) as [t2|]; intros [= _ <-]; reflexivity.
Qed.

Lemma ingest_sql_data_calls {Engine} (src : DataSources Engine)
  (s s' : run (FieldDataProcessor Engine)) r :
  Field.ingest_sql_data src s = (r, s') ->
  exists extra, calls s' = calls s ++ extra /\ no_export extra.
Proof.
  unfold Field.ingest_sql_data, bind, get_self, external, set_self, ret.
  cbn [self calls].
  destruct (create_db_engine src (db_path (self s))) as [g|].
  - cbn [self calls].
    destruct (query_data src g _) as [t|]; intros [= _ <-]; cbn [calls];
      rewrite <- app_assoc; eexists; (split; [reflexivity|]);
        repeat constructor.
  - intros [= _ <-]. cbn [calls]. eexists. split; [reflexivity|].
    repeat constructor.
Qed.

(** The record of calls of [process], and what a successful [process]
    leaves: only ingestion calls are added, and a table is loaded. *)
Lemma field_process_calls {Engine} (src : DataSources Engine)
  (s s' : run (FieldDataProcessor Engine)) r :
  Field.process src s = (r, s') ->
  (exists extra, calls s' = calls s ++ extra /\ no_export extra)
  /\ (r = Ok tt -> exists t, df (self s') = Some t).
Proof.
  unfold Field.process, bind.
  destruct (Field.ingest_sql_data src s) as [r1 s1] eqn:E1.
  destruct (ingest_sql_data_calls src _ _ _ E1) as (x1 & Hc1 & Hx1).
  destruct r1 as [o|e];
    [|intros [= <- <-]; split; [eauto | discriminate]].
  destruct (Field.rename_columns s1) as [r2 s2] eqn:E2.
  pose proof (rename_columns_calls _ _ _ E2) as Hc2.
  destruct r2 as [[]|e];
    [|intros [= <- <-]; split; [rewrite Hc2; eauto | discriminate]].
  destruct (Field.apply_corrections "Crop_type" "Elevation" s2)
    as [r3 s3] eqn:E3.
  pose proof (apply_corrections_calls _ _ _ _ _ E3) as Hc3.
  destruct r3 as [[]|e];
    [|intros [= <- <-]; split; [rewrite Hc3, Hc2; eauto | discriminate]].
  unfold Field.weather_station_mapping, bind, get_self, external, lift,
    set_self. cbn [self calls].
  assert (Hlog : exists extra,
             calls s3 ++ [ReadCSV (weather_map_data (self s3))]
             = calls s ++ extra /\ no_export extra).
  { exists (x1 ++ [ReadCSV (weather_map_data (self s3))]).
    rewrite Hc3, Hc2, Hc1, app_assoc. split; [reflexivity|].
    apply no_export_app; [exact Hx1 | repeat constructor]. }
  destruct (read_from_web_CSV src _) as [m|];
    [|intros [= <- <-]; split; [exact Hlog | discriminate]].
  destruct (the_df (df (self s3))) as [t|];
    [|intros [= <- <-]; split; [exact Hlog | discriminate]].
  destruct (merge_left t m "Field_ID") as [merged|];
    [|intros [= <- <-]; split; [exact Hlog | discriminate]].
  cbn [self calls].
  destruct (drop merged "Unnamed: 0") as [dropped|];
    intros [= <- <-]; (split; [exact Hlog|]); [|discriminate].
  intros _. cbn [self df with_df]. eauto.
Qed.

Lemma weather_process_calls {Engine} (src : DataSources Engine) (lib : Builtins)
  (s s' : run WeatherDataProcessor) r :
  Weather.process src lib s = (r, s') ->
  (exists extra, calls s' = calls s ++ extra /\ no_export extra)
  /\ (r = Ok tt -> exists t, weather_df (self s') = Some t).
Proof.
  unfold Weather.process, Weather.weather_station_mapping, bind, get_self,
    external, set_self, ret. cbn [self calls].
  assert (Hlog : exists extra,
             calls s ++ [ReadCSV (weather_station_data (self s))]
             = calls s ++ extra /\ no_export extra).
  { eexists. split; [reflexivity | repeat constructor]. }
  destruct (read_from_web_CSV src _) as [t|];
    [|intros [= <- <-]; split; [exact Hlog | discriminate]].
  cbn [self calls].
  destruct (Weather.process_messages lib _) as [r1 s1] eqn:E1.
  assert (Hs1 : calls s1 = calls s ++ [ReadCSV (weather_station_data (self s))]
                /\ (forall o, r1 = Ok o -> exists t2, weather_df (self s1) = Some t2)).
  { revert E1.
    unfold Weather.process_messages, bind, get_self, lift, set_self, ret.
    cbn [self calls weather_df with_weather_df].
    destruct (getitem t "Message") as [msgs|];
      [|intros [= <- <-]; split; [reflexivity | discriminate]].
    destruct (mapM _ msgs) as [result|];
      [|intros [= <- <-]; split; [reflexivity | discriminate]].
    destruct (unzip2 result) as [cols|];
      [|intros [= <- <-]; split; [reflexivity | discriminate]].
    destruct (setitem t "Measurement" (fst cols)) as [t1|];
      [|intros [= <- <-]; split; [reflexivity | discriminate]].
    cbn [self calls].
    destruct (setitem t1 "Value" (snd cols)) as [t2|];
      intros [= <- <-]; (split; [reflexivity|]); [|discriminate].
    intros o _. cbn [self weather_df with_weather_df]. eauto. }
  destruct Hs1 as [Hc Hdf].
  destruct r1 as [o|e]; intros [= <- <-]; rewrite Hc;
    (split; [exact Hlog|]); [|discriminate].
  intros _. apply (Hdf o). reflexivity.
Qed.

Section ScriptRuns.
Context {Engine : Type} (src : DataSources Engine) (lib : Builtins).

(** X21.  [start_test.py] asks for a file only when both pipelines have run
    through, and for the weather file first.  A run that raises has
    either asked for no file, or failed in writing the weather file, or
    written the weather file and failed in writing the field file; a run
    that ends has written both, the weather table and then the field
    table, as its last two calls. *)
Theorem start_test_exports_last (config_params : Config) (r : res unit)
  (log : list call) :
  Script.start_test src lib config_params [] = (r, log) ->
  ((exists e, r = Raise e) /\ no_export log)
  \/ (exists before weather_table e,
        log = before ++ [ToCSV "sampled_weather_df.csv" weather_table]
        /\ no_export before
        /\ write_csv lib "sampled_weather_df.csv" weather_table = Raise e
        /\ r = Raise e)
  \/ (exists before weather_table field_table,
        log = before ++ [ToCSV "sampled_weather_df.csv" weather_table;
                         ToCSV "sampled_field_df.csv" field_table]
        /\ no_export before
        /\ write_csv lib "sampled_weather_df.csv" weather_table = Ok tt
        /\ r = write_csv lib "sampled_field_df.csv" field_table).
Proof.
  unfold Script.start_test, bind, lift, Script.call_method.
  destruct (Field.init config_params) as [fp|];
    [|intros [= <- <-]; left; split; [eauto | constructor]].
  destruct (Field.process src (mkRun fp [])) as [r1 s1] eqn:E1.
  destruct (field_process_calls src _ _ _ E1) as ((x1 & Hc1 & Hx1) & Hdf1).
  cbn [calls app] in Hc1.
  destruct r1 as [[]|e];
    [|intros [= <- <-]; left; split; [eauto | rewrite Hc1; exact Hx1]].
  destruct (Hdf1 eq_refl) as (ft & Hft).
  destruct (Weather.init config_params) as [wp|];
    [|intros [= <- <-]; left; split; [eauto | rewrite Hc1; exact Hx1]].
  destruct (Weather.process src lib (mkRun wp (calls s1))) as [r2 s2] eqn:E2.
  destruct (weather_process_calls src lib _ _ _ E2) as ((x2 & Hc2 & Hx2) & Hdf2).
  cbn [calls] in Hc2.
  assert (Hno : no_export (calls s2)).
  { rewrite Hc2, Hc1. apply no_export_app; assumption. }
  destruct r2 as [[]|e];
    [|intros [= <- <-]; left; split; [eauto | exact Hno]].
  destruct (Hdf2 eq_refl) as (wt & Hwt).
  cbn [snd]. unfold Script.to_csv. rewrite Hwt, Hft.
  destruct (write_csv lib "sampled_weather_df.csv" wt) as [[]|e] eqn:Ew.
  - intros [= <- <-]. right. right. exists (calls s2), wt, ft.
    rewrite <- app_assoc.
    split; [reflexivity | split; [exact Hno | split; [exact Ew | reflexivity]]].
  - intros [= <- <-]. right. left. exists (calls s2), wt, e.
    split; [reflexivity | split; [exact Hno | split; [exact Ew | reflexivity]]].
Qed.

(** X22.  The keys of the weather processor are looked up late: when the field
    pipeline runs through and a weather key is missing from the
    configuration, the run raises [KeyError] for that key only after all
    the field processor's ingestion has taken place. *)
Theorem start_test_weather_key_late (config_params : Config)
  (fp : FieldDataProcessor Engine) (s : run (FieldDataProcessor Engine)) :
  Field.init config_params = Ok fp ->
  Field.process src (mkRun fp []) = (Ok tt, s) ->
  (cfg_weather_csv_path config_params = None ->
   Script.start_test src lib config_params []
   = (Raise (KeyError "weather_csv_path"), calls s))
  /\ (forall path,
        cfg_weather_csv_path config_params = Some path ->
        cfg_regex_patterns config_params = None ->
        Script.start_test src lib config_params []
        = (Raise (KeyError "regex_patterns"), calls s)).
Proof.
  intros Hinit Hproc.
  unfold Script.start_test, bind, lift, Script.call_method, Weather.init.
  rewrite Hinit, Hproc. split.
  - intros ->. reflexivity.
  - intros path -> ->. reflexivity.
Qed.
End ScriptRuns.

Lemma no_export_In l path table :
  no_export l -> ~ In (ToCSV path table) l.
Proof.
  unfold no_export. rewrite Forall_forall. intros H Hin. exact (H _ Hin).
Qed.

Lemma start_test_exports_last_witness :
  exists before weather_table field_table,
    snd (Script.start_test Sample.sources Sample2.lib_disk_full
           Sample.config_params [])
    = before ++ [ToCSV "sampled_weather_df.csv" weather_table;
                 ToCSV "sampled_field_df.csv" field_table]
    /\ no_export before
    /\ write_csv Sample2.lib_disk_full "sampled_weather_df.csv" weather_table
       = Ok tt
    /\ Raise OSError
       = write_csv Sample2.lib_disk_full "sampled_field_df.csv" field_table.
Proof.
  destruct (start_test_exports_last Sample.sources Sample2.lib_disk_full
              Sample.config_params (Raise OSError)
              (snd (Script.start_test Sample.sources Sample2.lib_disk_full
                      Sample.config_params [])))
    as [[_ H] | [(b & wt & e & _ & _ & Hw & _) | H]].
  - vm_compute. reflexivity.
  - exfalso.
    apply (no_export_In _ "sampled_weather_df.csv" Sample.weather_df H).
    vm_compute. do 4 right. left. reflexivity.
  - discriminate Hw.
  - exact H.
Defined.

Lemma start_test_weather_key_late_witness :
  Script.start_test Sample.sources Sample.lib Sample2.no_patterns []
  = (Raise (KeyError "regex_patterns"),
     [CreateEngine "sqlite:///Maji_Ndogo_farm_survey_small.db";
      QueryData "SELECT * FROM geographic_features";
      ReadCSV "Weather_data_field_mapping.csv"]).
Proof.
  refine (proj2 (start_test_weather_key_late Sample.sources Sample.lib
                   Sample2.no_patterns Sample.fresh
                   (mkRun (with_df Sample.renamed (Some Sample.field_df))
                      [CreateEngine "sqlite:///Maji_Ndogo_farm_survey_small.db";
                       QueryData "SELECT * FROM geographic_features";
                       ReadCSV "Weather_data_field_mapping.csv"])
                   eq_refl _)
            "Weather_station_data.csv" eq_refl eq_refl).
  vm_compute. reflexivity.
Defined.

(** X16.  A weather run that ends without exception has loaded a table with at
    least one row that carries the messages and the two derived columns:
    a feed without rows cannot get through [process]. *)
Theorem weather_process_has_rows {Engine} (src : DataSources Engine)
  (lib : Builtins) (s s' : run WeatherDataProcessor) :
  Weather.process src lib s = (Ok tt, s') ->
  exists t msgs kinds vals,
    weather_df (self s') = Some t
    /\ (0 < nrows t)%nat
    /\ lookup_series "Message" (series t) = Some msgs
    /\ lookup_series "Measurement" (series t) = Some kinds
    /\ lookup_series "Value" (series t) = Some vals
    /\ List.length kinds = nrows t
    /\ List.length vals = nrows t.
Proof.
  unfold Weather.process, Weather.weather_station_mapping, bind, get_self,
    external, set_self, ret. cbn [self calls].
  destruct (read_from_web_CSV src _) as [t0|]; [|discriminate].
  cbn [self calls].
  unfold Weather.process_messages, bind, get_self, lift, set_self, ret.
  cbn [self calls weather_df with_weather_df].
  destruct (getitem t0 "Message") as [msgs|] eqn:Hmsg; [|discriminate].
  destruct (mapM _ msgs) as [result|]; [|discriminate].
  destruct (unzip2 result) as [cols|] eqn:Ez; [|discriminate].
  destruct (setitem t0 "Measurement" (fst cols)) as [t1|] eqn:E1;
    [|discriminate].
  cbn [self calls].
  destruct (setitem t1 "Value" (snd cols)) as [t2|] eqn:E2; [|discriminate].
  intros [= <-]. cbn [self weather_df with_weather_df].
  destruct (setitem_spec _ _ _ _ E1) as (Hn1 & Hm1 & Ho1).
  destruct (setitem_spec _ _ _ _ E2) as (Hn2 & Hm2 & Ho2).
  pose proof (setitem_length _ _ _ _ E1) as Hl1.
  pose proof (setitem_length _ _ _ _ E2) as Hl2.
  exists t2, msgs, (fst cols), (snd cols).
  split; [reflexivity | split; [|split; [|split; [|split; [|split]]]]].
  - rewrite Hn2, Hn1, <- Hl1.
    destruct result; simpl in Ez; [discriminate|]. injection Ez as <-.
    simpl. lia.
  - rewrite Ho2 by discriminate. rewrite Ho1 by discriminate.
    unfold getitem in Hmsg.
    destruct (lookup_series "Message" (series t0)); [|discriminate].
    congruence.
  - rewrite Ho2 by discriminate. exact Hm1.
  - exact Hm2.
  - congruence.
  - congruence.
Qed.

Lemma weather_process_has_rows_witness :
  exists t msgs kinds vals,
    weather_df (self (snd (Weather.process Sample.sources Sample.lib
                             (mkRun Sample.weather_processor []))))
    = Some t
    /\ (0 < nrows t)%nat
    /\ lookup_series "Message" (series t) = Some msgs
    /\ lookup_series "Measurement" (series t) = Some kinds
    /\ lookup_series "Value" (series t) = Some vals
    /\ List.length kinds = nrows t
    /\ List.length vals = nrows t.
Proof.
  refine (weather_process_has_rows Sample.sources Sample.lib
            (mkRun Sample.weather_processor []) _ _).
  vm_compute. reflexivity.
Defined.

(** ** Logging *)

Lemma initialize_logging_keeps_disabled (l : string) (lg : Logging.Logger) :
  Logging.disabled lg = true ->
  Logging.disabled (Logging.initialize_logging l lg) = true.
Proof.
  intro H. unfold Logging.initialize_logging.
  cbn [Logging.setLevel Logging.handlers Logging.disabled Logging.propagate
         Logging.level].
  destruct (String.eqb (Logging.upper l) "DEBUG");
    [destruct (Logging.handlers lg); exact H|].
  destruct (String.eqb (Logging.upper l) "INFO");
    [destruct (Logging.handlers lg); exact H|].
  destruct (String.eqb (Logging.upper l) "NONE"); [reflexivity|].
  destruct (Logging.handlers lg); exact H.
Qed.

Lemma after_inits_keeps_disabled (levels : list string) (lg : Logging.Logger) :
  Logging.disabled lg = true ->
  Logging.disabled (Logging.after_inits levels lg) = true.
Proof.
  revert lg. induction levels as [|l levels IH]; intros lg H; [exact H|].
  apply IH. apply initialize_logging_keeps_disabled. exact H.
Qed.

(** X23.  Nothing re-enables a logger.  Once a processor of a class was built
    with the level "none" (in any case), the logger of the class is
    disabled, and it stays disabled whatever levels later processors of
    the class are built with. *)
Theorem logger_never_reenabled (before after : list string) (l : string)
  (lg : Logging.Logger) :
  Logging.upper l = "NONE" ->
  Logging.disabled (Logging.after_inits (before ++ l :: after) lg) = true.
Proof.
  intro Hl. unfold Logging.after_inits. rewrite fold_left_app.
  cbn [fold_left]. apply after_inits_keeps_disabled.
  unfold Logging.initialize_logging. rewrite Hl. reflexivity.
Qed.

Lemma logger_never_reenabled_witness :
  Logging.disabled
    (Logging.after_inits (["Info"] ++ "none" :: ["DEBUG"; "info"])
       Logging.new_logger) = true.
Proof.
  exact (logger_never_reenabled ["Info"] ["DEBUG"; "info"] "none"
           Logging.new_logger eq_refl).
Defined.

Lemma initialize_logging_shape (l : string) (lg : Logging.Logger) :
  (List.length (Logging.handlers lg) <= 1)%nat ->
  Logging.propagate (Logging.initialize_logging l lg) = false
  /\ (List.length (Logging.handlers (Logging.initialize_logging l lg)) <= 1)%nat
  /\ (Logging.level (Logging.initialize_logging l lg) = Logging.level lg
      \/ Logging.level (Logging.initialize_logging l lg) = Logging.DEBUG
      \/ Logging.level (Logging.initialize_logging l lg) = Logging.INFO).
Proof.
  intro H. unfold Logging.initialize_logging.
  cbn [Logging.setLevel Logging.handlers Logging.disabled Logging.propagate
         Logging.level].
  destruct (String.eqb (Logging.upper l) "DEBUG");
    [destruct (Logging.handlers lg); simpl in *; auto|].
  destruct (String.eqb (Logging.upper l) "INFO");
    [destruct (Logging.handlers lg); simpl in *; auto|].
  destruct (String.eqb (Logging.upper l) "NONE"); [simpl; auto|].
  destruct (Logging.handlers lg); simpl in *; auto.
Qed.

(** X24.  However many processors of a class are built, and with whatever
    levels, the logger of the class does not propagate, has at most one
    handler (so no line is printed twice), and its level is unset, DEBUG
    or INFO; a level name that is none of "debug", "info" and "none"
    configures the logger as "INFO" does. *)
Theorem logger_one_handler (levels : list string) :
  levels <> [] ->
  let lg := Logging.after_inits levels Logging.new_logger in
  Logging.propagate lg = false
  /\ (List.length (Logging.handlers lg) <= 1)%nat
  /\ (Logging.level lg = 0%Z \/ Logging.level lg = Logging.DEBUG
      \/ Logging.level lg = Logging.INFO)
  /\ forall l before,
       Logging.upper l <> "DEBUG" -> Logging.upper l <> "INFO" ->
       Logging.upper l <> "NONE" ->
       Logging.initialize_logging l before
       = Logging.initialize_logging "INFO" before.
Proof.
  intros Hne lg.
  assert (G : forall ls lg0,
             (List.length (Logging.handlers lg0) <= 1)%nat ->
             (Logging.level lg0 = 0%Z \/ Logging.level lg0 = Logging.DEBUG
              \/ Logging.level lg0 = Logging.INFO) ->
             (ls <> [] \/ Logging.propagate lg0 = false) ->
             Logging.propagate (Logging.after_inits ls lg0) = false
             /\ (List.length (Logging.handlers (Logging.after_inits ls lg0))
                 <= 1)%nat
             /\ (Logging.level (Logging.after_inits ls lg0) = 0%Z
                 \/ Logging.level (Logging.after_inits ls lg0) = Logging.DEBUG
                 \/ Logging.level (Logging.after_inits ls lg0) = Logging.INFO)).
  { induction ls as [|l ls IH]; intros lg0 Hh Hl Hp.
    - destruct Hp as [Hp | Hp]; [contradiction|]. simpl. auto.
    - unfold Logging.after_inits. cbn [fold_left].
      destruct (initialize_logging_shape l lg0 Hh) as (Hp' & Hh' & Hl').
      apply IH; [exact Hh' | | right; exact Hp'].
      destruct Hl' as [E | [E | E]]; rewrite E; auto. }
  destruct (G levels Logging.new_logger) as (Hp & Hh & Hl);
    [simpl; lia | left; reflexivity | left; exact Hne |].
  repeat split; try assumption.
  intros l before H1 H2 H3. unfold Logging.initialize_logging.
  apply String.eqb_neq in H1, H2, H3. rewrite H1, H2, H3. reflexivity.
Qed.

Lemma logger_one_handler_witness :
  Logging.propagate
    (Logging.after_inits ["INFO"; "verbose"; "debug"] Logging.new_logger)
  = false
  /\ (List.length
        (Logging.handlers
           (Logging.after_inits ["INFO"; "verbose"; "debug"]
              Logging.new_logger)) <= 1)%nat.
Proof.
  destruct (logger_one_handler ["INFO"; "verbose"; "debug"])
    as (Hp & Hh & _).
  - discriminate.
  - split; [exact Hp | exact Hh].
Defined.

(** ** Elevation in the fused table *)

Lemma replace_series_wf c vals l n :
  List.length vals = n ->
  Forall (fun col : string * list value => List.length (snd col) = n) l ->
  Forall (fun col : string * list value => List.length (snd col) = n)
         (replace_series c vals l).
Proof.
  intros Hv. induction 1 as [|[m col] l Hc Hl IH]; cbn [replace_series];
    [constructor|].
  destruct (String.eqb c m); constructor; cbn [snd] in *; auto.
Qed.

(** A column assignment keeps one cell per index entry in every column. *)
Lemma setitem_wf t c vals t' :
  setitem t c vals = Ok t' -> wf_df t -> wf_df t'.
Proof.
  intros H Hwf. pose proof (setitem_length _ _ _ _ H) as Hlen.
  unfold setitem in H. destruct (negb _) in H; [discriminate|].
  destruct (mem c (columns t)); injection H as <-; unfold wf_df in *;
    cbn [nrows series].
  - apply replace_series_wf; assumption.
  - apply Forall_app. split; [exact Hwf | repeat constructor; exact Hlen].
Qed.


Lemma left_indexer_bounds lk rk o :
  Forall (fun p => (o <= fst p < o + List.length lk)%nat)
         (left_indexer lk rk o).
Proof.
  revert o. induction lk as [|k lk IH]; intro o; simpl; [constructor|].
  apply Forall_app. split.
  - assert (G : forall js,
               Forall (fun p : nat * option nat =>
                         (o <= fst p < o + S (List.length lk))%nat)
                      (map (fun j => (o, Some j)) js)).
    { intro js. rewrite Forall_map. rewrite Forall_forall.
      intros j' _. simpl. lia. }
    destruct (matches k rk 0) as [|j js]; [|exact (G (j :: js))].
    repeat constructor; simpl; lia.
  - eapply Forall_impl; [|apply (IH (S o))]. intros p Hp. simpl in Hp. lia.
Qed.

Lemma take_left_Forall (P : value -> Prop) ix col :
  Forall P col ->
  Forall (fun p => (fst p < List.length col)%nat) ix ->
  Forall P (take_left ix col).
Proof.
  intros Hcol Hix. unfold take_left. rewrite Forall_map.
  eapply Forall_impl; [|exact Hix]. intros p Hp.
  rewrite Forall_forall in Hcol. apply Hcol. apply nth_In. exact Hp.
Qed.

Lemma abs_exact_numeric v : abs_exact v = true -> is_numeric v = true.
Proof. destruct v; simpl; auto. Qed.

(** X10.  Non-negative elevations reach the end of the pipeline.  When the
    renamed table holds proper numbers under [Elevation] and shares no
    label but [Field_ID] with the mapping, a [process] that runs through
    leaves a fused table whose [Elevation] column is there and holds only
    cells [>= 0], however the mapping multiplies the rows: what
    [test_field_DataFrame_non_negative_elevation] asks for. *)
Theorem process_elevation_nonneg {Engine} (src : DataSources Engine)
  (s0 s1 s2 s4 : run (FieldDataProcessor Engine)) (o : option DataFrame)
  (t m : DataFrame) (ecol : list value) :
  Field.ingest_sql_data src s0 = (Ok o, s1) ->
  Field.rename_columns s1 = (Ok tt, s2) ->
  df (self s2) = Some t ->
  wf_df t ->
  lookup_series "Elevation" (series t) = Some ecol ->
  Forall (fun v => abs_exact v = true) ecol ->
  read_from_web_CSV src (weather_map_data (self s2)) = Ok m ->
  (forall n, In n (columns t) -> In n (columns m) -> n = "Field_ID") ->
  Field.process src s0 = (Ok tt, s4) ->
  exists fused elevation,
    df (self s4) = Some fused
    /\ lookup_series "Elevation" (series fused) = Some elevation
    /\ Forall (fun v => nonneg v = true) elevation.
Proof.
  intros Hing Hren Hdf Hwf He Hexact Hread Hshared Hproc.
  unfold Field.process, bind in Hproc. rewrite Hing, Hren in Hproc.
  (* the corrections *)
  unfold Field.apply_corrections, bind, get_self, lift, set_self in Hproc.
  cbn [self calls] in Hproc. rewrite Hdf in Hproc.
  cbn [subscript_df] in Hproc.
  rewrite (getitem_ok t "Elevation" ecol He) in Hproc.
  destruct (mapM_total (abs_value (dtype_of ecol)) ecol) as (ecol' & Habs).
  { eapply Forall_impl; [|exact Hexact]. intros v Hv.
    apply abs_value_total, abs_exact_numeric, Hv. }
  unfold series_abs in Hproc. rewrite Habs in Hproc.
  assert (Hlen : List.length ecol' = nrows t).
  { rewrite (mapM_length _ _ _ Habs). apply (wf_lookup t "Elevation"); auto. }
  rewrite (setitem_existing t "Elevation" ecol' Hlen) in Hproc
    by (apply (lookup_series_mem _ _ _ He)).
  set (t1 := mkDF (nrows t) (replace_series "Elevation" ecol' (series t)))
    in Hproc.
  cbn [self calls] in Hproc.
  destruct (getitem t1 "Crop_type") as [ccol|] eqn:Hc; [|discriminate].
  destruct (setitem t1 "Crop_type" _) as [c|] eqn:Hset; [|discriminate].
  cbn [self calls] in Hproc.
  destruct (setitem_spec _ _ _ _ Hset) as (Hnc & _ & Hother).
  assert (Hec : lookup_series "Elevation" (series c) = Some ecol').
  { rewrite Hother by discriminate. unfold t1. cbn [series].
    apply lookup_replace_same. apply (lookup_series_mem _ _ _ He). }
  assert (Hcols : columns c = columns t).
  { unfold setitem in Hset.
    destruct (negb _) in Hset; [discriminate|].
    unfold getitem in Hc.
    destruct (lookup_series "Crop_type" (series t1)) eqn:Hl; [|discriminate].
    unfold columns in Hset at 1.
    rewrite (lookup_series_mem _ _ _ Hl) in Hset. injection Hset as <-.
    unfold columns, t1. cbn [series]. rewrite !columns_replace. reflexivity. }
  assert (Hnonneg : Forall (fun v => nonneg v = true) ecol').
  { apply mapM_Forall2 in Habs. revert Habs. generalize (dtype_of ecol).
    intros dt Habs. clear - Habs Hexact.
    induction Habs as [|v v' l l' Hv _ IH]; [constructor|].
    inversion Hexact; subst. constructor; [|apply IH; assumption].
    apply (abs_value_nonneg dt v v'); assumption. }
  (* the merge and the drop *)
  unfold Field.weather_station_mapping, bind, get_self, external, lift,
    set_self in Hproc. cbn [self calls weather_map_data with_df] in Hproc.
  rewrite Hread in Hproc. cbn [self df the_df with_df] in Hproc.
  unfold merge_left in Hproc.
  destruct (getitem m "Field_ID") as [rk|]; [|discriminate].
  cbn [rbind] in Hproc.
  destruct (getitem c "Field_ID") as [lk|] eqn:Hlk;
    [|cbn [rbind] in Hproc; discriminate].
  cbn [rbind self calls] in Hproc.
  destruct (mergeable lk rk); [|cbn [rbind] in Hproc; discriminate].
  cbn [rbind self calls] in Hproc.
  set (ix := left_indexer lk rk 0) in Hproc.
  match type of Hproc with
  | context [drop ?merged _] => set (M0 := merged) in Hproc
  end.
  destruct (drop M0 "Unnamed: 0") as [dropped|] eqn:Edrop; [|discriminate].
  injection Hproc as <-. cbn [self df with_df].
  exists dropped, (take_left ix ecol'). split; [reflexivity | split].
  - unfold drop in Edrop.
    destruct (mem "Unnamed: 0" (columns M0)); [|discriminate].
    injection Edrop as <-. cbn [series].
    rewrite lookup_series_filter_other by discriminate.
    unfold M0. cbn [series].
    assert (Hl : map (fun col : string * list value =>
                        (if negb (String.eqb (fst col) "Field_ID")
                            && mem (fst col) (columns c)
                            && mem (fst col) (columns m)
                         then (fst col ++ "_x")%string else fst col,
                         take_left ix (snd col))) (series c)
                 = map (fun col => (fst col, take_left ix (snd col)))
                       (series c)).
    { apply map_ext_in. intros [n col] Hin. cbn [fst snd].
      destruct (String.eqb n "Field_ID") eqn:E; cbn [negb andb];
        [reflexivity|].
      destruct (mem n (columns c) && mem n (columns m)) eqn:E2;
        [|reflexivity].
      apply andb_prop in E2. destruct E2 as [E2 E3].
      apply mem_In in E2, E3. rewrite Hcols in E2.
      rewrite (Hshared n E2 E3) in E. discriminate. }
    rewrite Hl, lookup_series_app.
    + rewrite lookup_series_map_data, Hec. reflexivity.
    + rewrite map_map. cbn [fst].
      apply lookup_series_In in Hec. apply (in_map fst) in Hec. exact Hec.
  - apply take_left_Forall; [exact Hnonneg|].
    assert (Hlk' : List.length lk = List.length ecol').
    { unfold getitem in Hlk.
      destruct (lookup_series "Field_ID" (series c)) as [lk0|] eqn:Hl0;
        [|discriminate]. injection Hlk as <-.
      apply lookup_series_In in Hl0.
      rewrite Hlen. change (nrows t) with (nrows t1). rewrite <- Hnc.
      assert (Hwfc : wf_df c).
      { apply (setitem_wf _ _ _ _ Hset).
        unfold wf_df, t1. cbn [nrows series].
        apply replace_series_wf; [exact Hlen | exact Hwf]. }
      unfold wf_df in Hwfc. rewrite Forall_forall in Hwfc.
      apply (Hwfc _ Hl0). }
    eapply Forall_impl; [|apply (left_indexer_bounds lk rk 0)].
    intros p Hp. simpl in Hp. lia.
Qed.

Lemma process_elevation_nonneg_witness :
  exists fused elevation,
    df (self (snd (Field.process
                     (Sample2.sources_with Sample2.weather_map_twice)
                     (mkRun Sample.fresh []))))
    = Some fused
    /\ lookup_series "Elevation" (series fused) = Some elevation
    /\ Forall (fun v => nonneg v = true) elevation.
Proof.
  refine (process_elevation_nonneg
            (Sample2.sources_with Sample2.weather_map_twice)
            (mkRun Sample.fresh [])
            (mkRun Sample.ingested
               [CreateEngine "sqlite:///Maji_Ndogo_farm_survey_small.db";
                QueryData "SELECT * FROM geographic_features"])
            (mkRun Sample.renamed
               [CreateEngine "sqlite:///Maji_Ndogo_farm_survey_small.db";
                QueryData "SELECT * FROM geographic_features"])
            _ (Some Sample.raw_field)
            (rename [("Annual_yield", "Crop_type");
                     ("Crop_type", "Annual_yield")] Sample.raw_field)
            Sample2.weather_map_twice
            [VFloat 786.0625; VFloat (-94.5); VFloat 282.25; VFloat 335.5;
             VFloat (-12.75)]
            _ _ eq_refl _ eq_refl _ eq_refl _ _).
  - vm_compute. reflexivity.
  - vm_compute. reflexivity.
  - repeat constructor.
  - repeat constructor.
  - simpl. intros n H1 H2.
    repeat (destruct H1 as [<- | H1]; [simpl in H2; intuition discriminate|]).
    destruct H1.
  - vm_compute. reflexivity.
Defined.

(** X9.  Whatever [process] is given, a run that ends without exception leaves
    a table, and that table has no column labelled [Unnamed: 0]. *)
Theorem process_never_keeps_artifact {Engine} (src : DataSources Engine)
  (s s' : run (FieldDataProcessor Engine)) :
  Field.process src s = (Ok tt, s') ->
  exists t, df (self s') = Some t /\ ~ In "Unnamed: 0" (columns t).
Proof.
  unfold Field.process, bind.
  destruct (Field.ingest_sql_data src s) as [[o|] s1]; [|discriminate].
  destruct (Field.rename_columns s1) as [[[]|] s2]; [|discriminate].
  destruct (Field.apply_corrections "Crop_type" "Elevation" s2)
    as [[[]|] s3]; [|discriminate].
  unfold Field.weather_station_mapping, bind, get_self, external, lift,
    set_self. cbn [self calls].
  destruct (read_from_web_CSV src _) as [m|]; [|discriminate].
  destruct (the_df (df (self s3))) as [t|]; [|discriminate].
  destruct (merge_left t m "Field_ID") as [merged|]; [|discriminate].
  cbn [self calls].
  destruct (drop merged "Unnamed: 0") as [dropped|] eqn:Edrop; [|discriminate].
  intros [= <-]. cbn [self df with_df]. exists dropped.
  split; [reflexivity|].
  unfold drop in Edrop. destruct (mem "Unnamed: 0" (columns merged));
    [|discriminate].
  injection Edrop as <-. unfold columns. cbn [series].
  apply filter_label_notin.
Qed.

Lemma process_never_keeps_artifact_witness :
  exists t,
    df (self (snd (Field.process Sample.sources (mkRun Sample.fresh []))))
    = Some t
    /\ ~ In "Unnamed: 0" (columns t).
Proof.
  refine (process_never_keeps_artifact Sample.sources
            (mkRun Sample.fresh []) _ _).
  vm_compute. reflexivity.
Defined.

(** ** The test fixture *)

Section FixtureRuns.
Context {Engine : Type} (src : DataSources Engine) (lib : Builtins).

(** X25.  The tests see what the script exports.  When [start_test.py] runs
    through, the fixture of [validate_data.py] on the same configuration
    and sources returns the two tables the script wrote, after the same
    ingestion calls. *)
Theorem data_sees_exported_tables (config_params : Config) (log : list call) :
  Script.start_test src lib config_params [] = (Ok tt, log) ->
  exists before weather_table field_table,
    Validate.data src lib config_params []
    = (Ok (Some weather_table, Some field_table), before)
    /\ log = before ++ [ToCSV "sampled_weather_df.csv" weather_table;
                        ToCSV "sampled_field_df.csv" field_table].
Proof.
  unfold Script.start_test, Validate.data, bind, lift, ret, Script.call_method.
  destruct (Field.init config_params) as [fp|]; [|discriminate].
  destruct (Field.process src (mkRun fp [])) as [[[]|] s1]; [|discriminate].
  destruct (Weather.init config_params) as [wp|]; [|discriminate].
  destruct (Weather.process src lib (mkRun wp (calls s1))) as [[[]|] s2];
    [|discriminate].
  cbn [snd]. unfold Script.to_csv.
  destruct (weather_df (self s2)) as [wt|]; [|discriminate].
  destruct (write_csv lib "sampled_weather_df.csv" wt) as [[]|];
    [|discriminate].
  destruct (df (self s1)) as [ft|]; [|discriminate].
  destruct (write_csv lib "sampled_field_df.csv" ft) as [[]|];
    [|discriminate].
  intros [= <-]. exists (calls s2), wt, ft.
  rewrite <- app_assoc. split; reflexivity.
Qed.

(** X26.  The fixture reads the whole configuration before it ingests anything:
    a key either processor misses raises [KeyError] with no external call
    made, the weather processor's keys first. *)
Theorem data_checks_configuration_first (config_params : Config)
  (log : list call) :
  (forall e, Weather.init config_params = Raise e ->
     Validate.data src lib config_params log = (Raise e, log))
  /\ (forall wp e,
        Weather.init config_params = Ok wp ->
        Field.init (Engine:=Engine) config_params = Raise e ->
        Validate.data src lib config_params log = (Raise e, log))
  /\ (cfg_weather_csv_path config_params = None ->
      Validate.data src lib config_params log
      = (Raise (KeyError "weather_csv_path"), log)).
Proof.
  unfold Validate.data, bind, lift. split; [|split].
  - intros e ->. reflexivity.
  - intros wp e -> ->. reflexivity.
  - intro H. unfold Weather.init. rewrite H. reflexivity.
Qed.
End FixtureRuns.

Lemma data_sees_exported_tables_witness :
  exists before weather_table field_table,
    Validate.data Sample.sources Sample.lib Sample.config_params []
    = (Ok (Some weather_table, Some field_table), before)
    /\ snd (Script.start_test Sample.sources Sample.lib Sample.config_params [])
       = before ++ [ToCSV "sampled_weather_df.csv" weather_table;
                    ToCSV "sampled_field_df.csv" field_table].
Proof.
  refine (data_sees_exported_tables Sample.sources Sample.lib
            Sample.config_params _ _).
  vm_compute. reflexivity.
Defined.

Lemma data_checks_configuration_first_witness :
  Validate.data Sample.sources Sample.lib Sample2.no_patterns []
  = (Raise (KeyError "regex_patterns"), []).
Proof.
  exact (proj1 (data_checks_configuration_first Sample.sources Sample.lib
                  Sample2.no_patterns [])
           (KeyError "regex_patterns") eq_refl).
Defined.
